(** * docker-machine-driver-ovh: the cloud API client and the provisioning driver

    A shallow embedding of [src/main.go].  Go values are modelled as they
    are written: strings as byte strings, [int] as [Z], slices as lists (a
    nil slice is the empty list), pointers as [option] (nil is [None]) and a
    dereference of nil as a run-time panic.  The remote provider, the local
    file system and the random source are an environment of oracles that
    answer each call from the history of the calls made so far; every call
    is recorded in that history, so that what a function requested can be
    read back from it.  Logging calls have no effect on the result and are
    left out. *)

From Stdlib Require Import String Ascii List ZArith Lia Bool DecimalString.
Import ListNotations.
Local Open Scope list_scope.
Local Open Scope string_scope.

(** ** Constants *)

Definition DefaultSecurityGroup := "default".
Definition DefaultProjectName := "docker-machine".
Definition DefaultFlavorName := "b2-7".
Definition DefaultRegionName := "GRA1".
Definition DefaultImageName := "Ubuntu 20.04".
Definition DefaultSSHUserName := "ubuntu".
Definition DefaultBillingPeriod := "hourly".

Definition CustomerInterface := "https://www.ovh.com/manager/cloud/index.html".

Definition statusTimeout : Z := 200.

(** [time.Second], in nanoseconds. *)
Definition Second : Z := 1000000000.

(** ** Data model *)

Module Project.
Record t := mk {
  Name : string;
  ID : string;
  Unleash : bool;
  CreationDate : string;
  OrderID : Z;
  Status : string
}.
End Project.
Definition Project := Project.t.
Definition Projects := list string.

Module Flavor.
Record t := mk {
  Region : string;
  Name : string;
  ID : string;
  OS : string;
  Vcpus : Z;
  MemoryGB : Z;
  DiskSpaceGB : Z;
  Type_ : string
}.
End Flavor.
Definition Flavor := Flavor.t.
Definition Flavors := list Flavor.

Module Image.
Record t := mk {
  Region : string;
  Name : string;
  ID : string;
  OS : string;
  CreationDate : string;
  Status : string;
  MinDisk : Z;
  Visibility : string
}.
End Image.
Definition Image := Image.t.
Definition Images := list Image.

Definition Regions := list string.

Module Network.
Record t := mk {
  Status : string;
  Name : string;
  Type_ : string;
  ID : string;
  VlanID : Z
}.
End Network.
Definition Network := Network.t.
Definition Networks := list Network.

Module SshkeyReq.
Record t := mk {
  Name : string;
  PublicKey : string;
  Region : string
}.
End SshkeyReq.
Definition SshkeyReq := SshkeyReq.t.

Module Sshkey.
Record t := mk {
  Name : string;
  ID : string;
  PublicKey : string;
  Fingerprint : string;
  Regions_ : Regions
}.
End Sshkey.
Definition Sshkey := Sshkey.t.
Definition Sshkeys := list Sshkey.

Module IP.
Record t := mk {
  IP : string;
  Type_ : string
}.
End IP.
Definition IP := IP.t.
Definition IPs := list IP.

Module NetworkParam.
Record t := mk { ID : string }.
End NetworkParam.
Definition NetworkParam := NetworkParam.t.
Definition NetworkParams := list NetworkParam.

Module InstanceReq.
Record t := mk {
  Name : string;
  FlavorID : string;
  ImageID : string;
  Region : string;
  NetworkParams_ : NetworkParams;
  SshkeyID : string;
  MonthlyBilling : bool
}.
End InstanceReq.
Definition InstanceReq := InstanceReq.t.

Module Instance.
Record t := mk {
  Name : string;
  ID : string;
  Status : string;
  Created : string;
  Region : string;
  NetworkParams_ : NetworkParams;
  Image_ : Image;
  Flavor_ : Flavor;
  Sshkey_ : Sshkey;
  IPAddresses : IPs;
  MonthlyBilling : bool
}.
End Instance.
Definition Instance := Instance.t.

Module RebootReq.
Record t := mk { Type_ : string }.
End RebootReq.
Definition RebootReq := RebootReq.t.

(** ** Errors and panics *)

(** Go's [error] values: the SDK's [*ovh.APIError], which carries the
    provider's status code and message; any other error value handed back by
    the SDK, the operating system or a library ([OtherError]); an error built
    by [fmt.Errorf] from strings ([Errorf]); and [fmt.Errorf] applied to a
    format that ends in the text of another error ([ErrorfWrap]). *)
Inductive error :=
| APIError (Code : Z) (Message : string)
| OtherError (text : string)
| Errorf (text : string)
| ErrorfWrap (text : string) (cause : error).

Inductive panic :=
| NilPointerDereference
| IndexOutOfRange (index : nat) (len : nat).

Inductive outcome (A : Type) :=
| Val (a : A)
| Panic (p : panic).
Arguments Val {A} a.
Arguments Panic {A} p.

(** ** The environment *)

(** The SDK's client handle, [*ovh.Client]: the endpoint and the credentials
    it was built with. *)
Record ovhClient := mkClient {
  cl_endpoint : string;
  cl_appKey : string;
  cl_appSecret : string;
  cl_consumerKey : string
}.

(** API is a handle to an instanciated OVH API. *)
Module API.
Record t := mk { client : option ovhClient }.
End API.
Definition API := API.t.

Inductive PostBody :=
| BodySshkey (req : SshkeyReq)
| BodyInstance (req : InstanceReq)
| BodyReboot (req : RebootReq).

(** What the program asks of the outside world. *)
Inductive Event :=
| EvNewClient (endpoint applicationKey applicationSecret consumerKey : string)
| EvGet (c : ovhClient) (url : string)
| EvPost (c : ovhClient) (url : string) (body : PostBody)
| EvDelete (c : ovhClient) (url : string)
| EvSleep (nanoseconds : Z)
| EvStat (path : string)
| EvMkdirAll (path : string) (perm : Z)
| EvGenerateSSHKey (path : string)
| EvReadFile (path : string)
| EvGenerateRandomID.

Definition Trace := list Event.

(** The answers of the outside world, each a function of the calls made
    before it.  An HTTP verb of the SDK takes the address of the variable to
    decode the response into and returns an error: its answer is the value
    left in that variable together with the error. *)
Record Env := mkEnv {
  env_NewClient : Trace -> string -> string -> string -> string ->
                  option ovhClient * option error;
  env_Get_Projects : Trace -> ovhClient -> string -> Projects * option error;
  env_Get_Project : Trace -> ovhClient -> string -> option Project * option error;
  env_Get_Networks : Trace -> ovhClient -> string -> Networks * option error;
  env_Get_Regions : Trace -> ovhClient -> string -> Regions * option error;
  env_Get_Flavors : Trace -> ovhClient -> string -> Flavors * option error;
  env_Get_Images : Trace -> ovhClient -> string -> Images * option error;
  env_Get_Sshkeys : Trace -> ovhClient -> string -> Sshkeys * option error;
  env_Get_Instance : Trace -> ovhClient -> string -> option Instance * option error;
  env_Post_Sshkey : Trace -> ovhClient -> string -> SshkeyReq ->
                    option Sshkey * option error;
  env_Post_Instance : Trace -> ovhClient -> string -> InstanceReq ->
                      option Instance * option error;
  env_Post_Reboot : Trace -> ovhClient -> string -> RebootReq -> option error;
  env_Delete : Trace -> ovhClient -> string -> option error;
  env_Stat : Trace -> string -> option error;
  env_MkdirAll : Trace -> string -> Z -> option error;
  env_GenerateSSHKey : Trace -> string -> option error;
  env_ReadFile : Trace -> string -> string * option error;
  env_GenerateRandomID : Trace -> string;
  filepath_Join : list string -> string;
  filepath_Dir : string -> string
}.

(** ** Computations: a history of calls, and a value or a panic *)

Definition M (A : Type) : Type := Trace -> outcome A * Trace.

Definition ret {A} (a : A) : M A := fun t => (Val a, t).

Definition bind {A B} (m : M A) (k : A -> M B) : M B :=
  fun t =>
    match m t with
    | (Val a, t') => k a t'
    | (Panic p, t') => (Panic p, t')
    end.

Definition throw {A} (p : panic) : M A := fun t => (Panic p, t).

(** A call to the outside world: answered from the history, then recorded. *)
Definition call {A} (e : Event) (answer : Trace -> A) : M A :=
  fun t => (Val (answer t), (t ++ [e])%list).

(** [*p] *)
Definition deref {A} (p : option A) : M A :=
  match p with
  | Some v => ret v
  | None => throw NilPointerDereference
  end.

Declare Scope go_scope.
Delimit Scope go_scope with go.
Notation "x <- c1 ;; c2" := (bind c1 (fun x => c2))
  (at level 61, c1 at next level, right associativity) : go_scope.
Notation "' pat <- c1 ;; c2" := (bind c1 (fun x => match x with pat => c2 end))
  (at level 61, pat pattern, c1 at next level, right associativity) : go_scope.
Local Open Scope go_scope.

(** [fmt.Sprintf("%d", n)] *)
Definition itoa (n : Z) : string := NilZero.string_of_int (Z.to_int n).

(** [strings.Join] *)
Definition strings_Join (elems : list string) (sep : string) : string :=
  String.concat sep elems.

(** [strings.HasPrefix] *)
Definition strings_HasPrefix (s prefix : string) : bool := String.prefix prefix s.

(** [strings.Replace(s, old, new, -1)] for a non-empty [old]: every
    non-overlapping occurrence of [old], from the left, becomes [new].
    [skip] counts the bytes of an occurrence still to be dropped. *)
Fixpoint replace_from (old new : string) (skip : nat) (s : string) : string :=
  match s with
  | EmptyString => EmptyString
  | String c rest =>
      match skip with
      | S k => replace_from old new k rest
      | O =>
          if String.prefix old s
          then new ++ replace_from old new (String.length old - 1) rest
          else String c (replace_from old new O rest)
      end
  end.

Definition strings_Replace (s old new : string) : string :=
  replace_from old new O s.

(** * The cloud API client *)

Section Client.

Variable env : Env.

(** [a.client.Get(url, &v)]: [a] and [a.client] are pointers. *)
Definition client_Get {A} (answer : Env -> Trace -> ovhClient -> string -> A)
    (a : option API) (url : string) : M A :=
  api <- deref a ;;
  c <- deref (API.client api) ;;
  call (EvGet c url) (fun t => answer env t c url).

(** [a.client.Post(url, req, &v)] *)
Definition client_Post {R A} (body : R -> PostBody)
    (answer : Env -> Trace -> ovhClient -> string -> R -> A)
    (a : option API) (url : string) (req : R) : M A :=
  api <- deref a ;;
  c <- deref (API.client api) ;;
  call (EvPost c url (body req)) (fun t => answer env t c url req).

(** [a.client.Delete(url, nil)] *)
Definition client_Delete (a : option API) (url : string) : M (option error) :=
  api <- deref a ;;
  c <- deref (API.client api) ;;
  call (EvDelete c url) (fun t => env_Delete env t c url).

(** NewAPI instanciates a Cloud API driver from credentials. *)
Definition NewAPI (endpoint applicationKey applicationSecret consumerKey : string)
  : M (option API * option error) :=
  '(client, err) <- call (EvNewClient endpoint applicationKey applicationSecret consumerKey)
      (fun t => env_NewClient env t endpoint applicationKey applicationSecret consumerKey) ;;
  ret (Some (API.mk client), err).

(** GetProjects returns a list of string project ID *)
Definition GetProjects (a : option API) : M (Projects * option error) :=
  '(projects, err) <- client_Get env_Get_Projects a "/cloud/project" ;;
  ret (projects, err).

(** GetProject return the details of a project given a project id *)
Definition GetProject (a : option API) (projectID : string)
  : M (option Project * option error) :=
  '(project, err) <- client_Get env_Get_Project a ("/cloud/project/" ++ projectID) ;;
  ret (project, err).

(** The second loop of [GetProjectByName], and what follows it. *)
Fixpoint GetProjectByName_scan (a : option API) (projectName : string)
    (projects : Projects) : M (option Project * option error) :=
  match projects with
  | [] =>
      ret (None, Some (Errorf ("Project '" ++ projectName ++
        "' does not exist on OVH cloud. To create or rename a project, please visit "
        ++ CustomerInterface)))
  | projectID :: rest =>
      '(project, err) <- GetProject a projectID ;;
      match err with
      | Some e => ret (None, Some e)
      | None =>
          p <- deref project ;;
          if Project.Name p =? projectName
          then ret (project, None)
          else GetProjectByName_scan a projectName rest
      end
  end.

(** GetProjectByName returns the details of a project given its name. *)
Definition GetProjectByName (a : option API) (projectName : string)
  : M (option Project * option error) :=
  '(projects, err) <- GetProjects a ;;
  match err with
  | Some e => ret (None, Some e)
  | None =>
      match find (fun projectID => projectID =? projectName) projects with
      | Some projectID => GetProject a projectID
      | None => GetProjectByName_scan a projectName projects
      end
  end.

(** GetNetworks returns public & private networks for a given project *)
Definition GetNetworks (a : option API) (projectID : string) (privateNet : bool)
  : M (Networks * option error) :=
  let url :=
    if Bool.eqb privateNet true
    then "/cloud/project/" ++ projectID ++ "/network/private"
    else "/cloud/project/" ++ projectID ++ "/network/public" in
  '(networks, err) <- client_Get env_Get_Networks a url ;;
  ret (networks, err).

(** [s[i]] *)
Definition index {A} (s : list A) (i : nat) : M A :=
  match nth_error s i with
  | Some v => ret v
  | None => throw (IndexOutOfRange i (List.length s))
  end.

(** GetPublicNetworkID returns the public network id for a given project *)
Definition GetPublicNetworkID (a : option API) (projectID : string)
  : M (string * option error) :=
  '(networks, err) <- GetNetworks a projectID false ;;
  match err with
  | Some e => ret ("", Some e)
  | None =>
      network <- index networks 0 ;;
      ret (Network.ID network, None)
  end.

(** GetPrivateNetworkByName returns the details of a network given its name & project *)
Definition GetPrivateNetworkByName (a : option API) (projectID networkName : string)
  : M (option Network * option error) :=
  '(networks, err) <- GetNetworks a projectID true ;;
  match err with
  | Some e => ret (None, Some e)
  | None =>
      match find (fun network =>
                    (itoa (Network.VlanID network) =? networkName)
                    || (Network.Name network =? networkName)) networks with
      | Some network => ret (Some network, None)
      | None =>
          let networkNames := map Network.Name networks in
          ret (None, Some (Errorf ("Invalid private network " ++ networkName ++
            ". List of valid private networks include " ++
            strings_Join networkNames ", ")))
      end
  end.

(** GetRegions returns the list of valid regions for a given project *)
Definition GetRegions (a : option API) (projectID : string)
  : M (Regions * option error) :=
  let url := "/cloud/project/" ++ projectID ++ "/region" in
  '(regions, err) <- client_Get env_Get_Regions a url ;;
  ret (regions, err).

(** GetFlavors returns the list of available flavors for a given project in a given zone *)
Definition GetFlavors (a : option API) (projectID region : string)
  : M (Flavors * option error) :=
  let url := "/cloud/project/" ++ projectID ++ "/flavor?region=" ++ region in
  '(flavors, err) <- client_Get env_Get_Flavors a url ;;
  ret (flavors, err).

(** GetFlavorByName returns the details of a flavor given its name. *)
Definition GetFlavorByName (a : option API) (projectID region flavorName : string)
  : M (option Flavor * option error) :=
  '(flavors, err) <- GetFlavors a projectID region ;;
  match err with
  | Some e => ret (None, Some e)
  | None =>
      match find (fun flavor =>
                    if negb (Flavor.OS flavor =? "linux") then false
                    else (Flavor.ID flavor =? flavorName)
                         || (Flavor.Name flavor =? flavorName)) flavors with
      | Some flavor => ret (Some flavor, None)
      | None =>
          ret (None, Some (Errorf ("Flavor '" ++ flavorName ++
            "' does not exist on OVH cloud. To find a list of available flavors, please visit "
            ++ CustomerInterface)))
      end
  end.

(** GetImages returns a list of images for a given project in a given region *)
Definition GetImages (a : option API) (projectID region : string)
  : M (Images * option error) :=
  let url := "/cloud/project/" ++ projectID ++ "/image?osType=linux&region=" ++ region in
  '(images, err) <- client_Get env_Get_Images a url ;;
  ret (images, err).

(** GetImageByName returns the details of an image given its name, a project and a region. *)
Definition GetImageByName (a : option API) (projectID region imageName : string)
  : M (option Image * option error) :=
  '(images, err) <- GetImages a projectID region ;;
  match err with
  | Some e => ret (None, Some e)
  | None =>
      match find (fun image =>
                    if negb (Image.OS image =? "linux") then false
                    else (Image.ID image =? imageName)
                         || (Image.Name image =? imageName)) images with
      | Some image => ret (Some image, None)
      | None =>
          ret (None, Some (Errorf ("Image '" ++ imageName ++
            "' does not exist on OVH cloud. To find a list of available images, please visit "
            ++ CustomerInterface)))
      end
  end.

(** GetSshkeys returns a list of sshkeys for a given project in a given region *)
Definition GetSshkeys (a : option API) (projectID region : string)
  : M (Sshkeys * option error) :=
  let url := "/cloud/project/" ++ projectID ++ "/sshkey?region=" ++ region in
  '(sshkeys, err) <- client_Get env_Get_Sshkeys a url ;;
  ret (sshkeys, err).

(** GetSshkeyByName returns the details of an ssh key given its name in a given region. *)
Definition GetSshkeyByName (a : option API) (projectID region sshKeyName : string)
  : M (option Sshkey * option error) :=
  '(sshkeys, err) <- GetSshkeys a projectID region ;;
  match err with
  | Some e => ret (None, Some e)
  | None =>
      match find (fun sshkey =>
                    (Sshkey.ID sshkey =? sshKeyName)
                    || (Sshkey.Name sshkey =? sshKeyName)) sshkeys with
      | Some sshkey => ret (Some sshkey, None)
      | None =>
          ret (None, Some (Errorf ("SSH key '" ++ sshKeyName ++
            "' does not exist on OVH cloud. To find a list of available ssh keys, please visit "
            ++ CustomerInterface)))
      end
  end.

(** CreateSshkey uploads a new public key with name and returns resulting object *)
Definition CreateSshkey (a : option API) (projectID name pubkey : string)
  : M (option Sshkey * option error) :=
  let sshkeyreq := SshkeyReq.mk name pubkey "" in
  let url := "/cloud/project/" ++ projectID ++ "/sshkey" in
  '(sshkey, err) <- client_Post BodySshkey env_Post_Sshkey a url sshkeyreq ;;
  ret (sshkey, err).

(** The 404 of an [*ovh.APIError] is cleared, any other error is kept. *)
Definition ignore_not_found (err : option error) : option error :=
  match err with
  | Some (APIError Code _) => if (Code =? 404)%Z then None else err
  | _ => err
  end.

(** DeleteSshkey deletes an existing sshkey *)
Definition DeleteSshkey (a : option API) (projectID instanceID : string)
  : M (option error) :=
  let url := "/cloud/project/" ++ projectID ++ "/sshkey/" ++ instanceID in
  err <- client_Delete a url ;;
  ret (ignore_not_found err).

(** CreateInstance start a new public cloud instance and returns resulting object *)
Definition CreateInstance (a : option API)
    (projectID name pubkeyID flavorID ImageID region : string)
    (networkIDs : list string) (monthlyBilling : bool)
  : M (option Instance * option error) :=
  let instanceReq :=
    InstanceReq.mk name flavorID ImageID region
      (map NetworkParam.mk networkIDs) pubkeyID monthlyBilling in
  let url := "/cloud/project/" ++ projectID ++ "/instance" in
  '(instance, err) <- client_Post BodyInstance env_Post_Instance a url instanceReq ;;
  ret (instance, err).

(** RebootInstance reboot an instance *)
Definition RebootInstance (a : option API) (projectID instanceID : string) (hard : bool)
  : M (option error) :=
  let rebootReq :=
    if Bool.eqb hard true then RebootReq.mk "hard" else RebootReq.mk "soft" in
  let url := "/cloud/project/" ++ projectID ++ "/instance/" ++ instanceID ++ "/reboot" in
  client_Post BodyReboot env_Post_Reboot a url rebootReq.

(** DeleteInstance stops and destroys a public cloud instance *)
Definition DeleteInstance (a : option API) (projectID instanceID : string)
  : M (option error) :=
  let url := "/cloud/project/" ++ projectID ++ "/instance/" ++ instanceID in
  err <- client_Delete a url ;;
  ret (ignore_not_found err).

(** GetInstance finds a VM instance given a name or an ID.  The error of the
    GET is stored in [err]; the value returned is [nil]. *)
Definition GetInstance (a : option API) (projectID instanceID : string)
  : M (option Instance * option error) :=
  let url := "/cloud/project/" ++ projectID ++ "/instance/" ++ instanceID in
  '(instance, err) <- client_Get env_Get_Instance a url ;;
  ret (instance, None).

End Client.

(** * The provisioning driver *)

(** [drivers.BaseDriver] of libmachine, embedded in the driver. *)
Module BaseDriver.
Record t := mk {
  IPAddress : string;
  MachineName : string;
  SSHUser : string;
  SSHPort : Z;
  SSHKeyPath : string;
  StorePath : string;
  SwarmMaster : bool;
  SwarmHost : string;
  SwarmDiscovery : string
}.
Definition set_IPAddress (v : string) (b : t) : t :=
  mk v (MachineName b) (SSHUser b) (SSHPort b) (SSHKeyPath b) (StorePath b)
     (SwarmMaster b) (SwarmHost b) (SwarmDiscovery b).
Definition set_SSHUser (v : string) (b : t) : t :=
  mk (IPAddress b) (MachineName b) v (SSHPort b) (SSHKeyPath b) (StorePath b)
     (SwarmMaster b) (SwarmHost b) (SwarmDiscovery b).
Definition set_SSHKeyPath (v : string) (b : t) : t :=
  mk (IPAddress b) (MachineName b) (SSHUser b) (SSHPort b) v (StorePath b)
     (SwarmMaster b) (SwarmHost b) (SwarmDiscovery b).
Definition set_Swarm (master : bool) (host discovery : string) (b : t) : t :=
  mk (IPAddress b) (MachineName b) (SSHUser b) (SSHPort b) (SSHKeyPath b) (StorePath b)
     master host discovery.
End BaseDriver.

(** Driver is a machine driver for OVH. *)
Module Driver.
Record t := mk {
  Base : BaseDriver.t;
  ProjectName : string;
  FlavorName : string;
  RegionName : string;
  PrivateNetworkName : string;
  BillingPeriod : string;
  Endpoint : string;
  ProjectID : string;
  FlavorID : string;
  ImageID : string;
  InstanceID : string;
  KeyPairName : string;
  KeyPairID : string;
  NetworkIDs : list string;
  ApplicationKey : string;
  ApplicationSecret : string;
  ConsumerKey : string;
  client : option API
}.
Definition set_Base (v : BaseDriver.t) (d : t) : t :=
  mk v (ProjectName d) (FlavorName d) (RegionName d) (PrivateNetworkName d)
     (BillingPeriod d) (Endpoint d) (ProjectID d) (FlavorID d) (ImageID d)
     (InstanceID d) (KeyPairName d) (KeyPairID d) (NetworkIDs d)
     (ApplicationKey d) (ApplicationSecret d) (ConsumerKey d) (client d).
Definition set_ProjectID (v : string) (d : t) : t :=
  mk (Base d) (ProjectName d) (FlavorName d) (RegionName d) (PrivateNetworkName d)
     (BillingPeriod d) (Endpoint d) v (FlavorID d) (ImageID d)
     (InstanceID d) (KeyPairName d) (KeyPairID d) (NetworkIDs d)
     (ApplicationKey d) (ApplicationSecret d) (ConsumerKey d) (client d).
Definition set_FlavorID (v : string) (d : t) : t :=
  mk (Base d) (ProjectName d) (FlavorName d) (RegionName d) (PrivateNetworkName d)
     (BillingPeriod d) (Endpoint d) (ProjectID d) v (ImageID d)
     (InstanceID d) (KeyPairName d) (KeyPairID d) (NetworkIDs d)
     (ApplicationKey d) (ApplicationSecret d) (ConsumerKey d) (client d).
Definition set_ImageID (v : string) (d : t) : t :=
  mk (Base d) (ProjectName d) (FlavorName d) (RegionName d) (PrivateNetworkName d)
     (BillingPeriod d) (Endpoint d) (ProjectID d) (FlavorID d) v
     (InstanceID d) (KeyPairName d) (KeyPairID d) (NetworkIDs d)
     (ApplicationKey d) (ApplicationSecret d) (ConsumerKey d) (client d).
Definition set_InstanceID (v : string) (d : t) : t :=
  mk (Base d) (ProjectName d) (FlavorName d) (RegionName d) (PrivateNetworkName d)
     (BillingPeriod d) (Endpoint d) (ProjectID d) (FlavorID d) (ImageID d)
     v (KeyPairName d) (KeyPairID d) (NetworkIDs d)
     (ApplicationKey d) (ApplicationSecret d) (ConsumerKey d) (client d).
Definition set_KeyPairName (v : string) (d : t) : t :=
  mk (Base d) (ProjectName d) (FlavorName d) (RegionName d) (PrivateNetworkName d)
     (BillingPeriod d) (Endpoint d) (ProjectID d) (FlavorID d) (ImageID d)
     (InstanceID d) v (KeyPairID d) (NetworkIDs d)
     (ApplicationKey d) (ApplicationSecret d) (ConsumerKey d) (client d).
Definition set_KeyPairID (v : string) (d : t) : t :=
  mk (Base d) (ProjectName d) (FlavorName d) (RegionName d) (PrivateNetworkName d)
     (BillingPeriod d) (Endpoint d) (ProjectID d) (FlavorID d) (ImageID d)
     (InstanceID d) (KeyPairName d) v (NetworkIDs d)
     (ApplicationKey d) (ApplicationSecret d) (ConsumerKey d) (client d).
Definition set_NetworkIDs (v : list string) (d : t) : t :=
  mk (Base d) (ProjectName d) (FlavorName d) (RegionName d) (PrivateNetworkName d)
     (BillingPeriod d) (Endpoint d) (ProjectID d) (FlavorID d) (ImageID d)
     (InstanceID d) (KeyPairName d) (KeyPairID d) v
     (ApplicationKey d) (ApplicationSecret d) (ConsumerKey d) (client d).
Definition set_client (v : option API) (d : t) : t :=
  mk (Base d) (ProjectName d) (FlavorName d) (RegionName d) (PrivateNetworkName d)
     (BillingPeriod d) (Endpoint d) (ProjectID d) (FlavorID d) (ImageID d)
     (InstanceID d) (KeyPairName d) (KeyPairID d) (NetworkIDs d)
     (ApplicationKey d) (ApplicationSecret d) (ConsumerKey d) v.
(** The fields promoted from the embedded base driver. *)
Definition MachineName (d : t) : string := BaseDriver.MachineName (Base d).
Definition StorePath (d : t) : string := BaseDriver.StorePath (Base d).
Definition SSHKeyPath (d : t) : string := BaseDriver.SSHKeyPath (Base d).
Definition IPAddress (d : t) : string := BaseDriver.IPAddress (Base d).
Definition set_SSHKeyPath (v : string) (d : t) : t :=
  set_Base (BaseDriver.set_SSHKeyPath v (Base d)) d.
Definition set_IPAddress (v : string) (d : t) : t :=
  set_Base (BaseDriver.set_IPAddress v (Base d)) d.
End Driver.
Definition Driver := Driver.t.

(** [drivers.DriverOptions]: the values of the command line flags. *)
Module DriverOptions.
Record t := mk {
  String : string -> string;
  Bool : string -> bool
}.
End DriverOptions.
Definition DriverOptions := DriverOptions.t.

(** [state.State] of libmachine. *)
Module state.
Inductive State :=
| None_ | Running | Paused | Saved | Stopped | Stopping | Starting | Error | Timeout.
End state.

(** The driver registered by [main]. *)
Definition main_Driver : Driver :=
  Driver.mk
    (BaseDriver.mk "" "" DefaultSSHUserName 22 "" "" false "" "")
    "" "" "" "" "" "" "" "" "" "" "" "" [] "" "" "" None.

(** [mcnflag.StringFlag] of libmachine: a flag of the command line that
    holds a string.  A field left out of a literal is the empty string. *)
Module StringFlag.
Record t := mk {
  EnvVar : string;
  Name : string;
  Usage : string;
  Value : string
}.
End StringFlag.

(** GetCreateFlags registers the "machine create" flags recognized by this
    driver, including their help text and defaults. *)
Definition GetCreateFlags (d : Driver) : list StringFlag.t :=
  [ StringFlag.mk "OVH_APPLICATION_KEY" "ovh-application-key"
      "OVH API application key. May be stored in ovh.conf" "";
    StringFlag.mk "OVH_APPLICATION_SECRET" "ovh-application-secret"
      "OVH API application secret. May be stored in ovh.conf" "";
    StringFlag.mk "OVH_CONSUMER_KEY" "ovh-consumer-key"
      "OVH API consumer key. May be stored in ovh.conf" "";
    StringFlag.mk "" "ovh-endpoint" "OVH Cloud API endpoint. Default: ovh-eu" "";
    StringFlag.mk "" "ovh-project" "OVH Cloud project name or id" "";
    StringFlag.mk "" "ovh-region" "OVH Cloud region name" DefaultRegionName;
    StringFlag.mk "" "ovh-flavor" "OVH Cloud flavor name or id. Default: b2-7"
      DefaultFlavorName;
    StringFlag.mk "" "ovh-image" "OVH Cloud Image name or id. Default: Ubuntu 20.04"
      DefaultImageName;
    StringFlag.mk "" "ovh-private-network"
      "OVH Cloud (private) network name or vlan number. Default: public network" "";
    StringFlag.mk "" "ovh-ssh-key"
      "OVH Cloud ssh key name or id to use. Default: generate a random name" "";
    StringFlag.mk "" "ovh-ssh-user" "OVH Cloud ssh username to use. Default: machine"
      DefaultSSHUserName;
    StringFlag.mk "" "ovh-billing-period"
      "OVH Cloud billing period (hourly or monthly). Default: hourly"
      DefaultBillingPeriod ].

(** DriverName returns the name of the driver *)
Definition DriverName (d : Driver) : string := "ovh".

(** SetConfigFromFlags assigns and verifies the command-line arguments
    presented to the driver. *)
Definition SetConfigFromFlags (d : Driver) (flags : DriverOptions) : Driver * option error :=
  let S := DriverOptions.String flags in
  let B := DriverOptions.Bool flags in
  let base :=
    BaseDriver.set_SSHUser (S "ovh-ssh-user")
      (BaseDriver.set_Swarm (B "swarm-master") (S "swarm-host") (S "swarm-discovery")
         (Driver.Base d)) in
  (Driver.mk base
     (S "ovh-project") (S "ovh-flavor") (S "ovh-region") (S "ovh-private-network")
     (S "ovh-billing-period") (S "ovh-endpoint")
     (Driver.ProjectID d) (Driver.FlavorID d) (S "ovh-image") (Driver.InstanceID d)
     (S "ovh-ssh-key") (Driver.KeyPairID d) (Driver.NetworkIDs d)
     (S "ovh-application-key") (S "ovh-application-secret") (S "ovh-consumer-key")
     (Driver.client d),
   None).

(** copied from openstack driver *)
Definition sanitizeKeyPairName (s : string) : string :=
  strings_Replace s "." "_".

(** GetSSHHostname returns the hostname for SSH *)
Definition GetSSHHostname (d : Driver) : string * option error :=
  (Driver.IPAddress d, None).

(** GetSSHKeyPath returns the ssh key path *)
Definition GetSSHKeyPath (d : Driver) : string := Driver.SSHKeyPath d.

Definition publicSSHKeyPath (d : Driver) : string := GetSSHKeyPath d ++ ".pub".

(** [strings.IndexByte(s, c) >= 0] *)
Fixpoint contains_byte (c : ascii) (s : string) : bool :=
  match s with
  | EmptyString => false
  | String c' rest => if Ascii.eqb c' c then true else contains_byte c rest
  end.

(** [net.JoinHostPort] *)
Definition net_JoinHostPort (host port : string) : string :=
  if contains_byte ":" host then "[" ++ host ++ "]:" ++ port
  else host ++ ":" ++ port.

(** GetURL returns docker daemon URL on this machine *)
Definition GetURL (d : Driver) : string * option error :=
  if Driver.IPAddress d =? "" then ("", None)
  else ("tcp://" ++ net_JoinHostPort (Driver.IPAddress d) "2376", None).

(** Kill (STUB) kill machine *)
Definition Kill (d : Driver) : option error :=
  Some (Errorf "Killing machines is not possible on OVH Cloud").

(** Start (STUB) start machine *)
Definition Start (d : Driver) : option error :=
  Some (Errorf "Starting machines is not possible on OVH Cloud").

(** Stop (STUB) stop machine *)
Definition Stop (d : Driver) : option error :=
  Some (Errorf "Stopping machines is not possible on OVH Cloud").

(** Modelled from the spec: [mcnutils.WaitForSpecificOrError] belongs to
    libmachine, whose source is not part of this repository.  It calls [f] up to [maxAttempts]
    times, sleeping [waitInterval] after every call that asks to keep
    waiting; an error from [f] stops the wait with that error, a stop
    without error ends it with success, and running out of attempts is a
    failure of its own.  [f] is a closure: the variables it captures are
    passed through it as [s]. *)
Fixpoint WaitForSpecificOrError_from {S : Type}
    (f : S -> M (S * (bool * option error)))
    (attempts : nat) (maxAttempts : Z) (waitInterval : Z) (s : S)
  : M (S * option error) :=
  match attempts with
  | O =>
      ret (s, Some (Errorf ("Maximum number of retries (" ++ itoa maxAttempts
                            ++ ") exceeded")))
  | Datatypes.S n =>
      '(s, (stop, err)) <- f s ;;
      match err with
      | Some e => ret (s, Some e)
      | None =>
          if stop then ret (s, None)
          else
            _ <- call (EvSleep waitInterval) (fun _ => tt) ;;
            WaitForSpecificOrError_from f n maxAttempts waitInterval s
      end
  end.

Definition WaitForSpecificOrError {S : Type}
    (f : S -> M (S * (bool * option error)))
    (maxAttempts : Z) (waitInterval : Z) (s : S) : M (S * option error) :=
  WaitForSpecificOrError_from f (Z.to_nat maxAttempts) maxAttempts waitInterval s.

Section DriverOps.

Variable env : Env.

(** [d.ResolveStorePath(file)] of the base driver. *)
Definition ResolveStorePath (d : Driver) (file : string) : string :=
  filepath_Join env [Driver.StorePath d; "machines"; Driver.MachineName d; file].

(** getClient returns an OVH API client *)
Definition getClient (d : Driver) : M (Driver * (option API * option error)) :=
  match Driver.client d with
  | None =>
      '(client, err) <- NewAPI env (Driver.Endpoint d) (Driver.ApplicationKey d)
                          (Driver.ApplicationSecret d) (Driver.ConsumerKey d) ;;
      match err with
      | Some e =>
          ret (d, (None, Some (ErrorfWrap
            "Could not create a connection to OVH API. You may want to visit: https://github.com/yadutaf/docker-machine-driver-ovh#example-usage. The original error was: "
            e)))
      | None =>
          let d := Driver.set_client client d in
          ret (d, (Driver.client d, None))
      end
  | Some _ => ret (d, (Driver.client d, None))
  end.

(** The list of names built when several projects exist and none was chosen. *)
Fixpoint PreCreateCheck_projectNames (client : option API) (projects : Projects)
  : M (list string) :=
  match projects with
  | [] => ret []
  | projectID :: rest =>
      '(project, err) <- GetProject env client projectID ;;
      name <- match err with
              | Some _ => ret projectID
              | None => p <- deref project ;; ret (Project.Name p)
              end ;;
      names <- PreCreateCheck_projectNames client rest ;;
      ret (name :: names)
  end.

(** PreCreateCheck, the block that validates the project id. *)
Definition PreCreateCheck_project (client : option API) (d : Driver)
  : M (Driver * option error) :=
  if negb (Driver.ProjectName d =? "") then
    '(project, err) <- GetProjectByName env client (Driver.ProjectName d) ;;
    match err with
    | Some e => ret (d, Some e)
    | None => p <- deref project ;; ret (Driver.set_ProjectID (Project.ID p) d, None)
    end
  else
    '(projects, err) <- GetProjects env client ;;
    match err with
    | Some e => ret (d, Some e)
    | None =>
        (* If there is only one project, take it *)
        if (List.length projects =? 1)%nat then
          projectID <- index projects 0 ;;
          ret (Driver.set_ProjectID projectID d, None)
        else if (List.length projects =? 0)%nat then
          ret (d, Some (Errorf
            ("No Cloud project could be found. To create a new one, please visit "
             ++ CustomerInterface)))
        else
          (* Build a list of project names to help choose one *)
          projectNames <- PreCreateCheck_projectNames client projects ;;
          ret (d, Some (Errorf ("Multiple Cloud project found (" ++
            strings_Join projectNames ", " ++
            "), to select one, use '--ovh-project' option")))
    end.

(** PreCreateCheck, the block that validates the private network. *)
Definition PreCreateCheck_network (client : option API) (d : Driver)
  : M (Driver * option error) :=
  if negb (Driver.PrivateNetworkName d =? "") then
    '(privateNetwork, err) <- GetPrivateNetworkByName env client (Driver.ProjectID d)
                                (Driver.PrivateNetworkName d) ;;
    match err with
    | Some e => ret (d, Some e)
    | None =>
        n <- deref privateNetwork ;;
        let d := Driver.set_NetworkIDs (Driver.NetworkIDs d ++ [Network.ID n])%list d in
        '(publicNetworkID, err) <- GetPublicNetworkID env client (Driver.ProjectID d) ;;
        match err with
        | Some e => ret (d, Some e)
        | None =>
            ret (Driver.set_NetworkIDs (Driver.NetworkIDs d ++ [publicNetworkID])%list d,
                 None)
        end
    end
  else ret (d, None).

(** PreCreateCheck, the last block: use a common key or create a machine
    specific one. *)
Definition PreCreateCheck_key (d : Driver) : M (Driver * option error) :=
  let keyPath := filepath_Join env [Driver.StorePath d; "sshkeys"; Driver.KeyPairName d] in
  if negb (String.length (Driver.KeyPairName d) =? 0)%nat then
    err <- call (EvStat keyPath) (fun t => env_Stat env t keyPath) ;;
    match err with
    | None => ret (Driver.set_SSHKeyPath keyPath d, None)
    | Some _ => ret (d, None)
    end
  else
    randomID <- call EvGenerateRandomID (env_GenerateRandomID env) ;;
    let d := Driver.set_KeyPairName (Driver.MachineName d ++ "-" ++ randomID) d in
    let d := Driver.set_KeyPairName (sanitizeKeyPairName (Driver.KeyPairName d)) d in
    let d := Driver.set_SSHKeyPath (ResolveStorePath d (Driver.KeyPairName d)) d in
    ret (d, None).

(** PreCreateCheck, from the validation of the project to the end. *)
Definition PreCreateCheck_resolve (client : option API) (d : Driver)
  : M (Driver * option error) :=
  (* Validate project id *)
  '(d, err) <- PreCreateCheck_project client d ;;
  match err with
  | Some e => ret (d, Some e)
  | None =>
  (* Validate region *)
  '(regions, err) <- GetRegions env client (Driver.ProjectID d) ;;
  match err with
  | Some e => ret (d, Some e)
  | None =>
  let ok := existsb (fun region => region =? Driver.RegionName d) regions in
  if negb (Bool.eqb ok true)
  then ret (d, Some (Errorf ("Invalid region " ++ Driver.RegionName d ++
         ". For a list of valid ovh regions, please visis " ++ CustomerInterface)))
  else
  (* Validate flavor *)
  '(flavor, err) <- GetFlavorByName env client (Driver.ProjectID d) (Driver.RegionName d)
                      (Driver.FlavorName d) ;;
  match err with
  | Some e => ret (d, Some e)
  | None =>
  f <- deref flavor ;;
  let d := Driver.set_FlavorID (Flavor.ID f) d in
  (* Validate image *)
  '(image, err) <- GetImageByName env client (Driver.ProjectID d) (Driver.RegionName d)
                     (Driver.ImageID d) ;;
  match err with
  | Some e => ret (d, Some e)
  | None =>
  i <- deref image ;;
  let d := Driver.set_ImageID (Image.ID i) d in
  (* Validate private network *)
  '(d, err) <- PreCreateCheck_network client d ;;
  match err with
  | Some e => ret (d, Some e)
  | None =>
  (* Use a common key or create a machine specific one *)
  PreCreateCheck_key d
  end end end end end.

(** PreCreateCheck does the network side validation.  The source is one
    function; its blocks are named above so that they can be spoken of. *)
Definition PreCreateCheck (d : Driver) : M (Driver * option error) :=
  '(d, (client, err)) <- getClient d ;;
  match err with
  | Some e => ret (d, Some e)
  | None =>
  (* Validate billing period *)
  if negb (Driver.BillingPeriod d =? "monthly") && negb (Driver.BillingPeriod d =? "hourly")
  then ret (d, Some (Errorf ("Invalid billing period '" ++ Driver.BillingPeriod d ++
                             "'. Please select one of 'hourly', 'monthly'")))
  else PreCreateCheck_resolve client d
  end.

(** ensureSSHKey makes sure an SSH key for the machine exists with requested name *)
Definition ensureSSHKey (d : Driver) : M (Driver * option error) :=
  '(d, (client, err)) <- getClient d ;;
  match err with
  | Some e => ret (d, Some e)
  | None =>
  (* Attempt to get an existing key *)
  '(sshKey, _) <- GetSshkeyByName env client (Driver.ProjectID d) (Driver.RegionName d)
                    (Driver.KeyPairName d) ;;
  match sshKey with
  | Some k => ret (Driver.set_KeyPairID (Sshkey.ID k) d, None)
  | None =>
  (* Generate key and parent dir if needed *)
  let keyfile := GetSSHKeyPath d in
  let keypath := filepath_Dir env keyfile in
  err <- call (EvMkdirAll keypath 448) (fun t => env_MkdirAll env t keypath 448%Z) ;;
  match err with
  | Some e => ret (d, Some e)
  | None =>
  err <- call (EvGenerateSSHKey (GetSSHKeyPath d))
              (fun t => env_GenerateSSHKey env t (GetSSHKeyPath d)) ;;
  match err with
  | Some e => ret (d, Some e)
  | None =>
  '(publicKey, err) <- call (EvReadFile (publicSSHKeyPath d))
                            (fun t => env_ReadFile env t (publicSSHKeyPath d)) ;;
  match err with
  | Some e => ret (d, Some e)
  | None =>
  (* Upload key *)
  '(sshKey, err) <- CreateSshkey env client (Driver.ProjectID d) (Driver.KeyPairName d)
                      publicKey ;;
  match err with
  | Some e => ret (d, Some e)
  | None =>
  k <- deref sshKey ;;
  ret (Driver.set_KeyPairID (Sshkey.ID k) d, None)
  end end end end end end.

(** The closure polled by [waitForInstanceStatus].  It assigns the named
    results [instance] and [err] of the enclosing function, which are passed
    through it as a pair. *)
Definition waitForInstanceStatus_poll (d : Driver) (status : string)
    (vars : option Instance * option error)
  : M ((option Instance * option error) * (bool * option error)) :=
  '(instance, err) <- GetInstance env (Driver.client d) (Driver.ProjectID d)
                        (Driver.InstanceID d) ;;
  match err with
  | Some e => ret ((instance, err), (true, Some e))
  | None =>
      i <- deref instance ;;
      if Instance.Status i =? "ERROR" then
        ret ((instance, err),
             (true, Some (Errorf "Instance creation failed. Instance is in ERROR state")))
      else if Instance.Status i =? status then
        ret ((instance, err), (true, None))
      else
        ret ((instance, err), (false, None))
  end.

(** waitForInstanceStatus waits until instance reaches status.  The instance
    returned is the named result as the closure left it. *)
Definition waitForInstanceStatus (d : Driver) (status : string)
  : M (option Instance * option error) :=
  '((instance, _), err) <- WaitForSpecificOrError (waitForInstanceStatus_poll d status)
                             (Z.quot statusTimeout 4) (4 * Second)%Z (None, None) ;;
  ret (instance, err).

(** Create a new docker machine instance on OVH Cloud *)
Definition Create (d : Driver) : M (Driver * option error) :=
  '(d, (client, err)) <- getClient d ;;
  match err with
  | Some e => ret (d, Some e)
  | None =>
  (* Ensure ssh key *)
  '(d, err) <- ensureSSHKey d ;;
  match err with
  | Some e => ret (d, Some e)
  | None =>
  (* Create instance *)
  let monthlyBilling := Driver.BillingPeriod d =? "monthly" in
  '(instance, err) <- CreateInstance env client (Driver.ProjectID d) (Driver.MachineName d)
                        (Driver.KeyPairID d) (Driver.FlavorID d) (Driver.ImageID d)
                        (Driver.RegionName d) (Driver.NetworkIDs d) monthlyBilling ;;
  match err with
  | Some e => ret (d, Some e)
  | None =>
  i <- deref instance ;;
  let d := Driver.set_InstanceID (Instance.ID i) d in
  (* Wait until instance is ACTIVE *)
  '(instance, err) <- waitForInstanceStatus d "ACTIVE" ;;
  match err with
  | Some e => ret (d, Some e)
  | None =>
  (* Save Ip address *)
  let d := Driver.set_IPAddress "" d in
  i <- deref instance ;;
  let d := match find (fun ip => IP.Type_ ip =? "public") (Instance.IPAddresses i) with
           | Some ip => Driver.set_IPAddress (IP.IP ip) d
           | None => d
           end in
  if Driver.IPAddress d =? "" then
    ret (d, Some (Errorf ("No IP found for instance " ++ Instance.ID i)))
  else ret (d, None)
  end end end end.

(** GetState return instance status *)
Definition GetState (d : Driver) : M (Driver * (state.State * option error)) :=
  '(d, (client, err)) <- getClient d ;;
  match err with
  | Some e => ret (d, (state.None_, Some e))
  | None =>
  '(instance, err) <- GetInstance env client (Driver.ProjectID d) (Driver.InstanceID d) ;;
  match err with
  | Some e => ret (d, (state.None_, Some e))
  | None =>
  i <- deref instance ;;
  let s := Instance.Status i in
  if s =? "ACTIVE" then ret (d, (state.Running, None))
  else if s =? "PAUSED" then ret (d, (state.Paused, None))
  else if s =? "SUSPENDED" then ret (d, (state.Saved, None))
  else if s =? "SHUTOFF" then ret (d, (state.Stopped, None))
  else if s =? "BUILDING" then ret (d, (state.Starting, None))
  else if s =? "ERROR" then ret (d, (state.Error, None))
  else ret (d, (state.None_, None))
  end end.

(** Remove deletes a machine and it's SSH keys from OVH Cloud *)
Definition Remove (d : Driver) : M (Driver * option error) :=
  '(d, (client, err)) <- getClient d ;;
  match err with
  | Some e => ret (d, Some e)
  | None =>
  (* Deletes instance, if we created it *)
  err <- (if negb (Driver.InstanceID d =? "")
          then DeleteInstance env client (Driver.ProjectID d) (Driver.InstanceID d)
          else ret None) ;;
  match err with
  | Some e => ret (d, Some e)
  | None =>
  (* If key name does not starts with the machine ID, this is a pre-existing key, keep it *)
  if negb (strings_HasPrefix (Driver.KeyPairName d) (Driver.MachineName d))
  then ret (d, None)
  else
  (* Deletes ssh key, if we created it *)
  if negb (Driver.KeyPairID d =? "") then
    err <- DeleteSshkey env client (Driver.ProjectID d) (Driver.KeyPairID d) ;;
    match err with
    | Some e => ret (d, Some e)
    | None => ret (d, None)
    end
  else ret (d, None)
  end end.

(** Restart this docker-machine *)
Definition Restart (d : Driver) : M (Driver * option error) :=
  '(d, (client, err)) <- getClient d ;;
  match err with
  | Some e => ret (d, Some e)
  | None =>
  err <- RebootInstance env client (Driver.ProjectID d) (Driver.InstanceID d) false ;;
  match err with
  | Some e => ret (d, Some e)
  | None => ret (d, None)
  end end.

End DriverOps.

(** * A scripted environment

    A provider whose catalogs are fixed and whose answers to the polls of an
    instance and to deletions follow a script, one entry per request of that
    kind made so far. *)

Module Sim.

Record World := mkWorld {
  projects : Projects;
  project : string -> option Project * option error;
  privateNetworks : Networks;
  publicNetworks : Networks;
  regions : Regions;
  flavors : Flavors;
  images : Images;
  sshkeys : Sshkeys;
  polls : list (option Instance * option error);
  lastPoll : option Instance * option error;
  deletions : list (option error);
  lastDeletion : option error;
  randomID : string
}.


Definition is_Delete (e : Event) : bool :=
  match e with EvDelete _ _ => true | _ => false end.

Definition count (p : Event -> bool) (t : Trace) : nat := List.length (filter p t).

(** [strings.HasSuffix] *)
Definition has_suffix (s suffix : string) : bool :=
  let n := String.length s in
  let k := String.length suffix in
  (k <=? n)%nat && (substring (n - k) k s =? suffix).

(** A poll is a GET of the instance [i-1]. *)
Definition is_poll (e : Event) : bool :=
  match e with EvGet _ url => has_suffix url "/instance/i-1" | _ => false end.

Definition join_with_slash (elems : list string) : string := String.concat "/" elems.

Definition ovh : ovhClient := mkClient "ovh-eu" "ak" "as" "ck".
Definition api : option API := Some (API.mk (Some ovh)).

Definition linux_flavor (name id : string) : Flavor :=
  Flavor.mk "GRA1" name id "linux" 2 7 50 "ovh.ssd.eg".
Definition linux_image (name id : string) : Image :=
  Image.mk "GRA1" name id "linux" "2020-04-23" "active" 0 "public".
Definition key (name id : string) : Sshkey := Sshkey.mk name id "ssh-rsa AAAA" "" ["GRA1"].
Definition network (name id : string) (vlan : Z) (type : string) : Network :=
  Network.mk "ACTIVE" name type id vlan.
Definition instance (status : string) : Instance :=
  Instance.mk "m1" "i-1" status "2020-05-01" "GRA1" []
    (linux_image "Ubuntu 20.04" "im-4") (linux_flavor "b2-7" "f-9") (key "k" "k-7")
    [IP.mk "203.0.113.5" "public"] false.

Definition env (w : World) : Env :=
  mkEnv
    (fun _ endpoint ak asec ck => (Some (mkClient endpoint ak asec ck), None))
    (fun _ _ _ => (projects w, None))
    (fun _ _ url => project w url)
    (fun _ _ url => if has_suffix url "/network/private"
                    then (privateNetworks w, None) else (publicNetworks w, None))
    (fun _ _ _ => (regions w, None))
    (fun _ _ _ => (flavors w, None))
    (fun _ _ _ => (images w, None))
    (fun _ _ _ => (sshkeys w, None))
    (fun t _ _ => nth (count is_poll t) (polls w) (lastPoll w))
    (fun _ _ _ req => (Some (Sshkey.mk (SshkeyReq.Name req) "k-7" (SshkeyReq.PublicKey req) "" []), None))
    (fun _ _ _ _ => (Some (instance "BUILDING"), None))
    (fun _ _ _ _ => None)
    (fun t _ _ => nth (count is_Delete t) (deletions w) (lastDeletion w))
    (fun _ _ => Some (OtherError "no such file or directory"))
    (fun _ _ _ => None)
    (fun _ _ => None)
    (fun _ _ => ("ssh-rsa AAAA", None))
    (fun _ => randomID w)
    join_with_slash
    (fun path => path).

Definition acme : World :=
  mkWorld ["pr-1"]
    (fun url => (Some (Project.mk "acme" "pr-1" false "2020-01-01" 1 "ok"), None))
    [network "backend" "pn-1" 42 "private"]
    [network "Ext-Net" "pub-1" 0 "public"]
    ["GRA1"; "SBG1"]
    [linux_flavor "b2-7" "f-9"]
    [linux_image "Ubuntu 20.04" "im-4"]
    []
    [] (Some (instance "ACTIVE"), None)
    [] None
    "0123abcd".

Definition with_polls (script : list (option Instance * option error))
    (last : option Instance * option error) (w : World) : World :=
  mkWorld (projects w) (project w) (privateNetworks w) (publicNetworks w) (regions w)
    (flavors w) (images w) (sshkeys w) script last (deletions w) (lastDeletion w)
    (randomID w).

Definition with_deletions (script : list (option error)) (last : option error)
    (w : World) : World :=
  mkWorld (projects w) (project w) (privateNetworks w) (publicNetworks w) (regions w)
    (flavors w) (images w) (sshkeys w) (polls w) (lastPoll w) script last (randomID w).

Definition with_sshkeys (keys : Sshkeys) (w : World) : World :=
  mkWorld (projects w) (project w) (privateNetworks w) (publicNetworks w) (regions w)
    (flavors w) (images w) keys (polls w) (lastPoll w) (deletions w) (lastDeletion w)
    (randomID w).

Definition with_publicNetworks (nets : Networks) (w : World) : World :=
  mkWorld (projects w) (project w) (privateNetworks w) nets (regions w)
    (flavors w) (images w) (sshkeys w) (polls w) (lastPoll w) (deletions w)
    (lastDeletion w) (randomID w).

Definition with_projects (ids : Projects) (w : World) : World :=
  mkWorld ids (project w) (privateNetworks w) (publicNetworks w) (regions w)
    (flavors w) (images w) (sshkeys w) (polls w) (lastPoll w) (deletions w)
    (lastDeletion w) (randomID w).

Definition with_flavors (catalog : Flavors) (w : World) : World :=
  mkWorld (projects w) (project w) (privateNetworks w) (publicNetworks w) (regions w)
    catalog (images w) (sshkeys w) (polls w) (lastPoll w) (deletions w)
    (lastDeletion w) (randomID w).

Definition with_images (catalog : Images) (w : World) : World :=
  mkWorld (projects w) (project w) (privateNetworks w) (publicNetworks w) (regions w)
    (flavors w) catalog (sshkeys w) (polls w) (lastPoll w) (deletions w)
    (lastDeletion w) (randomID w).

(** The command line of [docker-machine create m1 --ovh-project acme ...]. *)
Definition flags (privateNetwork sshKey billing : string) : DriverOptions :=
  DriverOptions.mk
    (fun name =>
       if name =? "ovh-project" then "acme"
       else if name =? "ovh-region" then DefaultRegionName
       else if name =? "ovh-flavor" then DefaultFlavorName
       else if name =? "ovh-image" then DefaultImageName
       else if name =? "ovh-private-network" then privateNetwork
       else if name =? "ovh-ssh-key" then sshKey
       else if name =? "ovh-ssh-user" then DefaultSSHUserName
       else if name =? "ovh-billing-period" then billing
       else "")
    (fun _ => false).

(** The registered driver once the host has named the machine. *)
Definition named (machineName : string) : Driver :=
  Driver.set_Base
    (BaseDriver.mk "" machineName DefaultSSHUserName 22 "" "/home/u/.docker/machine"
       false "" "")
    main_Driver.

Definition configured (machineName privateNetwork sshKey billing : string) : Driver :=
  fst (SetConfigFromFlags (named machineName) (flags privateNetwork sshKey billing)).

(** A driver whose instance [i-1] has been requested in project [pr-1]. *)
Definition created (machineName keyPairName keyPairID : string) : Driver :=
  Driver.set_client api
    (Driver.set_KeyPairID keyPairID
       (Driver.set_KeyPairName keyPairName
          (Driver.set_InstanceID "i-1" (Driver.set_ProjectID "pr-1" (named machineName))))).

Definition building : option Instance * option error := (Some (instance "BUILDING"), None).

End Sim.

(** * Properties *)

Local Open Scope list_scope.

(** ** Vocabulary *)

(** The address of the driver's instance and of its key-pair. *)
Definition instanceURL (d : Driver) : string :=
  "/cloud/project/" ++ Driver.ProjectID d ++ "/instance/" ++ Driver.InstanceID d.

Definition sshkeyURL (d : Driver) : string :=
  "/cloud/project/" ++ Driver.ProjectID d ++ "/sshkey/" ++ Driver.KeyPairID d.

(** One unsuccessful poll: the GET of the instance and the sleep after it. *)
Definition round (c : ovhClient) (d : Driver) : Trace :=
  [EvGet c (instanceURL d); EvSleep (4 * Second)].

Fixpoint rounds (c : ovhClient) (d : Driver) (n : nat) : Trace :=
  match n with
  | O => []
  | S k => round c d ++ rounds c d k
  end.

(** The errors of the wait: the budget of 50 polls is used up, or the
    instance is in the ERROR status. *)
Definition timeoutError : error := Errorf "Maximum number of retries (50) exceeded".

Definition stateError : error :=
  Errorf "Instance creation failed. Instance is in ERROR state".

(** The error of [PreCreateCheck] for a billing period it refuses. *)
Definition invalidBillingPeriod (period : string) : error :=
  Errorf ("Invalid billing period '" ++ period ++ "'. Please select one of 'hourly', 'monthly'").

(** The history once [Remove] is past the deletion of the instance, and the
    error of that deletion: nothing is asked when no instance id is recorded. *)
Definition afterInstanceDeletion (env : Env) (c : ovhClient) (d : Driver) (t : Trace)
  : option error * Trace :=
  if (Driver.InstanceID d =? "")%string then (None, t)
  else (ignore_not_found (env_Delete env t c (instanceURL d)),
        t ++ [EvDelete c (instanceURL d)]).

Definition dot : ascii := ".".

(** A computation that only adds calls to the history. *)
Definition extends {A} (m : M A) : Prop :=
  forall t r t', m t = (r, t') -> exists evs, t' = t ++ evs.

(** A computation whose first call to the outside world is [e]. *)
Definition begins_with {A} (e : Event) (m : M A) : Prop :=
  forall t r t', m t = (r, t') -> exists evs, t' = t ++ e :: evs.

(** A call that asks and changes nothing at the provider or on disk. *)
Definition is_query (e : Event) : bool :=
  match e with
  | EvNewClient _ _ _ _ | EvGet _ _ | EvStat _ | EvGenerateRandomID => true
  | _ => false
  end.

(** A status on which the wait for [status] goes on. *)
Definition keeps_waiting (status : string) (i : Instance) : Prop :=
  Instance.Status i <> "ERROR" /\ Instance.Status i <> status.

(** The computation [m] adds only calls that satisfy [P] to the history. *)
Definition emits {A} (P : Event -> bool) (m : M A) : Prop :=
  forall t r t', m t = (r, t') -> exists evs, t' = t ++ evs /\ forallb P evs = true.

(** The options of a command line that gives no flag: every declared flag
    at its default. *)
Definition default_flags : DriverOptions :=
  DriverOptions.mk
    (fun name =>
       match find (fun f => (StringFlag.Name f =? name)%string) (GetCreateFlags main_Driver) with
       | Some f => StringFlag.Value f
       | None => ""
       end)
    (fun _ => false).

(** How a wait can end at a poll: the awaited status, the ERROR status, or a
    GET that left no instance. *)
Definition ends_wait (status : string) (r : outcome ((option Instance * option error) * option error))
  : Prop :=
  (exists i, r = Val ((Some i, None), None)
             /\ Instance.Status i = status /\ Instance.Status i <> "ERROR")
  \/ (exists i, r = Val ((Some i, None), Some stateError) /\ Instance.Status i = "ERROR")
  \/ r = Panic NilPointerDereference.

(** The GETs of the projects [ids], one after the other. *)
Definition fetches (c : ovhClient) (ids : list string) : Trace :=
  map (fun id => EvGet c ("/cloud/project/" ++ id)) ids.

(** ** Running a computation *)

Lemma bind_Val {A B} (m : M A) (k : A -> M B) t a t' :
  m t = (Val a, t') -> bind m k t = k a t'.
Proof. intros H. unfold bind. now rewrite H. Qed.

Lemma bind_Panic {A B} (m : M A) (k : A -> M B) t p t' :
  m t = (Panic p, t') -> bind m k t = (Panic p, t').
Proof. intros H. unfold bind. now rewrite H. Qed.

Section ClientFacts.

Variable env : Env.
Variable c : ovhClient.

Let a : option API := Some (API.mk (Some c)).

Lemma client_Get_run {A} (answer : Env -> Trace -> ovhClient -> string -> A) url t :
  client_Get env answer a url t = (Val (answer env t c url), t ++ [EvGet c url]).
Proof. reflexivity. Qed.

Lemma client_Delete_run url t :
  client_Delete env a url t = (Val (env_Delete env t c url), t ++ [EvDelete c url]).
Proof. reflexivity. Qed.

Lemma GetInstance_run projectID instanceID t :
  GetInstance env a projectID instanceID t
  = (Val (fst (env_Get_Instance env t c
                 ("/cloud/project/" ++ projectID ++ "/instance/" ++ instanceID)), None),
     t ++ [EvGet c ("/cloud/project/" ++ projectID ++ "/instance/" ++ instanceID)]).
Proof.
  unfold GetInstance. rewrite (bind_Val _ _ _ _ _ (client_Get_run _ _ _)).
  now destruct (env_Get_Instance env t c _).
Qed.

End ClientFacts.

Lemma GetInstance_error_is_nil env a0 projectID instanceID t r t' :
  GetInstance env a0 projectID instanceID t = (Val r, t') -> snd r = None.
Proof.
  destruct a0 as [[[cl|]]|]; try (cbn; discriminate).
  rewrite GetInstance_run. intros H. inversion H. reflexivity.
Qed.

Lemma GetProject_run env c projectID t :
  GetProject env (Some (API.mk (Some c))) projectID t
  = (Val (env_Get_Project env t c ("/cloud/project/" ++ projectID)),
     t ++ [EvGet c ("/cloud/project/" ++ projectID)]).
Proof.
  unfold GetProject. rewrite (bind_Val _ _ _ _ _ (client_Get_run _ _ _ _ _)).
  now destruct (env_Get_Project env t c _).
Qed.

(** ** The instance lookup and the error of its GET *)

(** C1, at the failing input: the GET of the instance answers with a
    provider error (status 500) and leaves the instance nil; [GetInstance]
    hands back a nil instance together with a nil error, where [GetProject]
    on the same answer hands the provider's error to its caller. *)
Theorem GetInstance_returns_nil_error_on_failed_get :
  let refused := Some (APIError 500 "Internal Server Error") in
  let url := "/cloud/project/pr-1/instance/i-1" in
  let w := Sim.with_polls [] (None, refused) Sim.acme in
  env_Get_Instance (Sim.env w) [] Sim.ovh url = (None, refused)
  /\ GetInstance (Sim.env w) Sim.api "pr-1" "i-1" [] = (Val (None, None), [EvGet Sim.ovh url])
  /\ (forall env c projectID t,
        env_Get_Project env t c ("/cloud/project/" ++ projectID) = (None, refused) ->
        GetProject env (Some (API.mk (Some c))) projectID t
        = (Val (None, refused), t ++ [EvGet c ("/cloud/project/" ++ projectID)])).
Proof.
  cbv zeta. split; [reflexivity|]. split; [reflexivity|].
  intros env c projectID t H. rewrite GetProject_run. now rewrite H.
Qed.

(** ** The public network of a project *)

Lemma GetNetworks_run env c projectID privateNet t :
  GetNetworks env (Some (API.mk (Some c))) projectID privateNet t
  = let url := ("/cloud/project/" ++ projectID ++
                (if privateNet then "/network/private" else "/network/public"))%string in
    (Val (env_Get_Networks env t c url), t ++ [EvGet c url]).
Proof.
  unfold GetNetworks. destruct privateNet; cbn [Bool.eqb];
    rewrite (bind_Val _ _ _ _ _ (client_Get_run _ _ _ _ _));
    cbv zeta; now destruct (env_Get_Networks env t c _).
Qed.

(** C10: [GetPublicNetworkID] reads element 0 of the list the GET left,
    whatever its length.  When the GET succeeds with an empty list the read
    is out of range and the function panics instead of returning an error;
    it returns only when the GET failed (with that error) or the list has a
    first element (with its id). *)
Theorem GetPublicNetworkID_indexes_first_network env c projectID t networks err
  (Hget : env_Get_Networks env t c ("/cloud/project/" ++ projectID ++ "/network/public")
          = (networks, err)) :
  GetPublicNetworkID env (Some (API.mk (Some c))) projectID t
  = (match err, networks with
     | Some e, _ => Val ("", Some e)
     | None, network :: _ => Val (Network.ID network, None)
     | None, [] => Panic (IndexOutOfRange 0 0)
     end,
     t ++ [EvGet c ("/cloud/project/" ++ projectID ++ "/network/public")]).
Proof.
  unfold GetPublicNetworkID.
  rewrite (bind_Val _ _ _ _ _ (GetNetworks_run _ _ _ _ _)).
  cbv zeta. rewrite Hget.
  destruct err as [e|]; [reflexivity|].
  destruct networks as [|network rest]; reflexivity.
Qed.

Lemma GetPublicNetworkID_indexes_first_network_witness :
  GetPublicNetworkID (Sim.env (Sim.with_publicNetworks [] Sim.acme)) Sim.api "pr-1" []
  = (Panic (IndexOutOfRange 0 0), [EvGet Sim.ovh "/cloud/project/pr-1/network/public"]).
Proof.
  exact (GetPublicNetworkID_indexes_first_network
           (Sim.env (Sim.with_publicNetworks [] Sim.acme)) Sim.ovh "pr-1" [] [] None
           eq_refl).
Defined.

(** ** Deletions *)

Lemma ignore_not_found_never_404 err m :
  ignore_not_found err <> Some (APIError 404 m).
Proof.
  destruct err as [[code msg| | |]|]; cbn; try discriminate.
  destruct (Z.eqb_spec code 404); [discriminate|].
  intros H. inversion H. contradiction.
Qed.

Lemma ignore_not_found_kept e :
  (forall m, e <> APIError 404 m) -> ignore_not_found (Some e) = Some e.
Proof.
  intros Hne. destruct e as [code msg| | |]; cbn; try reflexivity.
  destruct (Z.eqb_spec code 404) as [->|_]; [|reflexivity].
  now contradiction (Hne msg).
Qed.

Lemma ignore_not_found_cleared answer :
  answer = None \/ (exists m, answer = Some (APIError 404 m)) ->
  ignore_not_found answer = None.
Proof. intros [->|[m ->]]; reflexivity. Qed.

Lemma DeleteInstance_run env c projectID instanceID t :
  DeleteInstance env (Some (API.mk (Some c))) projectID instanceID t
  = (Val (ignore_not_found
            (env_Delete env t c ("/cloud/project/" ++ projectID ++ "/instance/" ++ instanceID))),
     t ++ [EvDelete c ("/cloud/project/" ++ projectID ++ "/instance/" ++ instanceID)]).
Proof. reflexivity. Qed.

Lemma DeleteSshkey_run env c projectID keyID t :
  DeleteSshkey env (Some (API.mk (Some c))) projectID keyID t
  = (Val (ignore_not_found
            (env_Delete env t c ("/cloud/project/" ++ projectID ++ "/sshkey/" ++ keyID))),
     t ++ [EvDelete c ("/cloud/project/" ++ projectID ++ "/sshkey/" ++ keyID)]).
Proof. reflexivity. Qed.

Lemma DeleteInstance_never_404 env a projectID instanceID t err t' m :
  DeleteInstance env a projectID instanceID t = (Val err, t') ->
  err <> Some (APIError 404 m).
Proof.
  destruct a as [[[c|]]|]; try (cbn; discriminate).
  rewrite DeleteInstance_run. intros H. inversion H. apply ignore_not_found_never_404.
Qed.

Lemma DeleteSshkey_never_404 env a projectID keyID t err t' m :
  DeleteSshkey env a projectID keyID t = (Val err, t') ->
  err <> Some (APIError 404 m).
Proof.
  destruct a as [[[c|]]|]; try (cbn; discriminate).
  rewrite DeleteSshkey_run. intros H. inversion H. apply ignore_not_found_never_404.
Qed.

(** C6: the two deletions turn the provider's not-found (an API error with
    code 404) into success.  After a first call, a second call on the same
    instance or key that the provider answers with 404 returns a nil error,
    and no call ever returns a 404 API error to its caller. *)
Theorem delete_twice_never_fails_with_not_found env c projectID id t :
  let a := Some (API.mk (Some c)) in
  let instanceURL := ("/cloud/project/" ++ projectID ++ "/instance/" ++ id)%string in
  let sshkeyURL := ("/cloud/project/" ++ projectID ++ "/sshkey/" ++ id)%string in
  (forall m,
      env_Delete env (t ++ [EvDelete c instanceURL]) c instanceURL = Some (APIError 404 m) ->
      exists first t1,
        DeleteInstance env a projectID id t = (Val first, t1)
        /\ DeleteInstance env a projectID id t1 = (Val None, t1 ++ [EvDelete c instanceURL]))
  /\ (forall m,
      env_Delete env (t ++ [EvDelete c sshkeyURL]) c sshkeyURL = Some (APIError 404 m) ->
      exists first t1,
        DeleteSshkey env a projectID id t = (Val first, t1)
        /\ DeleteSshkey env a projectID id t1 = (Val None, t1 ++ [EvDelete c sshkeyURL]))
  /\ (forall a' p i t' err t'' m,
        DeleteInstance env a' p i t' = (Val err, t'') \/
        DeleteSshkey env a' p i t' = (Val err, t'') ->
        err <> Some (APIError 404 m)).
Proof.
  cbv zeta. repeat split.
  - intros m H. eexists. eexists. split; [apply DeleteInstance_run|].
    rewrite DeleteInstance_run. now rewrite H.
  - intros m H. eexists. eexists. split; [apply DeleteSshkey_run|].
    rewrite DeleteSshkey_run. now rewrite H.
  - intros a' p i t' err t'' m [H|H].
    + eapply DeleteInstance_never_404; eauto.
    + eapply DeleteSshkey_never_404; eauto.
Qed.

Lemma delete_twice_never_fails_with_not_found_witness :
  let w := Sim.with_deletions [None] (Some (APIError 404 "Not Found")) Sim.acme in
  (exists first t1,
      DeleteInstance (Sim.env w) Sim.api "pr-1" "i-1" [] = (Val first, t1)
      /\ DeleteInstance (Sim.env w) Sim.api "pr-1" "i-1" t1
         = (Val None, t1 ++ [EvDelete Sim.ovh "/cloud/project/pr-1/instance/i-1"]))
  /\ (exists first t1,
      DeleteSshkey (Sim.env w) Sim.api "pr-1" "k-7" [] = (Val first, t1)
      /\ DeleteSshkey (Sim.env w) Sim.api "pr-1" "k-7" t1
         = (Val None, t1 ++ [EvDelete Sim.ovh "/cloud/project/pr-1/sshkey/k-7"])).
Proof.
  cbv zeta. split.
  - exact (proj1 (delete_twice_never_fails_with_not_found
             (Sim.env (Sim.with_deletions [None] (Some (APIError 404 "Not Found")) Sim.acme))
             Sim.ovh "pr-1" "i-1" []) "Not Found" eq_refl).
  - exact (proj1 (proj2 (delete_twice_never_fails_with_not_found
             (Sim.env (Sim.with_deletions [None] (Some (APIError 404 "Not Found")) Sim.acme))
             Sim.ovh "pr-1" "k-7" [])) "Not Found" eq_refl).
Defined.

(** ** Polling the instance *)

Lemma waitForInstanceStatus_poll_run env d c status vars t :
  Driver.client d = Some (API.mk (Some c)) ->
  waitForInstanceStatus_poll env d status vars t
  = (match fst (env_Get_Instance env t c (instanceURL d)) with
     | None => Panic NilPointerDereference
     | Some i =>
         Val ((Some i, None),
              if (Instance.Status i =? "ERROR")%string then
                (true, Some (Errorf "Instance creation failed. Instance is in ERROR state"))
              else if (Instance.Status i =? status)%string then (true, None)
              else (false, None))
     end,
     t ++ [EvGet c (instanceURL d)]).
Proof.
  intros Hc. unfold waitForInstanceStatus_poll. rewrite Hc.
  rewrite (bind_Val _ _ _ _ _ (GetInstance_run _ _ _ _ _)).
  unfold instanceURL.
  destruct (fst (env_Get_Instance env t c _)) as [i|]; [|reflexivity].
  cbn. destruct (Instance.Status i =? "ERROR")%string; [reflexivity|].
  destruct (Instance.Status i =? status)%string; reflexivity.
Qed.

Lemma waitForInstanceStatus_poll_error env d status vars t vars' stop e t' :
  waitForInstanceStatus_poll env d status vars t = (Val (vars', (stop, Some e)), t') ->
  stop = true
  /\ e = Errorf "Instance creation failed. Instance is in ERROR state"
  /\ exists i, vars' = (Some i, None) /\ Instance.Status i = "ERROR".
Proof.
  destruct (Driver.client d) as [[[c|]]|] eqn:Hc.
  - rewrite (waitForInstanceStatus_poll_run _ _ _ _ _ _ Hc).
    destruct (fst (env_Get_Instance env t c _)) as [i|]; [|discriminate].
    destruct (Instance.Status i =? "ERROR")%string eqn:Hs.
    + intros H. inversion H; subst. repeat split. exists i. split; [reflexivity|].
      now apply String.eqb_eq.
    + destruct (Instance.Status i =? status)%string; discriminate.
  - unfold waitForInstanceStatus_poll. rewrite Hc. cbn. discriminate.
  - unfold waitForInstanceStatus_poll. rewrite Hc. cbn. discriminate.
Qed.

Lemma WaitForSpecificOrError_from_S {S} (f : S -> M (S * (bool * option error)))
    n maxAttempts waitInterval s t :
  WaitForSpecificOrError_from f (Datatypes.S n) maxAttempts waitInterval s t
  = match f s t with
    | (Val (s', (_, Some e)), t') => (Val (s', Some e), t')
    | (Val (s', (true, None)), t') => (Val (s', None), t')
    | (Val (s', (false, None)), t') =>
        WaitForSpecificOrError_from f n maxAttempts waitInterval s' (t' ++ [EvSleep waitInterval])
    | (Panic p, t') => (Panic p, t')
    end.
Proof.
  cbn [WaitForSpecificOrError_from]. unfold bind at 1.
  destruct (f s t) as [[[s' [stop err]]|p] t']; [|reflexivity].
  destruct err as [e|]; [destruct stop; reflexivity|].
  destruct stop; reflexivity.
Qed.

Lemma statusTimeout_attempts : Z.to_nat (Z.quot statusTimeout 4) = 50%nat.
Proof. reflexivity. Qed.

(** C8: [GetInstance] never returns a non-nil error, so the branch of the
    polling closure that propagates the error of the lookup is never taken:
    the only error a poll returns is the one for the ERROR status.  When the
    GET behind a poll fails and leaves the instance nil, the poll goes on to
    read the status of that nil instance and panics, and so does the wait. *)
Theorem poll_reads_status_of_nil_instance_on_failed_get env d c status vars t e
  (Hclient : Driver.client d = Some (API.mk (Some c)))
  (Hget : env_Get_Instance env t c (instanceURL d) = (None, Some e)) :
  (forall a projectID instanceID t0 r t1,
      GetInstance env a projectID instanceID t0 = (Val r, t1) -> snd r = None)
  /\ (forall vars0 t0 vars1 stop e1 t1,
      waitForInstanceStatus_poll env d status vars0 t0 = (Val (vars1, (stop, Some e1)), t1) ->
      e1 = Errorf "Instance creation failed. Instance is in ERROR state"
      /\ exists i, vars1 = (Some i, None) /\ Instance.Status i = "ERROR")
  /\ GetInstance env (Driver.client d) (Driver.ProjectID d) (Driver.InstanceID d) t
     = (Val (None, None), t ++ [EvGet c (instanceURL d)])
  /\ waitForInstanceStatus_poll env d status vars t
     = (Panic NilPointerDereference, t ++ [EvGet c (instanceURL d)])
  /\ waitForInstanceStatus env d status t
     = (Panic NilPointerDereference, t ++ [EvGet c (instanceURL d)]).
Proof.
  split; [intros; eapply GetInstance_error_is_nil; eauto|].
  split; [intros * H; now apply waitForInstanceStatus_poll_error in H|].
  split.
  { rewrite Hclient, GetInstance_run. fold (instanceURL d). now rewrite Hget. }
  assert (Hpoll : forall vars0, waitForInstanceStatus_poll env d status vars0 t
                  = (Panic NilPointerDereference, t ++ [EvGet c (instanceURL d)])).
  { intros vars0. rewrite (waitForInstanceStatus_poll_run _ _ _ _ _ _ Hclient).
    now rewrite Hget. }
  split; [apply Hpoll|].
  unfold waitForInstanceStatus, WaitForSpecificOrError.
  rewrite statusTimeout_attempts.
  apply bind_Panic. rewrite WaitForSpecificOrError_from_S. now rewrite Hpoll.
Qed.

Lemma poll_reads_status_of_nil_instance_on_failed_get_witness :
  let w := Sim.with_polls [] (None, Some (OtherError "connection refused")) Sim.acme in
  let d := Sim.created "m1" "m1-0123abcd" "k-7" in
  waitForInstanceStatus (Sim.env w) d "ACTIVE" []
  = (Panic NilPointerDereference, [EvGet Sim.ovh "/cloud/project/pr-1/instance/i-1"]).
Proof.
  exact (proj2 (proj2 (proj2 (proj2
    (poll_reads_status_of_nil_instance_on_failed_get
       (Sim.env (Sim.with_polls [] (None, Some (OtherError "connection refused")) Sim.acme))
       (Sim.created "m1" "m1-0123abcd" "k-7")
       Sim.ovh "ACTIVE" (None, None) [] (OtherError "connection refused")
       eq_refl eq_refl))))).
Defined.

Section Polling.

Variable env : Env.
Variable d : Driver.
Variable c : ovhClient.
Hypothesis Hclient : Driver.client d = Some (API.mk (Some c)).

Let polled (t : Trace) : option Instance := fst (env_Get_Instance env t c (instanceURL d)).
Let poll := waitForInstanceStatus_poll env d "ACTIVE".
Let wait_from n := WaitForSpecificOrError_from poll n (Z.quot statusTimeout 4) (4 * Second)%Z.

Lemma poll_building vars t i :
  polled t = Some i -> Instance.Status i = "BUILDING" ->
  poll vars t = (Val ((Some i, None), (false, None)), t ++ [EvGet c (instanceURL d)]).
Proof.
  intros Hp Hs. unfold poll. rewrite (waitForInstanceStatus_poll_run _ _ _ _ _ _ Hclient).
  fold (polled t). rewrite Hp, Hs. reflexivity.
Qed.

Lemma poll_active vars t i :
  polled t = Some i -> Instance.Status i = "ACTIVE" ->
  poll vars t = (Val ((Some i, None), (true, None)), t ++ [EvGet c (instanceURL d)]).
Proof.
  intros Hp Hs. unfold poll. rewrite (waitForInstanceStatus_poll_run _ _ _ _ _ _ Hclient).
  fold (polled t). rewrite Hp, Hs. reflexivity.
Qed.

Lemma poll_error vars t i :
  polled t = Some i -> Instance.Status i = "ERROR" ->
  poll vars t = (Val ((Some i, None), (true, Some stateError)), t ++ [EvGet c (instanceURL d)]).
Proof.
  intros Hp Hs. unfold poll. rewrite (waitForInstanceStatus_poll_run _ _ _ _ _ _ Hclient).
  fold (polled t). rewrite Hp, Hs. reflexivity.
Qed.

Lemma wait_from_building n vars t i :
  polled t = Some i -> Instance.Status i = "BUILDING" ->
  wait_from (S n) vars t = wait_from n (Some i, None) (t ++ round c d).
Proof.
  intros Hp Hs. unfold wait_from. rewrite WaitForSpecificOrError_from_S.
  fold poll. rewrite (poll_building _ _ _ Hp Hs). unfold round.
  now rewrite <- app_assoc.
Qed.

Lemma wait_from_exhausted n : forall vars t,
  (forall k, (k <= n)%nat ->
     exists i, polled (t ++ rounds c d k) = Some i /\ Instance.Status i = "BUILDING") ->
  exists i,
    polled (t ++ rounds c d n) = Some i /\ Instance.Status i = "BUILDING"
    /\ wait_from (S n) vars t
       = (Val ((Some i, None),
               Some (Errorf ("Maximum number of retries (" ++ itoa (Z.quot statusTimeout 4)
                             ++ ") exceeded"))),
          t ++ rounds c d (S n)).
Proof.
  induction n as [|n IH]; intros vars t Hall.
  - destruct (Hall 0%nat (le_n _)) as [i [Hp Hs]]. exists i. split; [exact Hp|].
    split; [exact Hs|]. cbn [rounds] in Hp. rewrite app_nil_r in Hp.
    rewrite (wait_from_building _ _ _ _ Hp Hs). cbn [rounds]. rewrite app_nil_r.
    reflexivity.
  - destruct (Hall 0%nat (Nat.le_0_l _)) as [i0 [Hp0 Hs0]].
    cbn [rounds] in Hp0. rewrite app_nil_r in Hp0.
    rewrite (wait_from_building _ _ _ _ Hp0 Hs0).
    destruct (IH (Some i0, None) (t ++ round c d)) as [i [Hp [Hs Hrun]]].
    { intros k Hk. destruct (Hall (S k) (proj1 (Nat.succ_le_mono _ _) Hk)) as [i [Hp Hs]].
      exists i. split; [|exact Hs]. rewrite <- app_assoc. exact Hp. }
    exists i. rewrite <- app_assoc in Hp, Hrun. auto.
Qed.

End Polling.

Lemma waitForInstanceStatus_run env d status t :
  waitForInstanceStatus env d status t
  = match WaitForSpecificOrError_from (waitForInstanceStatus_poll env d status) 50
            (Z.quot statusTimeout 4) (4 * Second)%Z (None, None) t with
    | (Val ((instance, _), err), t') => (Val (instance, err), t')
    | (Panic p, t') => (Panic p, t')
    end.
Proof.
  unfold waitForInstanceStatus, WaitForSpecificOrError. rewrite statusTimeout_attempts.
  unfold bind at 1.
  destruct (WaitForSpecificOrError_from _ _ _ _ _ _) as [[[[instance e] err]|p] t'];
    reflexivity.
Qed.

(** C2: the wait of [Create] follows the statuses the polls observe.  On
    BUILDING, BUILDING, ACTIVE it succeeds at the third poll with the
    instance of that poll; on BUILDING, ERROR it fails at the second poll
    and polls no more; and when each of the 50 polls of the budget observes
    BUILDING, with a sleep of 4 seconds after each, it fails with the error
    of the exhausted budget. *)
Theorem waitForInstanceStatus_follows_polled_statuses env d c
  (Hclient : Driver.client d = Some (API.mk (Some c))) :
  let get := EvGet c (instanceURL d) in
  let sleep := EvSleep (4 * 1000000000) in
  let polled t := fst (env_Get_Instance env t c (instanceURL d)) in
  (forall t i1 i2 i3,
      polled t = Some i1 -> Instance.Status i1 = "BUILDING" ->
      polled (t ++ [get; sleep]) = Some i2 -> Instance.Status i2 = "BUILDING" ->
      polled (t ++ [get; sleep; get; sleep]) = Some i3 -> Instance.Status i3 = "ACTIVE" ->
      waitForInstanceStatus env d "ACTIVE" t
      = (Val (Some i3, None), t ++ [get; sleep; get; sleep; get]))
  /\ (forall t i1 i2,
      polled t = Some i1 -> Instance.Status i1 = "BUILDING" ->
      polled (t ++ [get; sleep]) = Some i2 -> Instance.Status i2 = "ERROR" ->
      waitForInstanceStatus env d "ACTIVE" t
      = (Val (Some i2, Some stateError), t ++ [get; sleep; get]))
  /\ (forall t,
      (forall k, (k < 50)%nat ->
         exists i, polled (t ++ rounds c d k) = Some i /\ Instance.Status i = "BUILDING") ->
      exists i,
        polled (t ++ rounds c d 49) = Some i
        /\ waitForInstanceStatus env d "ACTIVE" t
           = (Val (Some i, Some timeoutError), t ++ rounds c d 50)).
Proof.
  cbv zeta. repeat split.
  - intros t i1 i2 i3 Hp1 Hs1 Hp2 Hs2 Hp3 Hs3.
    rewrite waitForInstanceStatus_run.
    rewrite (wait_from_building env d c Hclient _ _ _ _ Hp1 Hs1).
    rewrite (wait_from_building env d c Hclient _ _ _ _ Hp2 Hs2).
    rewrite WaitForSpecificOrError_from_S.
    unfold round. rewrite <- app_assoc. cbn [app].
    rewrite (poll_active env d c Hclient _ _ _ Hp3 Hs3).
    rewrite <- app_assoc. reflexivity.
  - intros t i1 i2 Hp1 Hs1 Hp2 Hs2.
    rewrite waitForInstanceStatus_run.
    rewrite (wait_from_building env d c Hclient _ _ _ _ Hp1 Hs1).
    rewrite WaitForSpecificOrError_from_S.
    rewrite (poll_error env d c Hclient _ _ _ Hp2 Hs2).
    unfold round. rewrite <- app_assoc. reflexivity.
  - intros t Hall.
    destruct (wait_from_exhausted env d c Hclient 49 (None, None) t) as [i [Hp [Hs Hrun]]].
    { intros k Hk. apply Hall. lia. }
    exists i. split; [exact Hp|].
    rewrite waitForInstanceStatus_run. rewrite Hrun. reflexivity.
Qed.

Lemma waitForInstanceStatus_follows_polled_statuses_witness :
  let d := Sim.created "m1" "m1-0123abcd" "k-7" in
  let get := EvGet Sim.ovh "/cloud/project/pr-1/instance/i-1" in
  let sleep := EvSleep 4000000000 in
  waitForInstanceStatus
    (Sim.env (Sim.with_polls [Sim.building; Sim.building]
                (Some (Sim.instance "ACTIVE"), None) Sim.acme))
    d "ACTIVE" []
  = (Val (Some (Sim.instance "ACTIVE"), None), [get; sleep; get; sleep; get])
  /\ waitForInstanceStatus
       (Sim.env (Sim.with_polls [Sim.building] (Some (Sim.instance "ERROR"), None) Sim.acme))
       d "ACTIVE" []
     = (Val (Some (Sim.instance "ERROR"), Some stateError), [get; sleep; get])
  /\ exists i,
       waitForInstanceStatus (Sim.env (Sim.with_polls [] Sim.building Sim.acme)) d "ACTIVE" []
       = (Val (Some i, Some timeoutError), rounds Sim.ovh d 50).
Proof.
  cbv zeta. split; [|split].
  - exact (proj1 (waitForInstanceStatus_follows_polled_statuses
             (Sim.env (Sim.with_polls [Sim.building; Sim.building]
                         (Some (Sim.instance "ACTIVE"), None) Sim.acme))
             (Sim.created "m1" "m1-0123abcd" "k-7") Sim.ovh eq_refl)
             [] _ _ _ eq_refl eq_refl eq_refl eq_refl eq_refl eq_refl).
  - exact (proj1 (proj2 (waitForInstanceStatus_follows_polled_statuses
             (Sim.env (Sim.with_polls [Sim.building]
                         (Some (Sim.instance "ERROR"), None) Sim.acme))
             (Sim.created "m1" "m1-0123abcd" "k-7") Sim.ovh eq_refl))
             [] _ _ eq_refl eq_refl eq_refl eq_refl).
  - destruct (proj2 (proj2 (waitForInstanceStatus_follows_polled_statuses
                (Sim.env (Sim.with_polls [] Sim.building Sim.acme))
                (Sim.created "m1" "m1-0123abcd" "k-7") Sim.ovh eq_refl)) [])
      as [i [_ Hrun]].
    + intros k _. exists (Sim.instance "BUILDING"). split; [|reflexivity].
      cbn [Sim.env env_Get_Instance Sim.with_polls Sim.polls Sim.lastPoll].
      now destruct (Sim.count Sim.is_poll _).
    + exists i. exact Hrun.
Defined.

(** ** Lookups by name or id *)

Lemma find_first {A} (p : A -> bool) (before : list A) (e : A) (after : list A) :
  p e = true -> (forall x, In x before -> p x = false) ->
  find p (before ++ e :: after) = Some e.
Proof.
  intros He. induction before as [|x before IH]; intros Hb; cbn.
  - now rewrite He.
  - rewrite (Hb x (or_introl eq_refl)). apply IH. intros y Hy. apply Hb. now right.
Qed.

Lemma find_eqb_in (name : string) (l : list string) :
  In name l -> find (fun x => (x =? name)%string) l = Some name.
Proof.
  induction l as [|x l IH]; [contradiction|]. intros Hin. cbn.
  destruct (String.eqb_spec x name) as [->|Hne]; [reflexivity|].
  apply IH. destruct Hin as [->|Hin]; [contradiction|exact Hin].
Qed.

Section Lookups.

Variable env : Env.
Variable c : ovhClient.

Let a : option API := Some (API.mk (Some c)).

Lemma GetProjects_run t :
  GetProjects env a t
  = (Val (env_Get_Projects env t c "/cloud/project"), t ++ [EvGet c "/cloud/project"]).
Proof.
  unfold GetProjects, a. rewrite (bind_Val _ _ _ _ _ (client_Get_run _ _ _ _ _)).
  now destruct (env_Get_Projects env t c _).
Qed.

Lemma GetFlavors_run projectID region t :
  let url := ("/cloud/project/" ++ projectID ++ "/flavor?region=" ++ region)%string in
  GetFlavors env a projectID region t = (Val (env_Get_Flavors env t c url), t ++ [EvGet c url]).
Proof.
  cbv zeta. unfold GetFlavors, a. rewrite (bind_Val _ _ _ _ _ (client_Get_run _ _ _ _ _)).
  now destruct (env_Get_Flavors env t c _).
Qed.

Lemma GetImages_run projectID region t :
  let url := ("/cloud/project/" ++ projectID ++ "/image?osType=linux&region=" ++ region)%string in
  GetImages env a projectID region t = (Val (env_Get_Images env t c url), t ++ [EvGet c url]).
Proof.
  cbv zeta. unfold GetImages, a. rewrite (bind_Val _ _ _ _ _ (client_Get_run _ _ _ _ _)).
  now destruct (env_Get_Images env t c _).
Qed.

Lemma GetSshkeys_run projectID region t :
  let url := ("/cloud/project/" ++ projectID ++ "/sshkey?region=" ++ region)%string in
  GetSshkeys env a projectID region t = (Val (env_Get_Sshkeys env t c url), t ++ [EvGet c url]).
Proof.
  cbv zeta. unfold GetSshkeys, a. rewrite (bind_Val _ _ _ _ _ (client_Get_run _ _ _ _ _)).
  now destruct (env_Get_Sshkeys env t c _).
Qed.

Lemma GetProjectByName_fast_path name t projects :
  env_Get_Projects env t c "/cloud/project" = (projects, None) ->
  In name projects ->
  GetProjectByName env a name t
  = (Val (env_Get_Project env (t ++ [EvGet c "/cloud/project"]) c ("/cloud/project/" ++ name)),
     t ++ [EvGet c "/cloud/project"; EvGet c ("/cloud/project/" ++ name)]).
Proof.
  intros Hget Hin. unfold GetProjectByName.
  rewrite (bind_Val _ _ _ _ _ (GetProjects_run _)). rewrite Hget.
  rewrite (find_eqb_in _ _ Hin). unfold a. rewrite GetProject_run.
  now rewrite <- app_assoc.
Qed.

Lemma GetFlavorByName_first_match projectID region v t before e after :
  env_Get_Flavors env t c ("/cloud/project/" ++ projectID ++ "/flavor?region=" ++ region)
  = (before ++ e :: after, None) ->
  Flavor.OS e = "linux" -> Flavor.ID e = v \/ Flavor.Name e = v ->
  (forall f, In f before -> Flavor.OS f = "linux" -> Flavor.ID f <> v /\ Flavor.Name f <> v) ->
  GetFlavorByName env a projectID region v t
  = (Val (Some e, None),
     t ++ [EvGet c ("/cloud/project/" ++ projectID ++ "/flavor?region=" ++ region)]).
Proof.
  intros Hget Hos Hmatch Hbefore. unfold GetFlavorByName.
  rewrite (bind_Val _ _ _ _ _ (GetFlavors_run _ _ _)). rewrite Hget.
  rewrite find_first; [reflexivity| |].
  - rewrite Hos. cbn. apply orb_true_iff.
    destruct Hmatch as [H|H]; [left|right]; now apply String.eqb_eq.
  - intros f Hin. destruct (String.eqb_spec (Flavor.OS f) "linux") as [Hl|Hl]; [|reflexivity].
    cbn. destruct (Hbefore f Hin Hl) as [Hid Hname].
    apply orb_false_iff. split; now apply String.eqb_neq.
Qed.

Lemma GetImageByName_first_match projectID region v t before e after :
  env_Get_Images env t c ("/cloud/project/" ++ projectID ++ "/image?osType=linux&region=" ++ region)
  = (before ++ e :: after, None) ->
  Image.OS e = "linux" -> Image.ID e = v \/ Image.Name e = v ->
  (forall f, In f before -> Image.OS f = "linux" -> Image.ID f <> v /\ Image.Name f <> v) ->
  GetImageByName env a projectID region v t
  = (Val (Some e, None),
     t ++ [EvGet c ("/cloud/project/" ++ projectID ++ "/image?osType=linux&region=" ++ region)]).
Proof.
  intros Hget Hos Hmatch Hbefore. unfold GetImageByName.
  rewrite (bind_Val _ _ _ _ _ (GetImages_run _ _ _)). rewrite Hget.
  rewrite find_first; [reflexivity| |].
  - rewrite Hos. cbn. apply orb_true_iff.
    destruct Hmatch as [H|H]; [left|right]; now apply String.eqb_eq.
  - intros f Hin. destruct (String.eqb_spec (Image.OS f) "linux") as [Hl|Hl]; [|reflexivity].
    cbn. destruct (Hbefore f Hin Hl) as [Hid Hname].
    apply orb_false_iff. split; now apply String.eqb_neq.
Qed.

Lemma GetSshkeyByName_first_match projectID region v t before e after :
  env_Get_Sshkeys env t c ("/cloud/project/" ++ projectID ++ "/sshkey?region=" ++ region)
  = (before ++ e :: after, None) ->
  Sshkey.ID e = v \/ Sshkey.Name e = v ->
  (forall k, In k before -> Sshkey.ID k <> v /\ Sshkey.Name k <> v) ->
  GetSshkeyByName env a projectID region v t
  = (Val (Some e, None),
     t ++ [EvGet c ("/cloud/project/" ++ projectID ++ "/sshkey?region=" ++ region)]).
Proof.
  intros Hget Hmatch Hbefore. unfold GetSshkeyByName.
  rewrite (bind_Val _ _ _ _ _ (GetSshkeys_run _ _ _)). rewrite Hget.
  rewrite find_first; [reflexivity| |].
  - apply orb_true_iff. destruct Hmatch as [H|H]; [left|right]; now apply String.eqb_eq.
  - intros k Hin. destruct (Hbefore k Hin) as [Hid Hname].
    apply orb_false_iff. split; now apply String.eqb_neq.
Qed.

End Lookups.

(** C3, as stated, fails: the key catalog holds two keys named [deploy]
    (ids [k-1] and [k-2]) before a key whose id is [deploy]; the lookup of
    [deploy] returns the first of the three, whose id differs, and not the
    key with that id. *)
Lemma GetSshkeyByName_returns_earlier_name_match :
  let named_deploy := Sim.key "deploy" "k-1" in
  let also_named_deploy := Sim.key "deploy" "k-2" in
  let with_id_deploy := Sim.key "backup" "deploy" in
  let w := Sim.with_sshkeys [named_deploy; also_named_deploy; with_id_deploy] Sim.acme in
  In with_id_deploy (Sim.sshkeys w)
  /\ Sshkey.ID with_id_deploy = "deploy"
  /\ GetSshkeyByName (Sim.env w) Sim.api "pr-1" "GRA1" "deploy" []
     = (Val (Some named_deploy, None), [EvGet Sim.ovh "/cloud/project/pr-1/sshkey?region=GRA1"])
  /\ Sshkey.ID named_deploy <> "deploy"
  /\ Sshkey.Name named_deploy = "deploy"
  /\ named_deploy <> also_named_deploy.
Proof.
  cbv zeta. split; [right; right; left; reflexivity|].
  split; [reflexivity|]. split; [reflexivity|]. split; [discriminate|].
  split; [reflexivity|discriminate].
Qed.

(** C3, amended: only the project lookup has an id fast path.  A value that
    is one of the listed project ids is fetched as that project, with no
    scan of the names of the other projects: the list and that one project
    are the only requests.  The flavor, image and key lookups scan their
    catalog once, in order, and return the first entry (a Linux one, for
    flavors and images) whose id or name is the value: an entry that
    matches by its id or by its name is the one returned exactly when no
    earlier (Linux) entry has the value as its id or name, so that an
    earlier entry whose name is the value is returned instead of a later
    one whose id is the value. *)
Theorem lookup_by_id_returns_first_id_or_name_match env c v t :
  let a := Some (API.mk (Some c)) in
  (forall projects,
      env_Get_Projects env t c "/cloud/project" = (projects, None) ->
      In v projects ->
      GetProjectByName env a v t
      = (Val (env_Get_Project env (t ++ [EvGet c "/cloud/project"]) c ("/cloud/project/" ++ v)),
         t ++ [EvGet c "/cloud/project"; EvGet c ("/cloud/project/" ++ v)]))
  /\ (forall projectID region before e after,
      env_Get_Flavors env t c ("/cloud/project/" ++ projectID ++ "/flavor?region=" ++ region)
      = (before ++ e :: after, None) ->
      Flavor.ID e = v \/ Flavor.Name e = v -> Flavor.OS e = "linux" ->
      (forall f, In f before -> Flavor.OS f = "linux" -> Flavor.ID f <> v /\ Flavor.Name f <> v) ->
      GetFlavorByName env a projectID region v t
      = (Val (Some e, None),
         t ++ [EvGet c ("/cloud/project/" ++ projectID ++ "/flavor?region=" ++ region)]))
  /\ (forall projectID region before e after,
      env_Get_Images env t c
        ("/cloud/project/" ++ projectID ++ "/image?osType=linux&region=" ++ region)
      = (before ++ e :: after, None) ->
      Image.ID e = v \/ Image.Name e = v -> Image.OS e = "linux" ->
      (forall f, In f before -> Image.OS f = "linux" -> Image.ID f <> v /\ Image.Name f <> v) ->
      GetImageByName env a projectID region v t
      = (Val (Some e, None),
         t ++ [EvGet c ("/cloud/project/" ++ projectID ++ "/image?osType=linux&region="
                        ++ region)]))
  /\ (forall projectID region before e after,
      env_Get_Sshkeys env t c ("/cloud/project/" ++ projectID ++ "/sshkey?region=" ++ region)
      = (before ++ e :: after, None) ->
      Sshkey.ID e = v \/ Sshkey.Name e = v ->
      (forall k, In k before -> Sshkey.ID k <> v /\ Sshkey.Name k <> v) ->
      GetSshkeyByName env a projectID region v t
      = (Val (Some e, None),
         t ++ [EvGet c ("/cloud/project/" ++ projectID ++ "/sshkey?region=" ++ region)])).
Proof.
  cbv zeta. repeat split.
  - intros projects Hlist Hin. now apply GetProjectByName_fast_path with (projects := projects).
  - intros projectID region before e after Hget Hmatch Hos Hbefore.
    now apply GetFlavorByName_first_match with (before := before) (after := after).
  - intros projectID region before e after Hget Hmatch Hos Hbefore.
    now apply GetImageByName_first_match with (before := before) (after := after).
  - intros projectID region before e after Hget Hmatch Hbefore.
    now apply GetSshkeyByName_first_match with (before := before) (after := after).
Qed.

(** Three projects, and catalogs in which an entry of another OS type and an
    entry that does not match come first, the entry named by the value
    next, and an entry whose id is the value last: the project is fetched
    by its id, and each lookup returns the entry named by the value. *)
Lemma lookup_by_id_returns_first_id_or_name_match_witness :
  let windows_flavor := Flavor.mk "GRA1" "win-b2-7" "b2-7" "windows" 2 7 50 "ovh.ssd.eg" in
  let windows_image := Image.mk "GRA1" "Windows" "ubuntu" "windows" "2020-04-23" "active" 0
                         "public" in
  let w := Sim.with_projects ["pr-0"; "pr-1"; "pr-2"]
             (Sim.with_flavors [windows_flavor; Sim.linux_flavor "b2-15" "f-3";
                                Sim.linux_flavor "b2-7" "f-9"; Sim.linux_flavor "old" "b2-7"]
                (Sim.with_images [windows_image; Sim.linux_image "debian" "im-1";
                                  Sim.linux_image "ubuntu" "im-4"; Sim.linux_image "old" "ubuntu"]
                   (Sim.with_sshkeys [Sim.key "backup" "k-0"; Sim.key "deploy" "k-1";
                                      Sim.key "deploy" "k-2"; Sim.key "old" "deploy"]
                      Sim.acme))) in
  GetProjectByName (Sim.env w) Sim.api "pr-1" []
  = (Val (Some (Project.mk "acme" "pr-1" false "2020-01-01" 1 "ok"), None),
     [EvGet Sim.ovh "/cloud/project"; EvGet Sim.ovh "/cloud/project/pr-1"])
  /\ GetFlavorByName (Sim.env w) Sim.api "pr-1" "GRA1" "b2-7" []
     = (Val (Some (Sim.linux_flavor "b2-7" "f-9"), None),
        [EvGet Sim.ovh "/cloud/project/pr-1/flavor?region=GRA1"])
  /\ GetImageByName (Sim.env w) Sim.api "pr-1" "GRA1" "ubuntu" []
     = (Val (Some (Sim.linux_image "ubuntu" "im-4"), None),
        [EvGet Sim.ovh "/cloud/project/pr-1/image?osType=linux&region=GRA1"])
  /\ GetSshkeyByName (Sim.env w) Sim.api "pr-1" "GRA1" "deploy" []
     = (Val (Some (Sim.key "deploy" "k-1"), None),
        [EvGet Sim.ovh "/cloud/project/pr-1/sshkey?region=GRA1"]).
Proof.
  cbv zeta.
  pose (windows_flavor := Flavor.mk "GRA1" "win-b2-7" "b2-7" "windows" 2 7 50 "ovh.ssd.eg").
  pose (windows_image := Image.mk "GRA1" "Windows" "ubuntu" "windows" "2020-04-23" "active" 0
                           "public").
  pose (w := Sim.with_projects ["pr-0"; "pr-1"; "pr-2"]
               (Sim.with_flavors [windows_flavor; Sim.linux_flavor "b2-15" "f-3";
                                  Sim.linux_flavor "b2-7" "f-9"; Sim.linux_flavor "old" "b2-7"]
                  (Sim.with_images [windows_image; Sim.linux_image "debian" "im-1";
                                    Sim.linux_image "ubuntu" "im-4";
                                    Sim.linux_image "old" "ubuntu"]
                     (Sim.with_sshkeys [Sim.key "backup" "k-0"; Sim.key "deploy" "k-1";
                                        Sim.key "deploy" "k-2"; Sim.key "old" "deploy"]
                        Sim.acme)))).
  split; [|split; [|split]].
  - exact (proj1 (lookup_by_id_returns_first_id_or_name_match (Sim.env w) Sim.ovh "pr-1" [])
             ["pr-0"; "pr-1"; "pr-2"] eq_refl (or_intror (or_introl eq_refl))).
  - refine (proj1 (proj2 (lookup_by_id_returns_first_id_or_name_match
                            (Sim.env w) Sim.ovh "b2-7" []))
              "pr-1" "GRA1" [windows_flavor; Sim.linux_flavor "b2-15" "f-3"]
              (Sim.linux_flavor "b2-7" "f-9") [Sim.linux_flavor "old" "b2-7"]
              eq_refl (or_intror eq_refl) eq_refl _).
    intros f [<-|[<-|[]]]; [discriminate|]. intros _. split; discriminate.
  - refine (proj1 (proj2 (proj2 (lookup_by_id_returns_first_id_or_name_match
                            (Sim.env w) Sim.ovh "ubuntu" [])))
              "pr-1" "GRA1" [windows_image; Sim.linux_image "debian" "im-1"]
              (Sim.linux_image "ubuntu" "im-4") [Sim.linux_image "old" "ubuntu"]
              eq_refl (or_intror eq_refl) eq_refl _).
    intros f [<-|[<-|[]]]; [discriminate|]. intros _. split; discriminate.
  - refine (proj2 (proj2 (proj2 (lookup_by_id_returns_first_id_or_name_match
                            (Sim.env w) Sim.ovh "deploy" [])))
              "pr-1" "GRA1" [Sim.key "backup" "k-0"] (Sim.key "deploy" "k-1")
              [Sim.key "deploy" "k-2"; Sim.key "old" "deploy"] eq_refl (or_intror eq_refl) _).
    intros k [<-|[]]. split; discriminate.
Defined.

(** ** Computations only add to the history *)

Lemma extends_ret {A} (a : A) : extends (ret a).
Proof. intros t r t' H. inversion H. exists []. now rewrite app_nil_r. Qed.

Lemma extends_throw {A} p : extends (@throw A p).
Proof. intros t r t' H. inversion H. exists []. now rewrite app_nil_r. Qed.

Lemma extends_call {A} e (answer : Trace -> A) : extends (call e answer).
Proof. intros t r t' H. inversion H. now exists [e]. Qed.

Lemma extends_deref {A} (p : option A) : extends (deref p).
Proof. destruct p; [apply extends_ret|apply extends_throw]. Qed.

Lemma extends_bind {A B} (m : M A) (k : A -> M B) :
  extends m -> (forall a, extends (k a)) -> extends (bind m k).
Proof.
  intros Hm Hk t r t' H. unfold bind in H.
  destruct (m t) as [[a|p] t1] eqn:Hmt.
  - destruct (Hm _ _ _ Hmt) as [evs1 ->]. destruct (Hk a _ _ _ H) as [evs2 ->].
    exists (evs1 ++ evs2). now rewrite app_assoc.
  - inversion H; subst. eapply Hm; eauto.
Qed.

Create HintDb extends.
#[local] Hint Resolve extends_ret extends_throw extends_call extends_deref : extends.

Ltac extends_step :=
  match goal with
  | |- extends (bind _ _) => apply extends_bind; [|intros]
  | |- extends (match ?x with _ => _ end) => destruct x
  | |- extends (let _ := _ in _) => cbv zeta
  | |- extends _ => solve [auto with extends]
  end.

Ltac extends_all := repeat extends_step.

Section Extends.

Variable env : Env.

Lemma extends_client_Get {A} (answer : Env -> Trace -> ovhClient -> string -> A) a url :
  extends (client_Get env answer a url).
Proof. unfold client_Get. extends_all. Qed.

Lemma extends_client_Post {R A} (body : R -> PostBody)
    (answer : Env -> Trace -> ovhClient -> string -> R -> A) a url req :
  extends (client_Post env body answer a url req).
Proof. unfold client_Post. extends_all. Qed.

Lemma extends_client_Delete a url : extends (client_Delete env a url).
Proof. unfold client_Delete. extends_all. Qed.

Hint Resolve extends_client_Get extends_client_Post extends_client_Delete : extends.

Lemma extends_NewAPI e ak asec ck : extends (NewAPI env e ak asec ck).
Proof. unfold NewAPI. extends_all. Qed.

Lemma extends_GetProjects a : extends (GetProjects env a).
Proof. unfold GetProjects. extends_all. Qed.

Lemma extends_GetProject a projectID : extends (GetProject env a projectID).
Proof. unfold GetProject. extends_all. Qed.

Hint Resolve extends_NewAPI extends_GetProjects extends_GetProject : extends.

Lemma extends_GetProjectByName_scan a name projects :
  extends (GetProjectByName_scan env a name projects).
Proof. induction projects as [|projectID rest IH]; cbn [GetProjectByName_scan]; extends_all. Qed.

Hint Resolve extends_GetProjectByName_scan : extends.

Lemma extends_GetProjectByName a name : extends (GetProjectByName env a name).
Proof. unfold GetProjectByName. extends_all. Qed.

Lemma extends_GetNetworks a projectID privateNet : extends (GetNetworks env a projectID privateNet).
Proof. unfold GetNetworks. extends_all. Qed.

Lemma extends_index {A} (s : list A) i : extends (index s i).
Proof. unfold index. extends_all. Qed.

Hint Resolve extends_GetProjectByName extends_GetNetworks extends_index : extends.

Lemma extends_GetPublicNetworkID a projectID : extends (GetPublicNetworkID env a projectID).
Proof. unfold GetPublicNetworkID. extends_all. Qed.

Lemma extends_GetPrivateNetworkByName a projectID name :
  extends (GetPrivateNetworkByName env a projectID name).
Proof. unfold GetPrivateNetworkByName. extends_all. Qed.

Lemma extends_GetRegions a projectID : extends (GetRegions env a projectID).
Proof. unfold GetRegions. extends_all. Qed.

Lemma extends_GetFlavors a projectID region : extends (GetFlavors env a projectID region).
Proof. unfold GetFlavors. extends_all. Qed.

Lemma extends_GetImages a projectID region : extends (GetImages env a projectID region).
Proof. unfold GetImages. extends_all. Qed.

Lemma extends_GetSshkeys a projectID region : extends (GetSshkeys env a projectID region).
Proof. unfold GetSshkeys. extends_all. Qed.

Hint Resolve extends_GetPublicNetworkID extends_GetPrivateNetworkByName extends_GetRegions
  extends_GetFlavors extends_GetImages extends_GetSshkeys : extends.

Lemma extends_GetFlavorByName a projectID region name :
  extends (GetFlavorByName env a projectID region name).
Proof. unfold GetFlavorByName. extends_all. Qed.

Lemma extends_GetImageByName a projectID region name :
  extends (GetImageByName env a projectID region name).
Proof. unfold GetImageByName. extends_all. Qed.

Lemma extends_GetSshkeyByName a projectID region name :
  extends (GetSshkeyByName env a projectID region name).
Proof. unfold GetSshkeyByName. extends_all. Qed.

Lemma extends_DeleteInstance a projectID id : extends (DeleteInstance env a projectID id).
Proof. unfold DeleteInstance. extends_all. Qed.

Lemma extends_DeleteSshkey a projectID id : extends (DeleteSshkey env a projectID id).
Proof. unfold DeleteSshkey. extends_all. Qed.

Lemma extends_getClient d : extends (getClient env d).
Proof. unfold getClient. extends_all. Qed.

Hint Resolve extends_GetFlavorByName extends_GetImageByName extends_GetSshkeyByName
  extends_DeleteInstance extends_DeleteSshkey extends_getClient : extends.

Lemma extends_PreCreateCheck_projectNames client projects :
  extends (PreCreateCheck_projectNames env client projects).
Proof.
  induction projects as [|projectID rest IH]; cbn [PreCreateCheck_projectNames]; extends_all.
Qed.

Hint Resolve extends_PreCreateCheck_projectNames : extends.

Lemma extends_PreCreateCheck_project client d : extends (PreCreateCheck_project env client d).
Proof. unfold PreCreateCheck_project. extends_all. Qed.

Lemma extends_PreCreateCheck_network client d : extends (PreCreateCheck_network env client d).
Proof. unfold PreCreateCheck_network. extends_all. Qed.

Lemma extends_PreCreateCheck_key d : extends (PreCreateCheck_key env d).
Proof. unfold PreCreateCheck_key. extends_all. Qed.

Hint Resolve extends_PreCreateCheck_project extends_PreCreateCheck_network
  extends_PreCreateCheck_key : extends.

Lemma extends_PreCreateCheck_resolve client d : extends (PreCreateCheck_resolve env client d).
Proof. unfold PreCreateCheck_resolve. extends_all. Qed.

End Extends.

(** ** The driver's client *)

Lemma getClient_ready env d a t :
  Driver.client d = Some a -> getClient env d t = (Val (d, (Some a, None)), t).
Proof. intros H. unfold getClient. now rewrite H. Qed.

(** A client obtained without error leaves every field but [client] as it was. *)
Lemma getClient_frame env d t d1 client t1 :
  getClient env d t = (Val (d1, (client, None)), t1) ->
  d1 = Driver.set_client client d /\ Driver.client d1 = client.
Proof.
  unfold getClient. destruct (Driver.client d) as [a|] eqn:Hc.
  - intros H. inversion H; subst. split; [|exact Hc].
    destruct d1; cbn in *. now rewrite Hc.
  - unfold bind. destruct (NewAPI env _ _ _ _ t) as [[[client' [e|]]|p] t2]; try discriminate.
    intros H. inversion H; subst. split; reflexivity.
Qed.

(** ** The billing period *)

Lemma app_cons_not_nil_r {A} (t : list A) e evs : t ++ e :: evs <> t.
Proof.
  intros H. apply (f_equal (@List.length A)) in H. rewrite length_app in H. cbn in H. lia.
Qed.

Lemma begins_with_call {A} e (answer : Trace -> A) : begins_with e (call e answer).
Proof. intros t r t' H. inversion H. now exists []. Qed.

Lemma begins_with_bind {A B} e (m : M A) (k : A -> M B) :
  begins_with e m -> (forall a, extends (k a)) -> begins_with e (bind m k).
Proof.
  intros Hm Hk t r t' H. unfold bind in H.
  destruct (m t) as [[a|p] t1] eqn:Hmt.
  - destruct (Hm _ _ _ Hmt) as [evs1 ->]. destruct (Hk a _ _ _ H) as [evs2 ->].
    exists (evs1 ++ evs2). now rewrite <- app_assoc.
  - inversion H; subst. eapply Hm; eauto.
Qed.

Section FirstRequest.

Variable env : Env.
Variable c : ovhClient.

Let a : option API := Some (API.mk (Some c)).

Lemma begins_with_GetProjects : begins_with (EvGet c "/cloud/project") (GetProjects env a).
Proof.
  unfold GetProjects. apply begins_with_bind; [apply begins_with_call|].
  intros [projects err]. apply extends_ret.
Qed.

Lemma begins_with_GetProjectByName name :
  begins_with (EvGet c "/cloud/project") (GetProjectByName env a name).
Proof.
  unfold GetProjectByName. apply begins_with_bind; [apply begins_with_GetProjects|].
  intros [projects err]. extends_all;
    auto using extends_GetProject, extends_GetProjectByName_scan with extends.
Qed.

Lemma begins_with_PreCreateCheck_project d :
  begins_with (EvGet c "/cloud/project") (PreCreateCheck_project env a d).
Proof.
  unfold PreCreateCheck_project. destruct (negb _).
  - apply begins_with_bind; [apply begins_with_GetProjectByName|].
    intros [project err]. extends_all.
  - apply begins_with_bind; [apply begins_with_GetProjects|].
    intros [projects err]. extends_all;
      auto using extends_index, extends_PreCreateCheck_projectNames with extends.
Qed.

Lemma begins_with_PreCreateCheck_resolve d :
  begins_with (EvGet c "/cloud/project") (PreCreateCheck_resolve env a d).
Proof.
  unfold PreCreateCheck_resolve.
  apply begins_with_bind; [apply begins_with_PreCreateCheck_project|].
  intros [d0 err]. extends_all;
    auto using extends_GetRegions, extends_GetFlavorByName, extends_GetImageByName,
      extends_PreCreateCheck_network, extends_PreCreateCheck_key with extends.
Qed.

End FirstRequest.

Lemma PreCreateCheck_resolve_nil_client env client d t :
  client = None \/ client = Some (API.mk None) ->
  PreCreateCheck_resolve env client d t = (Panic NilPointerDereference, t).
Proof.
  intros [->| ->]; unfold PreCreateCheck_resolve, PreCreateCheck_project;
    destruct (negb _); reflexivity.
Qed.

(** Once the billing period is accepted the provider is asked for the list
    of projects: the rest of the validation never returns a value without a
    request. *)
Lemma PreCreateCheck_resolve_requests env client d t r t' :
  PreCreateCheck_resolve env client d t = (Val r, t') ->
  exists c evs, client = Some (API.mk (Some c)) /\ t' = t ++ EvGet c "/cloud/project" :: evs.
Proof.
  destruct client as [[[c|]]|].
  - intros H. apply begins_with_PreCreateCheck_resolve in H. destruct H as [evs ->].
    now exists c, evs.
  - rewrite PreCreateCheck_resolve_nil_client by auto. discriminate.
  - rewrite PreCreateCheck_resolve_nil_client by auto. discriminate.
Qed.

(** C7: once the client is there, [PreCreateCheck] accepts the billing
    periods [hourly] and [monthly] and no other string.  An accepted period
    lets the validation go on to resolve the project, so the outcome is not
    the error of an invalid billing period; any other string, [Hourly] and
    the empty string among them, is refused with that error before anything
    is asked of the provider. *)
Theorem PreCreateCheck_accepts_hourly_and_monthly_only env d t d1 client t1
  (Hclient : getClient env d t = (Val (d1, (client, None)), t1)) :
  let period := Driver.BillingPeriod d in
  let refused := (Val (d1, Some (invalidBillingPeriod period)), t1) in
  (period = "hourly" \/ period = "monthly" ->
     PreCreateCheck env d t = PreCreateCheck_resolve env client d1 t1
     /\ PreCreateCheck env d t <> refused)
  /\ (period <> "hourly" -> period <> "monthly" -> PreCreateCheck env d t = refused)
  /\ (period = "Hourly" \/ period = "HOURLY" \/ period = "Monthly" \/ period = "" ->
      PreCreateCheck env d t = refused).
Proof.
  cbv zeta.
  destruct (getClient_frame _ _ _ _ _ _ Hclient) as [Hd1 _].
  assert (Hperiod : Driver.BillingPeriod d1 = Driver.BillingPeriod d) by now rewrite Hd1.
  assert (Hrefuse : Driver.BillingPeriod d <> "hourly" -> Driver.BillingPeriod d <> "monthly" ->
                    PreCreateCheck env d t
                    = (Val (d1, Some (invalidBillingPeriod (Driver.BillingPeriod d))), t1)).
  { intros Hh Hm. unfold PreCreateCheck. rewrite (bind_Val _ _ _ _ _ Hclient).
    rewrite Hperiod.
    apply String.eqb_neq in Hh, Hm. rewrite Hh, Hm. reflexivity. }
  split; [|split].
  - intros Hvalid.
    assert (Hgo : PreCreateCheck env d t = PreCreateCheck_resolve env client d1 t1).
    { unfold PreCreateCheck. rewrite (bind_Val _ _ _ _ _ Hclient). rewrite Hperiod.
      destruct Hvalid as [-> | ->]; reflexivity. }
    split; [exact Hgo|]. rewrite Hgo. intros Heq.
    apply PreCreateCheck_resolve_requests in Heq. destruct Heq as (c & evs & _ & Heq).
    symmetry in Heq. now apply app_cons_not_nil_r in Heq.
  - exact Hrefuse.
  - intros H. apply Hrefuse; intros Heq; rewrite Heq in H;
      destruct H as [H|[H|[H|H]]]; discriminate.
Qed.

Lemma PreCreateCheck_accepts_hourly_and_monthly_only_witness :
  PreCreateCheck (Sim.env Sim.acme) (Sim.configured "m1" "" "" "Hourly") []
  = (Val (Driver.set_client
            (Some (API.mk (Some (mkClient "" "" "" ""))))
            (Sim.configured "m1" "" "" "Hourly"),
          Some (invalidBillingPeriod "Hourly")),
     [EvNewClient "" "" "" ""]).
Proof.
  exact (proj2 (proj2 (PreCreateCheck_accepts_hourly_and_monthly_only
           (Sim.env Sim.acme) (Sim.configured "m1" "" "" "Hourly") []
           (Driver.set_client (Some (API.mk (Some (mkClient "" "" "" ""))))
              (Sim.configured "m1" "" "" "Hourly"))
           (Some (API.mk (Some (mkClient "" "" "" "")))) [EvNewClient "" "" "" ""]
           eq_refl)) (or_introl eq_refl)).
Defined.

(** ** Removal *)

Lemma Remove_run env d t d1 c t1 :
  getClient env d t = (Val (d1, (Some (API.mk (Some c)), None)), t1) ->
  Remove env d t
  = let (err, t2) := afterInstanceDeletion env c d t1 in
    match err with
    | Some e => (Val (d1, Some e), t2)
    | None =>
        if negb (strings_HasPrefix (Driver.KeyPairName d) (Driver.MachineName d))
        then (Val (d1, None), t2)
        else if (Driver.KeyPairID d =? "")%string then (Val (d1, None), t2)
        else (Val (d1, ignore_not_found (env_Delete env t2 c (sshkeyURL d))),
              t2 ++ [EvDelete c (sshkeyURL d)])
    end.
Proof.
  intros Hclient.
  destruct (getClient_frame _ _ _ _ _ _ Hclient) as [Hd1 _].
  unfold Remove. rewrite (bind_Val _ _ _ _ _ Hclient).
  assert (HI : Driver.InstanceID d1 = Driver.InstanceID d) by now rewrite Hd1.
  assert (HP : Driver.ProjectID d1 = Driver.ProjectID d) by now rewrite Hd1.
  assert (HK : Driver.KeyPairID d1 = Driver.KeyPairID d) by now rewrite Hd1.
  assert (HN : Driver.KeyPairName d1 = Driver.KeyPairName d) by now rewrite Hd1.
  assert (HM : Driver.MachineName d1 = Driver.MachineName d) by now rewrite Hd1.
  rewrite HI, HP, HK, HN, HM. unfold afterInstanceDeletion.
  destruct (Driver.InstanceID d =? "")%string; cbn [negb].
  - unfold bind at 1, ret at 1.
    destruct (negb _); [reflexivity|].
    destruct (Driver.KeyPairID d =? "")%string; cbn [negb]; [reflexivity|].
    rewrite (bind_Val _ _ _ _ _ (DeleteSshkey_run _ _ _ _ _)). fold (sshkeyURL d).
    now destruct (ignore_not_found _).
  - rewrite (bind_Val _ _ _ _ _ (DeleteInstance_run _ _ _ _ _)). fold (instanceURL d).
    destruct (ignore_not_found (env_Delete env t1 c (instanceURL d))); [reflexivity|].
    destruct (negb _); [reflexivity|].
    destruct (Driver.KeyPairID d =? "")%string; cbn [negb]; [reflexivity|].
    rewrite (bind_Val _ _ _ _ _ (DeleteSshkey_run _ _ _ _ _)). fold (sshkeyURL d).
    now destruct (ignore_not_found _).
Qed.

(** C5, as stated, fails on two driver states.  With no instance id
    recorded, [Remove] asks for no deletion of an instance; with a key-pair
    name that starts with the machine name and no key-pair id recorded, it
    deletes the instance and asks for no deletion of a key. *)
Lemma Remove_skips_unrecorded_instance_and_key :
  let no_instance := Driver.set_InstanceID "" (Sim.created "m1" "shared" "k-7") in
  let no_key_id := Sim.created "m1" "m1-0123abcd" "" in
  Remove (Sim.env Sim.acme) no_instance [] = (Val (no_instance, None), [])
  /\ strings_HasPrefix (Driver.KeyPairName no_key_id) (Driver.MachineName no_key_id) = true
  /\ Remove (Sim.env Sim.acme) no_key_id []
     = (Val (no_key_id, None), [EvDelete Sim.ovh "/cloud/project/pr-1/instance/i-1"]).
Proof.
  cbv zeta. split; [vm_compute; reflexivity|].
  split; [reflexivity|vm_compute; reflexivity].
Qed.

(** C5, amended: once its client is there, [Remove] deletes the instance
    when an instance id is recorded.  An error the provider answers to that
    deletion, other than its not-found, is returned as it is and ends
    [Remove]; a nil answer and the not-found let it go on.  After that, a
    key-pair name that does not start with the machine name leaves the key
    alone: no deletion of a key is requested.  Otherwise the key-pair is
    deleted when a key-pair id is recorded: a nil answer and the not-found
    are success, any other error the provider answers is returned. *)
Theorem Remove_deletes_recorded_instance_then_own_key env d t d1 c t1
  (Hclient : getClient env d t = (Val (d1, (Some (API.mk (Some c)), None)), t1)) :
  let own_key := strings_HasPrefix (Driver.KeyPairName d) (Driver.MachineName d) in
  let deletion := env_Delete env t1 c (instanceURL d) in
  let t2 := if (Driver.InstanceID d =? "")%string then t1
            else t1 ++ [EvDelete c (instanceURL d)] in
  let key_deletion := env_Delete env t2 c (sshkeyURL d) in
  (Driver.InstanceID d <> "" ->
     exists r evs, Remove env d t = (r, t1 ++ EvDelete c (instanceURL d) :: evs))
  /\ (Driver.InstanceID d <> "" -> forall e,
        deletion = Some e -> (forall m, e <> APIError 404 m) ->
        Remove env d t = (Val (d1, Some e), t2))
  /\ (Driver.InstanceID d = "" \/ deletion = None
      \/ (exists m, deletion = Some (APIError 404 m)) ->
      (own_key = false -> Remove env d t = (Val (d1, None), t2))
      /\ (own_key = true -> Driver.KeyPairID d = "" -> Remove env d t = (Val (d1, None), t2))
      /\ (own_key = true -> Driver.KeyPairID d <> "" ->
          (key_deletion = None \/ (exists m, key_deletion = Some (APIError 404 m)) ->
           Remove env d t = (Val (d1, None), t2 ++ [EvDelete c (sshkeyURL d)]))
          /\ (forall e, key_deletion = Some e -> (forall m, e <> APIError 404 m) ->
              Remove env d t = (Val (d1, Some e), t2 ++ [EvDelete c (sshkeyURL d)])))).
Proof.
  cbv zeta. rewrite (Remove_run _ _ _ _ _ _ Hclient). unfold afterInstanceDeletion.
  split; [|split].
  - intros Hid. apply String.eqb_neq in Hid. rewrite Hid.
    destruct (ignore_not_found _); [now eexists; exists []|].
    destruct (negb _); [now eexists; exists []|].
    destruct (Driver.KeyPairID d =? "")%string; [now eexists; exists []|].
    eexists. eexists. rewrite <- app_assoc. reflexivity.
  - intros Hid e He Hne. apply String.eqb_neq in Hid. rewrite Hid, He.
    now rewrite (ignore_not_found_kept e Hne).
  - intros Hdel.
    assert (Hgo : (if (Driver.InstanceID d =? "")%string then (None, t1)
                   else (ignore_not_found (env_Delete env t1 c (instanceURL d)),
                         t1 ++ [EvDelete c (instanceURL d)]))
                  = (None, if (Driver.InstanceID d =? "")%string then t1
                           else t1 ++ [EvDelete c (instanceURL d)])).
    { destruct (String.eqb_spec (Driver.InstanceID d) "") as [Hid|Hid]; [reflexivity|].
      destruct Hdel as [H|H]; [contradiction|].
      now rewrite (ignore_not_found_cleared _ H). }
    rewrite Hgo. clear Hgo Hdel.
    split; [|split].
    + intros ->. reflexivity.
    + intros -> ->. reflexivity.
    + intros -> Hk. apply String.eqb_neq in Hk. rewrite Hk. cbn [negb]. split.
      * intros Hkey. now rewrite (ignore_not_found_cleared _ Hkey).
      * intros e He Hne. rewrite He. now rewrite (ignore_not_found_kept e Hne).
Qed.

(** A provider that has lost the instance and the key answers both
    deletions with its not-found, and [Remove] succeeds after both; a
    provider that answers the deletion of the instance with an error 500
    gets no request for the key, and [Remove] returns that error. *)
Lemma Remove_deletes_recorded_instance_then_own_key_witness :
  let gone := Sim.with_deletions [] (Some (APIError 404 "Not Found")) Sim.acme in
  let failing := Sim.with_deletions [Some (APIError 500 "Internal Server Error")] None
                   Sim.acme in
  let d := Sim.created "m1" "m1-0123abcd" "k-7" in
  Remove (Sim.env gone) d []
  = (Val (d, None), [EvDelete Sim.ovh "/cloud/project/pr-1/instance/i-1";
                     EvDelete Sim.ovh "/cloud/project/pr-1/sshkey/k-7"])
  /\ Remove (Sim.env failing) d []
     = (Val (d, Some (APIError 500 "Internal Server Error")),
        [EvDelete Sim.ovh "/cloud/project/pr-1/instance/i-1"]).
Proof.
  cbv zeta. split.
  - exact (proj1 (proj2 (proj2 (proj2 (proj2 (Remove_deletes_recorded_instance_then_own_key
             (Sim.env (Sim.with_deletions [] (Some (APIError 404 "Not Found")) Sim.acme))
             (Sim.created "m1" "m1-0123abcd" "k-7") []
             (Sim.created "m1" "m1-0123abcd" "k-7") Sim.ovh [] eq_refl))
             (or_intror (or_intror (ex_intro _ "Not Found" eq_refl)))))
             eq_refl ltac:(discriminate))
             (or_intror (ex_intro _ "Not Found" eq_refl))).
  - exact (proj1 (proj2 (Remove_deletes_recorded_instance_then_own_key
             (Sim.env (Sim.with_deletions [Some (APIError 500 "Internal Server Error")] None
                         Sim.acme))
             (Sim.created "m1" "m1-0123abcd" "k-7") []
             (Sim.created "m1" "m1-0123abcd" "k-7") Sim.ovh [] eq_refl))
             ltac:(discriminate) (APIError 500 "Internal Server Error") eq_refl
             ltac:(discriminate)).
Defined.

(** ** The generated key-pair name *)

Lemma sanitizeKeyPairName_cons ch rest :
  sanitizeKeyPairName (String ch rest)
  = String (if Ascii.eqb ch dot then "_"%char else ch) (sanitizeKeyPairName rest).
Proof.
  unfold sanitizeKeyPairName, strings_Replace. cbn [replace_from String.prefix].
  destruct (ascii_dec "." ch) as [<-|Hne].
  - now destruct rest.
  - destruct (Ascii.eqb_spec ch dot) as [->|_]; [now contradiction Hne|reflexivity].
Qed.

Lemma sanitizeKeyPairName_app s1 s2 :
  sanitizeKeyPairName (s1 ++ s2) = (sanitizeKeyPairName s1 ++ sanitizeKeyPairName s2)%string.
Proof.
  induction s1 as [|ch s1 IH]; [reflexivity|].
  cbn [append]. rewrite !sanitizeKeyPairName_cons. cbn [append]. now rewrite IH.
Qed.

Lemma sanitizeKeyPairName_no_dot s :
  contains_byte dot (sanitizeKeyPairName s) = false.
Proof.
  induction s as [|ch s IH]; [reflexivity|].
  rewrite sanitizeKeyPairName_cons. cbn [contains_byte].
  destruct (Ascii.eqb_spec ch dot) as [->|Hne]; [exact IH|].
  destruct (Ascii.eqb_spec ch dot); [contradiction|exact IH].
Qed.

Lemma dotted_name_is_no_prefix_of_its_sanitized machineName rest :
  contains_byte dot machineName = true ->
  String.prefix machineName (sanitizeKeyPairName machineName ++ rest) = false.
Proof.
  induction machineName as [|ch m IH]; [discriminate|].
  rewrite sanitizeKeyPairName_cons. cbn [contains_byte append String.prefix].
  destruct (Ascii.eqb_spec ch dot) as [->|Hne].
  - intros _. now destruct (ascii_dec dot "_").
  - intros Hdot. destruct (ascii_dec ch ch); [now apply IH|reflexivity].
Qed.

(** ** What a successful validation did *)

Lemma bind_inv {A B} (m : M A) (k : A -> M B) t b t' :
  bind m k t = (Val b, t') -> exists a t1, m t = (Val a, t1) /\ k a t1 = (Val b, t').
Proof.
  unfold bind. destruct (m t) as [[a|p] t1]; [|discriminate].
  intros H. now exists a, t1.
Qed.

Tactic Notation "inv_bind" hyp(H) "as" simple_intropattern(a) ident(t1) ident(Hm) :=
  apply bind_inv in H; destruct H as (a & t1 & Hm & H).

Ltac inv_ret H := unfold ret in H; inversion H; subst; clear H.

Section Validation.

Variable env : Env.

Lemma PreCreateCheck_project_success client d t d' t' :
  PreCreateCheck_project env client d t = (Val (d', None), t') ->
  exists projectID, d' = Driver.set_ProjectID projectID d.
Proof.
  unfold PreCreateCheck_project. destruct (negb _); intros H.
  - inv_bind H as [project [e|]] t1 H1; [inv_ret H|].
    inv_bind H as p t2 H2. inv_ret H. now eexists.
  - inv_bind H as [projects [e|]] t1 H1; [inv_ret H|].
    destruct (List.length projects =? 1)%nat.
    + inv_bind H as projectID t2 H2. inv_ret H. now eexists.
    + destruct (List.length projects =? 0)%nat; [inv_ret H|].
      inv_bind H as names t2 H2. inv_ret H.
Qed.

Lemma PreCreateCheck_network_success client d t d' t' :
  PreCreateCheck_network env client d t = (Val (d', None), t') ->
  (Driver.PrivateNetworkName d = "" /\ d' = d /\ t' = t)
  \/ (Driver.PrivateNetworkName d <> ""
      /\ exists network t1 publicNetworkID,
           GetPrivateNetworkByName env client (Driver.ProjectID d)
             (Driver.PrivateNetworkName d) t = (Val (Some network, None), t1)
           /\ GetPublicNetworkID env client (Driver.ProjectID d) t1
              = (Val (publicNetworkID, None), t')
           /\ d' = Driver.set_NetworkIDs
                     (Driver.NetworkIDs d ++ [Network.ID network; publicNetworkID]) d).
Proof.
  unfold PreCreateCheck_network.
  destruct (String.eqb_spec (Driver.PrivateNetworkName d) "") as [Hn|Hn]; cbn [negb].
  - intros H. inv_ret H. now left.
  - intros H. right. split; [exact Hn|].
    inv_bind H as [privateNetwork [e|]] t1 H1; [inv_ret H|].
    inv_bind H as network t2 H2.
    destruct privateNetwork as [network'|]; [|discriminate]. inv_ret H2.
    inv_bind H as [publicNetworkID [e|]] t3 H3; [inv_ret H|]. inv_ret H.
    exists network, t2, publicNetworkID. repeat split; [exact H1|exact H3|].
    cbn. now rewrite <- app_assoc.
Qed.

Lemma PreCreateCheck_key_run d t :
  exists d' t',
    PreCreateCheck_key env d t = (Val (d', None), t')
    /\ Driver.NetworkIDs d' = Driver.NetworkIDs d
    /\ Driver.ProjectID d' = Driver.ProjectID d
    /\ Driver.MachineName d' = Driver.MachineName d
    /\ (Driver.KeyPairName d = "" ->
        exists randomID,
          Driver.KeyPairName d'
          = sanitizeKeyPairName (Driver.MachineName d ++ "-" ++ randomID))
    /\ (Driver.KeyPairName d <> "" -> Driver.KeyPairName d' = Driver.KeyPairName d).
Proof.
  unfold PreCreateCheck_key. cbv zeta.
  destruct (Driver.KeyPairName d) as [|ch name] eqn:Hname; cbn [String.length Nat.eqb negb].
  - eexists. eexists. split; [reflexivity|]. cbn.
    repeat split; [|congruence]. intros _. now eexists.
  - unfold bind, call.
    destruct (env_Stat env t _) as [e|]; eexists; eexists; (split; [reflexivity|]);
      cbn; rewrite ?Hname; repeat split; try discriminate; auto.
Qed.

Lemma PreCreateCheck_resolve_success client d t d' t' :
  PreCreateCheck_resolve env client d t = (Val (d', None), t') ->
  exists projectID flavor image t3 d4 t4,
    let d3 := Driver.set_ImageID (Image.ID image)
                (Driver.set_FlavorID (Flavor.ID flavor) (Driver.set_ProjectID projectID d)) in
    PreCreateCheck_network env client d3 t3 = (Val (d4, None), t4)
    /\ PreCreateCheck_key env d4 t4 = (Val (d', None), t').
Proof.
  unfold PreCreateCheck_resolve. intros H.
  inv_bind H as [d2 [e|]] t1 H1; [inv_ret H|].
  apply PreCreateCheck_project_success in H1. destruct H1 as [projectID ->].
  inv_bind H as [regions [e|]] t2 H2; [inv_ret H|].
  cbv zeta in H. destruct (negb _); [inv_ret H|].
  inv_bind H as [flavor [e|]] t3 H3; [inv_ret H|].
  inv_bind H as f t4 H4. destruct flavor as [flavor|]; [|discriminate]. inv_ret H4.
  inv_bind H as [image [e|]] t5 H5; [inv_ret H|].
  inv_bind H as i t6 H6. destruct image as [image|]; [|discriminate]. inv_ret H6.
  inv_bind H as [d4 [e|]] t7 H7; [inv_ret H|].
  exists projectID, f, i, t6, d4, t7. cbv zeta. split; assumption.
Qed.

Lemma PreCreateCheck_success d t d' t' :
  PreCreateCheck env d t = (Val (d', None), t') ->
  exists d1 client t1,
    getClient env d t = (Val (d1, (client, None)), t1)
    /\ PreCreateCheck_resolve env client d1 t1 = (Val (d', None), t').
Proof.
  unfold PreCreateCheck. intros H.
  inv_bind H as [d1 [client [e|]]] t1 H1; [inv_ret H|].
  destruct (_ && _); [inv_ret H|].
  now exists d1, client, t1.
Qed.

End Validation.

(** ** The attached networks *)

(** C4: a driver configured from the command line holds no network id,
    since the driver that [main] registers holds none and
    [SetConfigFromFlags] leaves the list alone.  After a successful
    [PreCreateCheck] of such a driver the list holds exactly two ids when a
    private network was named, the id of the private network resolved by
    that name and then the id of the project's public network, and it is
    empty when none was named. *)
Theorem PreCreateCheck_attaches_private_then_public_network env base flags t d' t' :
  let d := fst (SetConfigFromFlags (Driver.set_Base base main_Driver) flags) in
  PreCreateCheck env d t = (Val (d', None), t') ->
  Driver.PrivateNetworkName d = DriverOptions.String flags "ovh-private-network"
  /\ (Driver.PrivateNetworkName d <> "" ->
      exists client t1 t2 t3 network publicNetworkID,
        GetPrivateNetworkByName env client (Driver.ProjectID d') (Driver.PrivateNetworkName d) t1
        = (Val (Some network, None), t2)
        /\ GetPublicNetworkID env client (Driver.ProjectID d') t2
           = (Val (publicNetworkID, None), t3)
        /\ Driver.NetworkIDs d' = [Network.ID network; publicNetworkID])
  /\ (Driver.PrivateNetworkName d = "" -> Driver.NetworkIDs d' = []).
Proof.
  cbv zeta. intros Hok. split; [reflexivity|].
  remember (fst (SetConfigFromFlags (Driver.set_Base base main_Driver) flags)) as d eqn:Hd.
  assert (Hnil : Driver.NetworkIDs d = []) by (subst d; reflexivity).
  clear Hd.
  destruct (PreCreateCheck_success _ _ _ _ _ Hok) as (d1 & client & t1 & Hclient & Hres).
  destruct (getClient_frame _ _ _ _ _ _ Hclient) as [-> _].
  destruct (PreCreateCheck_resolve_success _ _ _ _ _ _ Hres)
    as (projectID & flavor & image & t3 & d4 & t4 & Hnet & Hkey).
  cbv zeta in Hnet.
  destruct (PreCreateCheck_key_run env d4 t4) as (d'' & t'' & Hkey' & HN & HP & _).
  rewrite Hkey in Hkey'. inversion Hkey'; subst d'' t''; clear Hkey'.
  apply PreCreateCheck_network_success in Hnet. cbn in Hnet.
  split.
  - intros Hname. destruct Hnet as [[Hempty _]|[_ Hnet]]; [contradiction|].
    destruct Hnet as (network & t2 & publicNetworkID & Hpriv & Hpub & ->).
    exists client, t3, t2, t4, network, publicNetworkID.
    rewrite HP, HN. cbn. rewrite Hnil. repeat split; assumption.
  - intros Hname. destruct Hnet as [(_ & -> & _)|[Hne _]]; [|contradiction].
    rewrite HN. exact Hnil.
Qed.

(** The command line [--ovh-private-network backend] leaves the ids of the
    network named [backend] and of the public network, in that order; a
    command line that names no private network leaves none. *)
Lemma PreCreateCheck_attaches_private_then_public_network_witness :
  (exists d' t',
      PreCreateCheck (Sim.env Sim.acme) (Sim.configured "m1" "backend" "" "hourly") []
      = (Val (d', None), t')
      /\ Driver.NetworkIDs d' = ["pn-1"; "pub-1"]
      /\ exists network publicNetworkID,
           Driver.NetworkIDs d' = [Network.ID network; publicNetworkID])
  /\ (exists d' t',
      PreCreateCheck (Sim.env Sim.acme) (Sim.configured "m1" "" "" "hourly") []
      = (Val (d', None), t')
      /\ Driver.NetworkIDs d' = []).
Proof.
  split.
  - eexists. eexists.
    assert (Hok : PreCreateCheck (Sim.env Sim.acme)
                    (Sim.configured "m1" "backend" "" "hourly") []
                  = (Val (Driver.set_SSHKeyPath
                            "/home/u/.docker/machine/machines/m1/m1-0123abcd"
                            (Driver.set_KeyPairName "m1-0123abcd"
                               (Driver.set_NetworkIDs ["pn-1"; "pub-1"]
                                  (Driver.set_ImageID "im-4"
                                     (Driver.set_FlavorID "f-9"
                                        (Driver.set_ProjectID "pr-1"
                                           (Driver.set_client
                                              (Some (API.mk (Some (mkClient "" "" "" ""))))
                                              (Sim.configured "m1" "backend" "" "hourly"))))))),
                          None),
                     [EvNewClient "" "" "" ""; EvGet (mkClient "" "" "" "") "/cloud/project";
                      EvGet (mkClient "" "" "" "") "/cloud/project/pr-1";
                      EvGet (mkClient "" "" "" "") "/cloud/project/pr-1/region";
                      EvGet (mkClient "" "" "" "") "/cloud/project/pr-1/flavor?region=GRA1";
                      EvGet (mkClient "" "" "" "")
                        "/cloud/project/pr-1/image?osType=linux&region=GRA1";
                      EvGet (mkClient "" "" "" "") "/cloud/project/pr-1/network/private";
                      EvGet (mkClient "" "" "" "") "/cloud/project/pr-1/network/public";
                      EvGenerateRandomID])).
    { vm_compute. reflexivity. }
    split; [exact Hok|]. split; [reflexivity|].
    destruct (proj1 (proj2 (PreCreateCheck_attaches_private_then_public_network
                (Sim.env Sim.acme)
                (BaseDriver.mk "" "m1" DefaultSSHUserName 22 "" "/home/u/.docker/machine"
                   false "" "")
                (Sim.flags "backend" "" "hourly") [] _ _ Hok)) ltac:(discriminate))
      as (client & t1 & t2 & t3 & network & publicNetworkID & _ & _ & Hids).
    exists network, publicNetworkID. exact Hids.
  - eexists. eexists.
    split; [vm_compute; reflexivity|].
    match goal with
    | |- Driver.NetworkIDs ?d' = [] =>
        exact (proj2 (proj2 (PreCreateCheck_attaches_private_then_public_network
                 (Sim.env Sim.acme)
                 (BaseDriver.mk "" "m1" DefaultSSHUserName 22 "" "/home/u/.docker/machine"
                    false "" "")
                 (Sim.flags "" "" "hourly") [] d' _ ltac:(vm_compute; reflexivity))) eq_refl)
    end.
Defined.

(** ** The key generated for a machine whose name holds a dot *)

(** C9: when the machine name holds a dot and no key name was given, a
    successful [PreCreateCheck] names the key after the machine name and a
    random id with every dot turned into an underscore.  That name holds no
    dot and so does not start with the machine name; [Remove], on any later
    state of the driver with these two names, takes the key for one that was
    there before and asks for no deletion but that of the instance. *)
Theorem generated_key_of_dotted_machine_is_kept env d t d' t'
  (Hdot : contains_byte dot (Driver.MachineName d) = true)
  (Hkey : Driver.KeyPairName d = "")
  (Hok : PreCreateCheck env d t = (Val (d', None), t')) :
  (exists randomID,
      Driver.KeyPairName d' = sanitizeKeyPairName (Driver.MachineName d ++ "-" ++ randomID))
  /\ contains_byte dot (Driver.KeyPairName d') = false
  /\ Driver.MachineName d' = Driver.MachineName d
  /\ strings_HasPrefix (Driver.KeyPairName d') (Driver.MachineName d') = false
  /\ (forall later t2 d3 c t3,
        Driver.KeyPairName later = Driver.KeyPairName d' ->
        Driver.MachineName later = Driver.MachineName d' ->
        getClient env later t2 = (Val (d3, (Some (API.mk (Some c)), None)), t3) ->
        exists err,
          Remove env later t2
          = (Val (d3, err),
             if (Driver.InstanceID later =? "")%string then t3
             else t3 ++ [EvDelete c (instanceURL later)])).
Proof.
  destruct (PreCreateCheck_success _ _ _ _ _ Hok) as (d1 & client & t1 & Hclient & Hres).
  destruct (getClient_frame _ _ _ _ _ _ Hclient) as [-> _].
  destruct (PreCreateCheck_resolve_success _ _ _ _ _ _ Hres)
    as (projectID & flavor & image & t3 & d4 & t4 & Hnet & Hkeyrun).
  cbv zeta in Hnet.
  destruct (PreCreateCheck_key_run env d4 t4) as (d'' & t'' & Hkey' & _ & _ & HM & Hgen & _).
  rewrite Hkeyrun in Hkey'. inversion Hkey'; subst d'' t''; clear Hkey'.
  assert (Hd4 : Driver.KeyPairName d4 = Driver.KeyPairName d
                /\ Driver.MachineName d4 = Driver.MachineName d).
  { apply PreCreateCheck_network_success in Hnet.
    destruct Hnet as [(_ & -> & _)|(_ & n & t5 & p & _ & _ & ->)]; split; reflexivity. }
  destruct Hd4 as [HK4 HM4]. rewrite HK4 in Hgen. rewrite HM4 in Hgen, HM.
  destruct (Hgen Hkey) as [randomID Hname].
  assert (Hprefix : strings_HasPrefix (Driver.KeyPairName d') (Driver.MachineName d') = false).
  { rewrite Hname, HM. unfold strings_HasPrefix. rewrite sanitizeKeyPairName_app.
    now apply dotted_name_is_no_prefix_of_its_sanitized. }
  split; [now exists randomID|].
  split; [rewrite Hname; apply sanitizeKeyPairName_no_dot|].
  split; [exact HM|]. split; [exact Hprefix|].
  intros later t2 d3 c t3' HK HMl Hcl.
  rewrite (Remove_run _ _ _ _ _ _ Hcl). unfold afterInstanceDeletion.
  rewrite HK, HMl, Hprefix. cbn [negb].
  destruct (Driver.InstanceID later =? "")%string.
  - now exists None.
  - destruct (ignore_not_found _) as [e|]; [now exists (Some e)|now exists None].
Qed.

Lemma generated_key_of_dotted_machine_is_kept_witness :
  exists d' t',
    PreCreateCheck (Sim.env Sim.acme) (Sim.configured "node.example.org" "" "" "hourly") []
    = (Val (d', None), t')
    /\ Driver.KeyPairName d' = "node_example_org-0123abcd"
    /\ strings_HasPrefix (Driver.KeyPairName d') (Driver.MachineName d') = false.
Proof.
  eexists. eexists.
  assert (Hok : PreCreateCheck (Sim.env Sim.acme)
                  (Sim.configured "node.example.org" "" "" "hourly") []
                = (Val (Driver.set_SSHKeyPath
                          "/home/u/.docker/machine/machines/node.example.org/node_example_org-0123abcd"
                          (Driver.set_KeyPairName "node_example_org-0123abcd"
                             (Driver.set_ImageID "im-4"
                                (Driver.set_FlavorID "f-9"
                                   (Driver.set_ProjectID "pr-1"
                                      (Driver.set_client
                                         (Some (API.mk (Some (mkClient "" "" "" ""))))
                                         (Sim.configured "node.example.org" "" "" "hourly")))))),
                        None),
                   [EvNewClient "" "" "" ""; EvGet (mkClient "" "" "" "") "/cloud/project";
                    EvGet (mkClient "" "" "" "") "/cloud/project/pr-1";
                    EvGet (mkClient "" "" "" "") "/cloud/project/pr-1/region";
                    EvGet (mkClient "" "" "" "") "/cloud/project/pr-1/flavor?region=GRA1";
                    EvGet (mkClient "" "" "" "")
                      "/cloud/project/pr-1/image?osType=linux&region=GRA1";
                    EvGenerateRandomID])).
  { vm_compute. reflexivity. }
  split; [exact Hok|]. split; [reflexivity|].
  exact (proj1 (proj2 (proj2 (proj2
           (generated_key_of_dotted_machine_is_kept (Sim.env Sim.acme)
              (Sim.configured "node.example.org" "" "" "hourly") [] _ _
              eq_refl eq_refl Hok))))).
Defined.

(** ** Further properties of the driver *)

(** The URL of the docker daemon: empty while no address is recorded,
    otherwise the recorded address and the port 2376, the address in square
    brackets when it holds a colon. *)
Theorem GetURL_embeds_address_and_port d :
  let ip := Driver.IPAddress d in
  (ip = "" -> GetURL d = ("", None))
  /\ (ip <> "" -> contains_byte ":" ip = false ->
      GetURL d = (("tcp://" ++ ip ++ ":2376")%string, None))
  /\ (ip <> "" -> contains_byte ":" ip = true ->
      GetURL d = (("tcp://[" ++ ip ++ "]:2376")%string, None)).
Proof.
  cbv zeta. unfold GetURL, net_JoinHostPort. repeat split.
  - intros ->. reflexivity.
  - intros Hip Hc. apply String.eqb_neq in Hip. now rewrite Hip, Hc.
  - intros Hip Hc. apply String.eqb_neq in Hip. now rewrite Hip, Hc.
Qed.

(** The state of the machine is the status the provider reports, read
    through a fixed table; a status outside the table is no state, and no
    error. *)
Theorem GetState_maps_remote_status env d c t i
  (Hclient : Driver.client d = Some (API.mk (Some c)))
  (Hget : fst (env_Get_Instance env t c (instanceURL d)) = Some i) :
  exists s,
    GetState env d t = (Val (d, (s, None)), t ++ [EvGet c (instanceURL d)])
    /\ (Instance.Status i = "ACTIVE" -> s = state.Running)
    /\ (Instance.Status i = "PAUSED" -> s = state.Paused)
    /\ (Instance.Status i = "SUSPENDED" -> s = state.Saved)
    /\ (Instance.Status i = "SHUTOFF" -> s = state.Stopped)
    /\ (Instance.Status i = "BUILDING" -> s = state.Starting)
    /\ (Instance.Status i = "ERROR" -> s = state.Error)
    /\ (~ In (Instance.Status i)
            ["ACTIVE"; "PAUSED"; "SUSPENDED"; "SHUTOFF"; "BUILDING"; "ERROR"] ->
        s = state.None_).
Proof.
  unfold GetState. rewrite (bind_Val _ _ _ _ _ (getClient_ready _ _ _ _ Hclient)).
  rewrite (bind_Val _ _ _ _ _ (GetInstance_run _ _ _ _ _)). fold (instanceURL d).
  rewrite Hget. cbn [bind deref ret].
  unfold bind, ret.
  destruct (String.eqb_spec (Instance.Status i) "ACTIVE") as [E|N1];
    [eexists; split; [reflexivity|]; rewrite E; cbn [In];
     repeat split; intros; try reflexivity; try discriminate; tauto|].
  destruct (String.eqb_spec (Instance.Status i) "PAUSED") as [E|N2];
    [eexists; split; [reflexivity|]; rewrite E; cbn [In];
     repeat split; intros; try reflexivity; try discriminate; tauto|].
  destruct (String.eqb_spec (Instance.Status i) "SUSPENDED") as [E|N3];
    [eexists; split; [reflexivity|]; rewrite E; cbn [In];
     repeat split; intros; try reflexivity; try discriminate; tauto|].
  destruct (String.eqb_spec (Instance.Status i) "SHUTOFF") as [E|N4];
    [eexists; split; [reflexivity|]; rewrite E; cbn [In];
     repeat split; intros; try reflexivity; try discriminate; tauto|].
  destruct (String.eqb_spec (Instance.Status i) "BUILDING") as [E|N5];
    [eexists; split; [reflexivity|]; rewrite E; cbn [In];
     repeat split; intros; try reflexivity; try discriminate; tauto|].
  destruct (String.eqb_spec (Instance.Status i) "ERROR") as [E|N6];
    [eexists; split; [reflexivity|]; rewrite E; cbn [In];
     repeat split; intros; try reflexivity; try discriminate; tauto|].
  eexists. split; [reflexivity|]. repeat split; intros; try contradiction; reflexivity.
Qed.

Lemma GetState_maps_remote_status_witness :
  GetState (Sim.env (Sim.with_polls [] (Some (Sim.instance "SHUTOFF"), None) Sim.acme))
    (Sim.created "m1" "m1-0123abcd" "k-7") []
  = (Val (Sim.created "m1" "m1-0123abcd" "k-7", (state.Stopped, None)),
     [EvGet Sim.ovh "/cloud/project/pr-1/instance/i-1"]).
Proof.
  destruct (GetState_maps_remote_status
              (Sim.env (Sim.with_polls [] (Some (Sim.instance "SHUTOFF"), None) Sim.acme))
              (Sim.created "m1" "m1-0123abcd" "k-7") Sim.ovh [] (Sim.instance "SHUTOFF")
              eq_refl eq_refl) as (s & Hrun & _ & _ & _ & Hs & _).
  rewrite Hrun, (Hs eq_refl). reflexivity.
Defined.

(** A restart asks the provider for a soft reboot of the instance, and for
    nothing else. *)
Theorem Restart_requests_soft_reboot env d c t
  (Hclient : Driver.client d = Some (API.mk (Some c))) :
  let url := ("/cloud/project/" ++ Driver.ProjectID d ++ "/instance/"
              ++ Driver.InstanceID d ++ "/reboot")%string in
  let soft := RebootReq.mk "soft" in
  Restart env d t = (Val (d, env_Post_Reboot env t c url soft), t ++ [EvPost c url (BodyReboot soft)]).
Proof.
  cbv zeta. unfold Restart. rewrite (bind_Val _ _ _ _ _ (getClient_ready _ _ _ _ Hclient)).
  cbv beta iota zeta delta
    [RebootInstance client_Post bind ret call deref throw API.client Bool.eqb].
  destruct (env_Post_Reboot env t c _ _); reflexivity.
Qed.

Lemma Restart_requests_soft_reboot_witness :
  Restart (Sim.env Sim.acme) (Sim.created "m1" "m1-0123abcd" "k-7") []
  = (Val (Sim.created "m1" "m1-0123abcd" "k-7", None),
     [EvPost Sim.ovh "/cloud/project/pr-1/instance/i-1/reboot"
        (BodyReboot (RebootReq.mk "soft"))]).
Proof.
  exact (Restart_requests_soft_reboot (Sim.env Sim.acme)
           (Sim.created "m1" "m1-0123abcd" "k-7") Sim.ovh [] eq_refl).
Defined.

(** A private network that no entry matches, by VLAN number or by name, is
    refused with an error that lists the names of the private networks of
    the project. *)
Theorem GetPrivateNetworkByName_lists_valid_names env c projectID name t networks
  (Hget : env_Get_Networks env t c ("/cloud/project/" ++ projectID ++ "/network/private")
          = (networks, None))
  (Hnone : forall n, In n networks ->
             itoa (Network.VlanID n) <> name /\ Network.Name n <> name) :
  GetPrivateNetworkByName env (Some (API.mk (Some c))) projectID name t
  = (Val (None, Some (Errorf ("Invalid private network " ++ name ++
            ". List of valid private networks include " ++
            String.concat ", " (map Network.Name networks)))),
     t ++ [EvGet c ("/cloud/project/" ++ projectID ++ "/network/private")]).
Proof.
  unfold GetPrivateNetworkByName.
  rewrite (bind_Val _ _ _ _ _ (GetNetworks_run _ _ _ _ _)). cbv zeta. rewrite Hget.
  assert (Hfind : find (fun network =>
                          ((itoa (Network.VlanID network) =? name)
                           || (Network.Name network =? name))%string) networks = None).
  { clear Hget. induction networks as [|n rest IH]; [reflexivity|]. cbn [find].
    destruct (Hnone n (or_introl eq_refl)) as [Hv Hn].
    apply String.eqb_neq in Hv, Hn. rewrite Hv, Hn. cbn [orb].
    apply IH. intros m Hm. apply Hnone. now right. }
  rewrite Hfind. reflexivity.
Qed.

Lemma GetPrivateNetworkByName_lists_valid_names_witness :
  GetPrivateNetworkByName (Sim.env Sim.acme) Sim.api "pr-1" "frontend" []
  = (Val (None, Some (Errorf
       "Invalid private network frontend. List of valid private networks include backend")),
     [EvGet Sim.ovh "/cloud/project/pr-1/network/private"]).
Proof.
  refine (GetPrivateNetworkByName_lists_valid_names (Sim.env Sim.acme) Sim.ovh "pr-1"
            "frontend" [] [Sim.network "backend" "pn-1" 42 "private"] eq_refl _).
  intros n [<-|[]]. split; discriminate.
Defined.

(** The scenario of the specification, end to end: project [acme] is
    [pr-1], flavor [b2-7] is [f-9], image [Ubuntu 20.04] is [im-4], no
    private network is asked for, the key [my-key] is unknown to the
    provider and is uploaded as [k-7]; the instance is requested, observed
    BUILDING and then ACTIVE, and its public address gives the URL. *)
Theorem provisioning_scenario :
  let env := Sim.env (Sim.with_polls [Sim.building] (Some (Sim.instance "ACTIVE"), None)
                        Sim.acme) in
  exists d1 t1 d2 t2,
    PreCreateCheck env (Sim.configured "m1" "" "my-key" "hourly") [] = (Val (d1, None), t1)
    /\ Create env d1 t1 = (Val (d2, None), t2)
    /\ Driver.ProjectID d2 = "pr-1" /\ Driver.FlavorID d2 = "f-9"
    /\ Driver.ImageID d2 = "im-4" /\ Driver.NetworkIDs d2 = []
    /\ Driver.KeyPairID d2 = "k-7" /\ Driver.InstanceID d2 = "i-1"
    /\ Driver.IPAddress d2 = "203.0.113.5"
    /\ Sim.count Sim.is_poll t2 = 2%nat
    /\ GetURL d2 = ("tcp://203.0.113.5:2376", None).
Proof.
  cbv zeta. eexists. eexists. eexists. eexists.
  split; [vm_compute; reflexivity|]. split; [vm_compute; reflexivity|].
  repeat (split; [reflexivity|]). reflexivity.
Qed.

(** ** The wait, in general *)

Section Waiting.

Variable env : Env.
Variable d : Driver.
Variable c : ovhClient.
Variable status : string.
Hypothesis Hclient : Driver.client d = Some (API.mk (Some c)).

Let polled (t : Trace) : option Instance := fst (env_Get_Instance env t c (instanceURL d)).
Let poll := waitForInstanceStatus_poll env d status.
Let wait_from n := WaitForSpecificOrError_from poll n (Z.quot statusTimeout 4) (4 * Second)%Z.

Lemma wait_from_keeps_waiting n vars t i :
  polled t = Some i -> keeps_waiting status i ->
  wait_from (S n) vars t = wait_from n (Some i, None) (t ++ round c d).
Proof.
  intros Hp [He Hs]. unfold wait_from. rewrite WaitForSpecificOrError_from_S.
  unfold poll. rewrite (waitForInstanceStatus_poll_run _ _ _ _ _ _ Hclient).
  fold (polled t). rewrite Hp.
  apply String.eqb_neq in He, Hs. rewrite He, Hs. unfold round.
  now rewrite <- app_assoc.
Qed.

Lemma wait_from_reaches n : forall m vars t i,
  (forall k, (k < n)%nat ->
     exists j, polled (t ++ rounds c d k) = Some j /\ keeps_waiting status j) ->
  polled (t ++ rounds c d n) = Some i ->
  wait_from (S (n + m)) vars t
  = (if (Instance.Status i =? "ERROR")%string
     then Val ((Some i, None), Some stateError)
     else if (Instance.Status i =? status)%string
          then Val ((Some i, None), None)
          else fst (wait_from m (Some i, None) (t ++ rounds c d (S n))),
     if (Instance.Status i =? "ERROR")%string then t ++ rounds c d n ++ [EvGet c (instanceURL d)]
     else if (Instance.Status i =? status)%string
          then t ++ rounds c d n ++ [EvGet c (instanceURL d)]
          else snd (wait_from m (Some i, None) (t ++ rounds c d (S n)))).
Proof.
  induction n as [|n IH]; intros m vars t i Hall Hlast.
  - cbn [rounds] in *. rewrite app_nil_r in Hlast. cbn [Nat.add app].
    unfold wait_from at 1. rewrite WaitForSpecificOrError_from_S.
    unfold poll. rewrite (waitForInstanceStatus_poll_run _ _ _ _ _ _ Hclient).
    fold (polled t). rewrite Hlast.
    destruct (Instance.Status i =? "ERROR")%string; [reflexivity|].
    destruct (Instance.Status i =? status)%string; [reflexivity|].
    fold poll. rewrite app_nil_r. unfold round. rewrite <- app_assoc. cbn [app].
    fold (wait_from m). now destruct (wait_from m _ _).
  - destruct (Hall 0%nat (Nat.lt_0_succ _)) as [j0 [Hp0 Hk0]].
    cbn [rounds] in Hp0. rewrite app_nil_r in Hp0.
    cbn [Nat.add]. rewrite (wait_from_keeps_waiting _ _ _ _ Hp0 Hk0).
    rewrite (IH m (Some j0, None) (t ++ round c d) i).
    + cbn [rounds]. rewrite <- !app_assoc. reflexivity.
    + intros k Hk. destruct (Hall (S k)) as [j [Hp Hj]]; [lia|].
      exists j. split; [|exact Hj]. cbn [rounds] in Hp. now rewrite <- app_assoc.
    + cbn [rounds] in Hlast. now rewrite <- app_assoc.
Qed.

End Waiting.

(** The wait returns at the first poll that observes the awaited status or
    ERROR, if that poll is one of the 50 of the budget: after [n] polls that
    observed other statuses, each followed by a sleep of 4 seconds, poll
    [n + 1] ends the wait, with its instance and a nil error on the awaited
    status, with its instance and the error of the ERROR state otherwise. *)
Theorem waitForInstanceStatus_stops_at_first_terminal_poll env d c status n i t
  (Hclient : Driver.client d = Some (API.mk (Some c)))
  (Hbudget : (n < 50)%nat)
  (Hbefore : forall k, (k < n)%nat ->
     exists j, fst (env_Get_Instance env (t ++ rounds c d k) c (instanceURL d)) = Some j
               /\ keeps_waiting status j)
  (Hlast : fst (env_Get_Instance env (t ++ rounds c d n) c (instanceURL d)) = Some i) :
  (Instance.Status i = "ERROR" ->
     waitForInstanceStatus env d status t
     = (Val (Some i, Some stateError), t ++ rounds c d n ++ [EvGet c (instanceURL d)]))
  /\ (Instance.Status i <> "ERROR" -> Instance.Status i = status ->
      waitForInstanceStatus env d status t
      = (Val (Some i, None), t ++ rounds c d n ++ [EvGet c (instanceURL d)])).
Proof.
  rewrite waitForInstanceStatus_run.
  replace 50%nat with (S (n + (49 - n))) by lia.
  rewrite (wait_from_reaches env d c status Hclient n (49 - n) (None, None) t i Hbefore Hlast).
  split.
  - intros He. apply String.eqb_eq in He. now rewrite He.
  - intros He Hs. apply String.eqb_neq in He. apply String.eqb_eq in Hs. now rewrite He, Hs.
Qed.

Lemma waitForInstanceStatus_stops_at_first_terminal_poll_witness :
  waitForInstanceStatus
    (Sim.env (Sim.with_polls [(Some (Sim.instance "BUILD"), None); Sim.building]
                (Some (Sim.instance "ACTIVE"), None) Sim.acme))
    (Sim.created "m1" "m1-0123abcd" "k-7") "ACTIVE" []
  = (Val (Some (Sim.instance "ACTIVE"), None),
     rounds Sim.ovh (Sim.created "m1" "m1-0123abcd" "k-7") 2
     ++ [EvGet Sim.ovh "/cloud/project/pr-1/instance/i-1"]).
Proof.
  refine (proj2 (waitForInstanceStatus_stops_at_first_terminal_poll
            (Sim.env (Sim.with_polls [(Some (Sim.instance "BUILD"), None); Sim.building]
                        (Some (Sim.instance "ACTIVE"), None) Sim.acme))
            (Sim.created "m1" "m1-0123abcd" "k-7") Sim.ovh "ACTIVE" 2
            (Sim.instance "ACTIVE") [] eq_refl _ _ eq_refl) _ eq_refl).
  - lia.
  - intros k Hk. destruct k as [|[|k]]; [| |lia].
    + exists (Sim.instance "BUILD"). split; [reflexivity|]. split; discriminate.
    + exists (Sim.instance "BUILDING"). split; [reflexivity|]. split; discriminate.
  - discriminate.
Defined.

Lemma wait_from_history env d c status
  (Hclient : Driver.client d = Some (API.mk (Some c))) m : forall vars t,
  let run := WaitForSpecificOrError_from (waitForInstanceStatus_poll env d status) m
               (Z.quot statusTimeout 4) (4 * Second)%Z vars t in
  exists n,
    ((n < m)%nat /\ snd run = t ++ rounds c d n ++ [EvGet c (instanceURL d)]
     /\ ends_wait status (fst run))
    \/ (n = m /\ snd run = t ++ rounds c d m
        /\ exists vars', fst run = Val (vars', Some timeoutError)).
Proof.
  induction m as [|m IH]; intros vars t; cbv zeta.
  - exists 0%nat. right. cbn. rewrite app_nil_r. repeat split. now exists vars.
  - rewrite WaitForSpecificOrError_from_S.
    rewrite (waitForInstanceStatus_poll_run _ _ _ _ _ _ Hclient).
    destruct (fst (env_Get_Instance env t c (instanceURL d))) as [i|].
    + destruct (String.eqb_spec (Instance.Status i) "ERROR") as [He|He].
      * exists 0%nat. left. cbn [rounds app fst snd]. split; [lia|]. split; [reflexivity|].
        right. left. now exists i.
      * destruct (String.eqb_spec (Instance.Status i) status) as [Hs|Hs].
        -- exists 0%nat. left. cbn [rounds app fst snd]. split; [lia|].
           split; [reflexivity|]. left. now exists i.
        -- destruct (IH (Some i, None) ((t ++ [EvGet c (instanceURL d)])
                                       ++ [EvSleep (4 * Second)])) as [n Hn].
           cbv zeta in Hn. exists (S n).
           destruct Hn as [(Hlt & Htr & Hend)|(-> & Htr & Hend)].
           ++ left. split; [lia|]. split; [|exact Hend].
              rewrite Htr. cbn [rounds]. unfold round. rewrite <- !app_assoc. reflexivity.
           ++ right. split; [reflexivity|]. split; [|exact Hend].
              rewrite Htr. cbn [rounds]. unfold round. rewrite <- !app_assoc. reflexivity.
    + exists 0%nat. left. cbn [rounds app fst snd]. split; [lia|]. split; [reflexivity|].
      right. right. reflexivity.
Qed.

(** The wait polls at most 50 times, 4 seconds apart, and asks nothing else
    of the outside world.  It ends at a poll within the budget in one of
    three ways: with the polled instance and a nil error, and then the
    instance has the awaited status; with the polled instance in the ERROR
    status and the error for it; or by a panic, when the GET left no
    instance.  Otherwise it ends after 50 polls and 50 sleeps with the error
    of the exhausted budget. *)
Theorem waitForInstanceStatus_polls_within_budget env d c status t
  (Hclient : Driver.client d = Some (API.mk (Some c))) :
  let run := waitForInstanceStatus env d status t in
  exists n,
    ((n < 50)%nat /\ snd run = t ++ rounds c d n ++ [EvGet c (instanceURL d)]
     /\ ((exists i, fst run = Val (Some i, None)
                    /\ Instance.Status i = status /\ Instance.Status i <> "ERROR")
         \/ (exists i, fst run = Val (Some i, Some stateError)
                       /\ Instance.Status i = "ERROR")
         \/ fst run = Panic NilPointerDereference))
    \/ (n = 50%nat /\ snd run = t ++ rounds c d 50
        /\ exists instance, fst run = Val (instance, Some timeoutError)).
Proof.
  cbv zeta. rewrite waitForInstanceStatus_run.
  destruct (wait_from_history env d c status Hclient 50 (None, None) t) as [n Hn].
  cbv zeta in Hn. exists n.
  destruct (WaitForSpecificOrError_from _ _ _ _ _ _) as [[[[instance e] err]|p] t'].
  - cbn [fst snd] in *.
    destruct Hn as [(Hlt & Htr & Hend)|(Heq & Htr & vars' & Hend)].
    + left. split; [exact Hlt|]. split; [exact Htr|].
      destruct Hend as [(i & Hr & Hs)|[(i & Hr & Hs)|Hr]]; [| |discriminate].
      * left. exists i. inversion Hr. now split.
      * right. left. exists i. inversion Hr. now split.
    + right. split; [exact Heq|]. split; [exact Htr|]. exists instance. now inversion Hend.
  - cbn [fst snd] in *.
    destruct Hn as [(Hlt & Htr & Hend)|(Heq & Htr & vars' & Hend)]; [|discriminate].
    left. split; [exact Hlt|]. split; [exact Htr|].
    destruct Hend as [(i & Hr & _)|[(i & Hr & _)|Hr]]; try discriminate.
    right. right. now inversion Hr.
Qed.

Lemma waitForInstanceStatus_polls_within_budget_witness :
  exists n,
    snd (waitForInstanceStatus (Sim.env (Sim.with_polls [] Sim.building Sim.acme))
           (Sim.created "m1" "m1-0123abcd" "k-7") "ACTIVE" [])
    = rounds Sim.ovh (Sim.created "m1" "m1-0123abcd" "k-7") n
      ++ (if (n <? 50)%nat then [EvGet Sim.ovh "/cloud/project/pr-1/instance/i-1"] else []).
Proof.
  destruct (waitForInstanceStatus_polls_within_budget
              (Sim.env (Sim.with_polls [] Sim.building Sim.acme))
              (Sim.created "m1" "m1-0123abcd" "k-7") Sim.ovh "ACTIVE" [] eq_refl)
    as [n [(Hlt & Htr & _)|(-> & Htr & _)]].
  - exists n. apply Nat.ltb_lt in Hlt. rewrite Hlt. exact Htr.
  - exists 50%nat. cbn [Nat.ltb Nat.leb]. rewrite app_nil_r. exact Htr.
Defined.

(** ** What a computation asks of the outside world *)

Lemma emits_ret {A} P (a : A) : emits P (ret a).
Proof. intros t r t' H. inversion H. exists []. now rewrite app_nil_r. Qed.

Lemma emits_throw {A} P p : emits P (@throw A p).
Proof. intros t r t' H. inversion H. exists []. now rewrite app_nil_r. Qed.

Lemma emits_deref {A} P (p : option A) : emits P (deref p).
Proof. destruct p; [apply emits_ret|apply emits_throw]. Qed.

Lemma emits_call {A} (P : Event -> bool) e (answer : Trace -> A) :
  P e = true -> emits P (call e answer).
Proof. intros He t r t' H. inversion H. exists [e]. cbn. now rewrite He. Qed.

Lemma emits_bind {A B} P (m : M A) (k : A -> M B) :
  emits P m -> (forall a, emits P (k a)) -> emits P (bind m k).
Proof.
  intros Hm Hk t r t' H. unfold bind in H.
  destruct (m t) as [[a|p] t1] eqn:Hmt.
  - destruct (Hm _ _ _ Hmt) as [evs1 [-> H1]]. destruct (Hk a _ _ _ H) as [evs2 [-> H2]].
    exists (evs1 ++ evs2). rewrite app_assoc, forallb_app, H1, H2. now split.
  - inversion H; subst. eapply Hm; eauto.
Qed.

Lemma emits_weaken {A} (P Q : Event -> bool) (m : M A) :
  (forall e, P e = true -> Q e = true) -> emits P m -> emits Q m.
Proof.
  intros HPQ Hm t r t' H. destruct (Hm _ _ _ H) as [evs [-> Hevs]].
  exists evs. split; [reflexivity|].
  rewrite forallb_forall in *. auto.
Qed.

Ltac emits_step :=
  match goal with
  | |- emits _ (bind _ _) => apply emits_bind; [|intros]
  | |- emits _ (ret _) => apply emits_ret
  | |- emits _ (throw _) => apply emits_throw
  | |- emits _ (deref _) => apply emits_deref
  | |- emits _ (call _ _) => apply emits_call; reflexivity
  | |- emits _ (match ?x with _ => _ end) => destruct x
  | |- emits _ (let _ := _ in _) => cbv zeta
  | |- emits _ _ => solve [auto with emits]
  end.

Ltac emits_all := repeat emits_step.

Create HintDb emits.

Section Queries.

Variable env : Env.

Lemma queries_client_Get {A} (answer : Env -> Trace -> ovhClient -> string -> A) a url :
  emits is_query (client_Get env answer a url).
Proof. unfold client_Get. emits_all. Qed.

Hint Resolve queries_client_Get : emits.

Lemma queries_GetProjects a : emits is_query (GetProjects env a).
Proof. unfold GetProjects. emits_all. Qed.

Lemma queries_GetProject a projectID : emits is_query (GetProject env a projectID).
Proof. unfold GetProject. emits_all. Qed.

Hint Resolve queries_GetProjects queries_GetProject : emits.

Lemma queries_GetProjectByName_scan a name projects :
  emits is_query (GetProjectByName_scan env a name projects).
Proof. induction projects as [|projectID rest IH]; cbn [GetProjectByName_scan]; emits_all. Qed.

Hint Resolve queries_GetProjectByName_scan : emits.

Lemma queries_GetProjectByName a name : emits is_query (GetProjectByName env a name).
Proof. unfold GetProjectByName. emits_all. Qed.

Lemma queries_GetNetworks a projectID privateNet :
  emits is_query (GetNetworks env a projectID privateNet).
Proof. unfold GetNetworks. emits_all. Qed.

Lemma queries_index {A} (s : list A) i : emits is_query (index s i).
Proof. unfold index. emits_all. Qed.

Hint Resolve queries_GetProjectByName queries_GetNetworks queries_index : emits.

Lemma queries_GetPublicNetworkID a projectID : emits is_query (GetPublicNetworkID env a projectID).
Proof. unfold GetPublicNetworkID. emits_all. Qed.

Lemma queries_GetPrivateNetworkByName a projectID name :
  emits is_query (GetPrivateNetworkByName env a projectID name).
Proof. unfold GetPrivateNetworkByName. emits_all. Qed.

Lemma queries_GetRegions a projectID : emits is_query (GetRegions env a projectID).
Proof. unfold GetRegions. emits_all. Qed.

Lemma queries_GetFlavors a projectID region : emits is_query (GetFlavors env a projectID region).
Proof. unfold GetFlavors. emits_all. Qed.

Lemma queries_GetImages a projectID region : emits is_query (GetImages env a projectID region).
Proof. unfold GetImages. emits_all. Qed.

Lemma queries_GetSshkeys a projectID region : emits is_query (GetSshkeys env a projectID region).
Proof. unfold GetSshkeys. emits_all. Qed.

Hint Resolve queries_GetPublicNetworkID queries_GetPrivateNetworkByName queries_GetRegions
  queries_GetFlavors queries_GetImages queries_GetSshkeys : emits.

Lemma queries_GetFlavorByName a projectID region name :
  emits is_query (GetFlavorByName env a projectID region name).
Proof. unfold GetFlavorByName. emits_all. Qed.

Lemma queries_GetImageByName a projectID region name :
  emits is_query (GetImageByName env a projectID region name).
Proof. unfold GetImageByName. emits_all. Qed.

Lemma queries_GetSshkeyByName a projectID region name :
  emits is_query (GetSshkeyByName env a projectID region name).
Proof. unfold GetSshkeyByName. emits_all. Qed.

Lemma queries_GetInstance a projectID instanceID :
  emits is_query (GetInstance env a projectID instanceID).
Proof. unfold GetInstance. emits_all. Qed.

Lemma queries_NewAPI e ak asec ck : emits is_query (NewAPI env e ak asec ck).
Proof. unfold NewAPI. emits_all. Qed.

Hint Resolve queries_GetFlavorByName queries_GetImageByName queries_GetSshkeyByName
  queries_GetInstance queries_NewAPI : emits.

Lemma queries_getClient d : emits is_query (getClient env d).
Proof. unfold getClient. emits_all. Qed.

Lemma queries_PreCreateCheck_projectNames client projects :
  emits is_query (PreCreateCheck_projectNames env client projects).
Proof.
  induction projects as [|projectID rest IH]; cbn [PreCreateCheck_projectNames]; emits_all.
Qed.

Hint Resolve queries_getClient queries_PreCreateCheck_projectNames : emits.

Lemma queries_PreCreateCheck_project client d :
  emits is_query (PreCreateCheck_project env client d).
Proof. unfold PreCreateCheck_project. emits_all. Qed.

Lemma queries_PreCreateCheck_network client d :
  emits is_query (PreCreateCheck_network env client d).
Proof. unfold PreCreateCheck_network. emits_all. Qed.

Lemma queries_PreCreateCheck_key d : emits is_query (PreCreateCheck_key env d).
Proof. unfold PreCreateCheck_key. emits_all. Qed.

Hint Resolve queries_PreCreateCheck_project queries_PreCreateCheck_network
  queries_PreCreateCheck_key : emits.

Lemma queries_PreCreateCheck_resolve client d :
  emits is_query (PreCreateCheck_resolve env client d).
Proof. unfold PreCreateCheck_resolve. emits_all. Qed.

Hint Resolve queries_PreCreateCheck_resolve : emits.

Lemma queries_PreCreateCheck d : emits is_query (PreCreateCheck env d).
Proof. unfold PreCreateCheck. emits_all. Qed.

Lemma queries_GetState d : emits is_query (GetState env d).
Proof. unfold GetState. emits_all. Qed.

End Queries.

(** The validation and the reading of the state only ask: whatever their
    outcome, the calls they add to the history are the creation of the
    client, GETs, the look for the key file and the drawing of a random id.
    They never POST or DELETE at the provider, write no file and never
    sleep. *)
Theorem PreCreateCheck_and_GetState_only_query env d t :
  (exists evs, snd (PreCreateCheck env d t) = t ++ evs /\ forallb is_query evs = true)
  /\ (exists evs, snd (GetState env d t) = t ++ evs /\ forallb is_query evs = true).
Proof.
  split.
  - destruct (PreCreateCheck env d t) as [r t'] eqn:H.
    exact (queries_PreCreateCheck env d _ _ _ H).
  - destruct (GetState env d t) as [r t'] eqn:H.
    exact (queries_GetState env d _ _ _ H).
Qed.

(** ** The client is built once *)

(** [getClient] builds the client at most once.  A driver that holds a
    client returns it and asks nothing.  A driver that holds none asks the
    SDK for one: on success the client is stored and returned, on failure
    the driver is left as it was and the SDK's error comes back wrapped, so
    that the next call tries again.  Once a call has succeeded, every later
    call on the resulting driver returns the same client and asks nothing. *)
Theorem getClient_builds_client_once env d t :
  let new := EvNewClient (Driver.Endpoint d) (Driver.ApplicationKey d)
               (Driver.ApplicationSecret d) (Driver.ConsumerKey d) in
  let answer := env_NewClient env t (Driver.Endpoint d) (Driver.ApplicationKey d)
                  (Driver.ApplicationSecret d) (Driver.ConsumerKey d) in
  (forall a, Driver.client d = Some a -> getClient env d t = (Val (d, (Some a, None)), t))
  /\ (Driver.client d = None ->
      forall e, snd answer = Some e ->
      exists text,
        getClient env d t = (Val (d, (None, Some (ErrorfWrap text e))), t ++ [new]))
  /\ (Driver.client d = None -> snd answer = None ->
      getClient env d t
      = (Val (Driver.set_client (Some (API.mk (fst answer))) d,
              (Some (API.mk (fst answer)), None)),
         t ++ [new]))
  /\ (forall d1 client t1,
        getClient env d t = (Val (d1, (client, None)), t1) ->
        client <> None
        /\ forall t2, getClient env d1 t2 = (Val (d1, (client, None)), t2)).
Proof.
  cbv zeta. repeat split.
  - intros a Ha. now apply getClient_ready.
  - intros Hnil e He. unfold getClient, NewAPI. rewrite Hnil.
    cbv beta iota zeta delta [bind call ret].
    destruct (env_NewClient env t _ _ _ _) as [c0 err]. cbn [snd] in He. subst err.
    eexists. reflexivity.
  - intros Hnil He. unfold getClient, NewAPI. rewrite Hnil.
    cbv beta iota zeta delta [bind call ret].
    destruct (env_NewClient env t _ _ _ _) as [c0 err]. cbn [snd fst] in *. subst err.
    reflexivity.
  - unfold getClient in H. destruct (Driver.client d) as [a|] eqn:Hc.
    + inversion H. discriminate.
    + revert H. unfold NewAPI. cbv beta iota zeta delta [bind call ret].
      destruct (env_NewClient env t _ _ _ _) as [c0 [e|]]; intros H; inversion H.
      discriminate.
  - intros t2. destruct (getClient_frame _ _ _ _ _ _ H) as [_ Hc1].
    revert H. unfold getClient at 1. destruct (Driver.client d) as [a|] eqn:Hc.
    + intros H. inversion H; subst. now apply getClient_ready.
    + unfold NewAPI. cbv beta iota zeta delta [bind call ret].
      destruct (env_NewClient env t _ _ _ _) as [c0 [e|]]; intros H; inversion H; subst.
      now apply getClient_ready.
Qed.

(** ** Lookups return an entry that matches, or say that none does *)

Section Matching.

Variable env : Env.
Variable c : ovhClient.

Let a : option API := Some (API.mk (Some c)).

Lemma GetFlavorByName_outcome projectID region name t :
  let url := ("/cloud/project/" ++ projectID ++ "/flavor?region=" ++ region)%string in
  let r := fst (GetFlavorByName env a projectID region name t) in
  match env_Get_Flavors env t c url with
  | (_, Some e) => r = Val (None, Some e)
  | (flavors, None) =>
      (exists f, r = Val (Some f, None) /\ In f flavors /\ Flavor.OS f = "linux"
                 /\ (Flavor.ID f = name \/ Flavor.Name f = name))
      \/ ((exists text, r = Val (None, Some (Errorf text)))
          /\ forall f, In f flavors -> Flavor.OS f = "linux" ->
                       Flavor.ID f <> name /\ Flavor.Name f <> name)
  end.
Proof.
  cbv zeta. unfold GetFlavorByName, a.
  rewrite (bind_Val _ _ _ _ _ (GetFlavors_run _ _ _ _ _)). cbv zeta.
  destruct (env_Get_Flavors env t c _) as [flavors [e|]]; [reflexivity|].
  match goal with |- context [find ?p flavors] =>
    destruct (find p flavors) as [f|] eqn:Hfind end.
  - left. exists f. split; [reflexivity|]. apply find_some in Hfind.
    destruct Hfind as [Hin Hp]. split; [exact Hin|].
    destruct (String.eqb_spec (Flavor.OS f) "linux") as [Hos|]; [|discriminate].
    split; [exact Hos|]. cbn in Hp. apply orb_true_iff in Hp.
    destruct Hp as [H|H]; [left|right]; now apply String.eqb_eq.
  - right. split; [eexists; reflexivity|]. intros f Hin Hos.
    pose proof (find_none _ _ Hfind f Hin) as Hp. cbn in Hp. rewrite Hos in Hp. cbn in Hp.
    apply orb_false_iff in Hp. destruct Hp as [H1 H2]. split; now apply String.eqb_neq.
Qed.

Lemma GetImageByName_outcome projectID region name t :
  let url := ("/cloud/project/" ++ projectID ++ "/image?osType=linux&region=" ++ region)%string in
  let r := fst (GetImageByName env a projectID region name t) in
  match env_Get_Images env t c url with
  | (_, Some e) => r = Val (None, Some e)
  | (images, None) =>
      (exists f, r = Val (Some f, None) /\ In f images /\ Image.OS f = "linux"
                 /\ (Image.ID f = name \/ Image.Name f = name))
      \/ ((exists text, r = Val (None, Some (Errorf text)))
          /\ forall f, In f images -> Image.OS f = "linux" ->
                       Image.ID f <> name /\ Image.Name f <> name)
  end.
Proof.
  cbv zeta. unfold GetImageByName, a.
  rewrite (bind_Val _ _ _ _ _ (GetImages_run _ _ _ _ _)). cbv zeta.
  destruct (env_Get_Images env t c _) as [images [e|]]; [reflexivity|].
  match goal with |- context [find ?p images] =>
    destruct (find p images) as [f|] eqn:Hfind end.
  - left. exists f. split; [reflexivity|]. apply find_some in Hfind.
    destruct Hfind as [Hin Hp]. split; [exact Hin|].
    destruct (String.eqb_spec (Image.OS f) "linux") as [Hos|]; [|discriminate].
    split; [exact Hos|]. cbn in Hp. apply orb_true_iff in Hp.
    destruct Hp as [H|H]; [left|right]; now apply String.eqb_eq.
  - right. split; [eexists; reflexivity|]. intros f Hin Hos.
    pose proof (find_none _ _ Hfind f Hin) as Hp. cbn in Hp. rewrite Hos in Hp. cbn in Hp.
    apply orb_false_iff in Hp. destruct Hp as [H1 H2]. split; now apply String.eqb_neq.
Qed.

Lemma GetSshkeyByName_outcome projectID region name t :
  let url := ("/cloud/project/" ++ projectID ++ "/sshkey?region=" ++ region)%string in
  let r := fst (GetSshkeyByName env a projectID region name t) in
  match env_Get_Sshkeys env t c url with
  | (_, Some e) => r = Val (None, Some e)
  | (keys, None) =>
      (exists k, r = Val (Some k, None) /\ In k keys
                 /\ (Sshkey.ID k = name \/ Sshkey.Name k = name))
      \/ ((exists text, r = Val (None, Some (Errorf text)))
          /\ forall k, In k keys -> Sshkey.ID k <> name /\ Sshkey.Name k <> name)
  end.
Proof.
  cbv zeta. unfold GetSshkeyByName, a.
  rewrite (bind_Val _ _ _ _ _ (GetSshkeys_run _ _ _ _ _)). cbv zeta.
  destruct (env_Get_Sshkeys env t c _) as [keys [e|]]; [reflexivity|].
  match goal with |- context [find ?p keys] =>
    destruct (find p keys) as [k|] eqn:Hfind end.
  - left. exists k. split; [reflexivity|]. apply find_some in Hfind.
    destruct Hfind as [Hin Hp]. split; [exact Hin|].
    apply orb_true_iff in Hp. destruct Hp as [H|H]; [left|right]; now apply String.eqb_eq.
  - right. split; [eexists; reflexivity|]. intros k Hin.
    pose proof (find_none _ _ Hfind k Hin) as Hp. cbn in Hp.
    apply orb_false_iff in Hp. destruct Hp as [H1 H2]. split; now apply String.eqb_neq.
Qed.

End Matching.

(** The lookups of a flavor, an image and a key by name or id make one GET.
    When it fails they return its error and nothing else.  When it succeeds
    they return an entry of the list it left whose id or name is the value
    asked for, a Linux one for flavors and images, and they fail with an
    error of their own exactly when the list holds no such entry: an entry
    of another OS type is never returned, even if its id is the value. *)
Theorem lookups_return_a_matching_entry_or_not_found env c projectID region name t :
  let a := Some (API.mk (Some c)) in
  match env_Get_Flavors env t c ("/cloud/project/" ++ projectID ++ "/flavor?region=" ++ region) with
  | (_, Some e) => fst (GetFlavorByName env a projectID region name t) = Val (None, Some e)
  | (flavors, None) =>
      (exists f, fst (GetFlavorByName env a projectID region name t) = Val (Some f, None)
                 /\ In f flavors /\ Flavor.OS f = "linux"
                 /\ (Flavor.ID f = name \/ Flavor.Name f = name))
      \/ ((exists text, fst (GetFlavorByName env a projectID region name t)
                        = Val (None, Some (Errorf text)))
          /\ forall f, In f flavors -> Flavor.OS f = "linux" ->
                       Flavor.ID f <> name /\ Flavor.Name f <> name)
  end
  /\ match env_Get_Images env t c
             ("/cloud/project/" ++ projectID ++ "/image?osType=linux&region=" ++ region) with
     | (_, Some e) => fst (GetImageByName env a projectID region name t) = Val (None, Some e)
     | (images, None) =>
         (exists f, fst (GetImageByName env a projectID region name t) = Val (Some f, None)
                    /\ In f images /\ Image.OS f = "linux"
                    /\ (Image.ID f = name \/ Image.Name f = name))
         \/ ((exists text, fst (GetImageByName env a projectID region name t)
                           = Val (None, Some (Errorf text)))
             /\ forall f, In f images -> Image.OS f = "linux" ->
                          Image.ID f <> name /\ Image.Name f <> name)
     end
  /\ match env_Get_Sshkeys env t c ("/cloud/project/" ++ projectID ++ "/sshkey?region=" ++ region) with
     | (_, Some e) => fst (GetSshkeyByName env a projectID region name t) = Val (None, Some e)
     | (keys, None) =>
         (exists k, fst (GetSshkeyByName env a projectID region name t) = Val (Some k, None)
                    /\ In k keys /\ (Sshkey.ID k = name \/ Sshkey.Name k = name))
         \/ ((exists text, fst (GetSshkeyByName env a projectID region name t)
                           = Val (None, Some (Errorf text)))
             /\ forall k, In k keys -> Sshkey.ID k <> name /\ Sshkey.Name k <> name)
     end.
Proof.
  cbv zeta. split; [|split].
  - exact (GetFlavorByName_outcome env c projectID region name t).
  - exact (GetImageByName_outcome env c projectID region name t).
  - exact (GetSshkeyByName_outcome env c projectID region name t).
Qed.

(** ** Projects looked up by name *)

Section ByName.

Variable env : Env.
Variable c : ovhClient.
Variable name : string.

Let a : option API := Some (API.mk (Some c)).

(** The project [id] is fetched, after [before], and is not named [name]. *)
Let passes (t : Trace) (before : list string) (id : string) : Prop :=
  exists p, env_Get_Project env (t ++ fetches c before) c ("/cloud/project/" ++ id)
            = (Some p, None)
            /\ Project.Name p <> name.

Lemma scan_step id rest t p :
  env_Get_Project env t c ("/cloud/project/" ++ id) = (Some p, None) ->
  GetProjectByName_scan env a name (id :: rest) t
  = if (Project.Name p =? name)%string
    then (Val (Some p, None), t ++ [EvGet c ("/cloud/project/" ++ id)])
    else GetProjectByName_scan env a name rest (t ++ [EvGet c ("/cloud/project/" ++ id)]).
Proof.
  intros H. cbn [GetProjectByName_scan]. unfold a.
  rewrite (bind_Val _ _ _ _ _ (GetProject_run _ _ _ _)). rewrite H.
  cbn [deref]. unfold bind at 1, ret at 1.
  now destruct (Project.Name p =? name)%string.
Qed.

Lemma scan_passes before : forall rest t,
  (forall k id, nth_error before k = Some id -> passes t (firstn k before) id) ->
  GetProjectByName_scan env a name (before ++ rest) t
  = GetProjectByName_scan env a name rest (t ++ fetches c before).
Proof.
  induction before as [|id before IH]; intros rest t Hall.
  - cbn. now rewrite app_nil_r.
  - destruct (Hall 0%nat id eq_refl) as [p [Hget Hname]].
    cbn [firstn fetches map] in Hget. rewrite app_nil_r in Hget.
    cbn [app]. rewrite (scan_step _ _ _ _ Hget).
    apply String.eqb_neq in Hname. rewrite Hname.
    rewrite IH.
    + cbn [fetches map]. now rewrite <- app_assoc.
    + intros k id' Hk. destruct (Hall (S k) id' Hk) as [p' [Hget' Hname']].
      exists p'. split; [|exact Hname'].
      cbn [firstn fetches map] in Hget'. unfold fetches. now rewrite <- app_assoc.
Qed.

End ByName.

(** A project asked for by a name that is no project id is searched in the
    order of the list: the projects are fetched one by one, and the first
    whose name is the one asked for is returned, the later ones being left
    alone.  When every project has been fetched and none has that name the
    lookup fails with an error of its own. *)
Theorem GetProjectByName_fetches_until_name_matches env c name t projects
  (Hlist : env_Get_Projects env t c "/cloud/project" = (projects, None))
  (Hnoid : ~ In name projects) :
  let a := Some (API.mk (Some c)) in
  let t0 := t ++ [EvGet c "/cloud/project"] in
  let passes before id :=
    exists p, env_Get_Project env (t0 ++ fetches c before) c ("/cloud/project/" ++ id)
              = (Some p, None)
              /\ Project.Name p <> name in
  (forall before id after p,
      projects = before ++ id :: after ->
      (forall k id', nth_error before k = Some id' -> passes (firstn k before) id') ->
      env_Get_Project env (t0 ++ fetches c before) c ("/cloud/project/" ++ id) = (Some p, None) ->
      Project.Name p = name ->
      GetProjectByName env a name t
      = (Val (Some p, None), t0 ++ fetches c (before ++ [id])))
  /\ ((forall k id', nth_error projects k = Some id' -> passes (firstn k projects) id') ->
      exists text,
        GetProjectByName env a name t
        = (Val (None, Some (Errorf text)), t0 ++ fetches c projects)).
Proof.
  cbv zeta.
  assert (Hfind : find (fun projectID => (projectID =? name)%string) projects = None).
  { destruct (find _ projects) as [x|] eqn:Hf; [|reflexivity].
    apply find_some in Hf. destruct Hf as [Hin Heq].
    apply String.eqb_eq in Heq. subst x. contradiction. }
  assert (Hscan : GetProjectByName env (Some (API.mk (Some c))) name t
                  = GetProjectByName_scan env (Some (API.mk (Some c))) name projects
                      (t ++ [EvGet c "/cloud/project"])).
  { unfold GetProjectByName. rewrite (bind_Val _ _ _ _ _ (GetProjects_run _ _ _)).
    now rewrite Hlist, Hfind. }
  rewrite Hscan. split.
  - intros before id after p -> Hbefore Hget Hname.
    rewrite (scan_passes env c name before (id :: after) _ Hbefore).
    rewrite (scan_step env c name _ _ _ _ Hget).
    apply String.eqb_eq in Hname. rewrite Hname.
    unfold fetches. rewrite map_app. cbn [map]. now rewrite <- app_assoc.
  - intros Hall.
    pose proof (scan_passes env c name projects [] _ Hall) as Hs.
    rewrite app_nil_r in Hs. rewrite Hs. eexists. reflexivity.
Qed.

Lemma GetProjectByName_fetches_until_name_matches_witness :
  GetProjectByName (Sim.env Sim.acme) Sim.api "acme" []
  = (Val (Some (Project.mk "acme" "pr-1" false "2020-01-01" 1 "ok"), None),
     [EvGet Sim.ovh "/cloud/project"; EvGet Sim.ovh "/cloud/project/pr-1"]).
Proof.
  refine (proj1 (GetProjectByName_fetches_until_name_matches (Sim.env Sim.acme) Sim.ovh
                   "acme" [] ["pr-1"] eq_refl _)
            [] "pr-1" [] _ eq_refl _ eq_refl eq_refl).
  - intros [H|[]]. discriminate.
  - intros k id' Hk. destruct k; discriminate.
Defined.

(** ** The stages of a successful validation *)

Lemma PreCreateCheck_resolve_stages env client d t d' t' :
  PreCreateCheck_resolve env client d t = (Val (d', None), t') ->
  exists d2 t2 regions t3 flavor t4 image t5 d4 t6,
    PreCreateCheck_project env client d t = (Val (d2, None), t2)
    /\ GetRegions env client (Driver.ProjectID d2) t2 = (Val (regions, None), t3)
    /\ existsb (fun region => (region =? Driver.RegionName d2)%string) regions = true
    /\ GetFlavorByName env client (Driver.ProjectID d2) (Driver.RegionName d2)
         (Driver.FlavorName d2) t3 = (Val (Some flavor, None), t4)
    /\ GetImageByName env client (Driver.ProjectID d2) (Driver.RegionName d2)
         (Driver.ImageID d2) t4 = (Val (Some image, None), t5)
    /\ PreCreateCheck_network env client
         (Driver.set_ImageID (Image.ID image) (Driver.set_FlavorID (Flavor.ID flavor) d2)) t5
       = (Val (d4, None), t6)
    /\ PreCreateCheck_key env d4 t6 = (Val (d', None), t').
Proof.
  unfold PreCreateCheck_resolve. intros H.
  inv_bind H as [d2 [e|]] t2 H1; [inv_ret H|].
  inv_bind H as [regions [e|]] t3 H2; [inv_ret H|].
  cbv zeta in H.
  destruct (existsb _ regions) eqn:Hregion; cbn [Bool.eqb negb] in H; [|inv_ret H].
  inv_bind H as [flavor [e|]] t4 H3; [inv_ret H|].
  inv_bind H as f t4' H4. destruct flavor as [flavor|]; [|discriminate]. inv_ret H4.
  inv_bind H as [image [e|]] t5 H5; [inv_ret H|].
  inv_bind H as i t5' H6. destruct image as [image|]; [|discriminate]. inv_ret H6.
  inv_bind H as [d4 [e|]] t6 H7; [inv_ret H|].
  exists d2, t2, regions, t3, f, t4', i, t5', d4, t6. repeat split; assumption.
Qed.

Lemma GetFlavorByName_sound env a projectID region name t f t' :
  GetFlavorByName env a projectID region name t = (Val (Some f, None), t') ->
  Flavor.OS f = "linux" /\ (Flavor.ID f = name \/ Flavor.Name f = name).
Proof.
  unfold GetFlavorByName. intros H.
  inv_bind H as [flavors [e|]] t1 H1; [inv_ret H|].
  match type of H with context [find ?p flavors] =>
    destruct (find p flavors) as [x|] eqn:Hfind end; [|inv_ret H].
  inv_ret H. apply find_some in Hfind. destruct Hfind as [_ Hp].
  destruct (String.eqb_spec (Flavor.OS f) "linux") as [Hos|]; [|discriminate].
  split; [exact Hos|]. cbn in Hp. apply orb_true_iff in Hp.
  destruct Hp as [H|H]; [left|right]; now apply String.eqb_eq.
Qed.

Lemma GetImageByName_sound env a projectID region name t f t' :
  GetImageByName env a projectID region name t = (Val (Some f, None), t') ->
  Image.OS f = "linux" /\ (Image.ID f = name \/ Image.Name f = name).
Proof.
  unfold GetImageByName. intros H.
  inv_bind H as [images [e|]] t1 H1; [inv_ret H|].
  match type of H with context [find ?p images] =>
    destruct (find p images) as [x|] eqn:Hfind end; [|inv_ret H].
  inv_ret H. apply find_some in Hfind. destruct Hfind as [_ Hp].
  destruct (String.eqb_spec (Image.OS f) "linux") as [Hos|]; [|discriminate].
  split; [exact Hos|]. cbn in Hp. apply orb_true_iff in Hp.
  destruct Hp as [H|H]; [left|right]; now apply String.eqb_eq.
Qed.

Lemma PreCreateCheck_network_frame env client d t d' t' :
  PreCreateCheck_network env client d t = (Val (d', None), t') ->
  exists ids, d' = Driver.set_NetworkIDs ids d.
Proof.
  intros H. apply PreCreateCheck_network_success in H.
  destruct H as [(_ & -> & _)|(_ & n & t1 & p & _ & _ & ->)].
  - exists (Driver.NetworkIDs d). now destruct d.
  - now eexists.
Qed.

Lemma PreCreateCheck_key_frame env d t d' t' :
  PreCreateCheck_key env d t = (Val (d', None), t') ->
  Driver.ProjectID d' = Driver.ProjectID d /\ Driver.FlavorID d' = Driver.FlavorID d
  /\ Driver.ImageID d' = Driver.ImageID d /\ Driver.RegionName d' = Driver.RegionName d
  /\ Driver.InstanceID d' = Driver.InstanceID d /\ Driver.KeyPairID d' = Driver.KeyPairID d.
Proof.
  unfold PreCreateCheck_key. cbv zeta.
  destruct (negb _).
  - intros H. inv_bind H as [e|] t1 H1; inv_ret H; repeat split.
  - intros H. inv_bind H as rid t1 H1. inv_ret H. repeat split.
Qed.

(** After a successful [PreCreateCheck] the ids the driver holds are ids of
    the provider's catalogs for the project it selected: the region asked
    for is one of the project's regions, the flavor id is the id of a Linux
    flavor of that region whose id or name is the flavor asked for, and the
    image id is the id of a Linux image of that region whose id or name is
    the image asked for. *)
Theorem PreCreateCheck_resolves_ids_from_the_catalogs env d t d' t'
  (Hok : PreCreateCheck env d t = (Val (d', None), t')) :
  exists client regions flavor image t1 t2 t3 t4 t5 t6,
    GetRegions env client (Driver.ProjectID d') t1 = (Val (regions, None), t2)
    /\ In (Driver.RegionName d) regions
    /\ Driver.RegionName d' = Driver.RegionName d
    /\ GetFlavorByName env client (Driver.ProjectID d') (Driver.RegionName d)
         (Driver.FlavorName d) t3 = (Val (Some flavor, None), t4)
    /\ Driver.FlavorID d' = Flavor.ID flavor
    /\ Flavor.OS flavor = "linux"
    /\ (Flavor.ID flavor = Driver.FlavorName d \/ Flavor.Name flavor = Driver.FlavorName d)
    /\ GetImageByName env client (Driver.ProjectID d') (Driver.RegionName d)
         (Driver.ImageID d) t5 = (Val (Some image, None), t6)
    /\ Driver.ImageID d' = Image.ID image
    /\ Image.OS image = "linux"
    /\ (Image.ID image = Driver.ImageID d \/ Image.Name image = Driver.ImageID d).
Proof.
  destruct (PreCreateCheck_success _ _ _ _ _ Hok) as (d1 & client & t1 & Hclient & Hres).
  destruct (getClient_frame _ _ _ _ _ _ Hclient) as [-> _].
  destruct (PreCreateCheck_resolve_stages _ _ _ _ _ _ Hres)
    as (d2 & t2 & regions & t3 & flavor & t4 & image & t5 & d4 & t6
        & Hproj & Hreg & Hin & Hfl & Him & Hnet & Hkey).
  destruct (PreCreateCheck_project_success _ _ _ _ _ _ Hproj) as [projectID ->].
  destruct (PreCreateCheck_network_frame _ _ _ _ _ _ Hnet) as [ids ->].
  destruct (PreCreateCheck_key_frame _ _ _ _ _ Hkey) as (HP & HF & HI & HR & _).
  cbn in HP, HF, HI, HR, Hreg, Hfl, Him, Hin.
  destruct (GetFlavorByName_sound _ _ _ _ _ _ _ _ Hfl) as [Hfos Hfm].
  destruct (GetImageByName_sound _ _ _ _ _ _ _ _ Him) as [Hios Him'].
  exists client, regions, flavor, image, t2, t3, t3, t4, t4, t5.
  rewrite HP, HF, HI, HR.
  apply existsb_exists in Hin. destruct Hin as [region [Hin Heq]].
  apply String.eqb_eq in Heq. subst region.
  repeat split; assumption.
Qed.

Lemma PreCreateCheck_resolves_ids_from_the_catalogs_witness :
  exists d' t' flavor image,
    PreCreateCheck (Sim.env Sim.acme) (Sim.configured "m1" "" "" "hourly") [] = (Val (d', None), t')
    /\ Driver.FlavorID d' = Flavor.ID flavor /\ Flavor.OS flavor = "linux"
    /\ Driver.ImageID d' = Image.ID image /\ Image.OS image = "linux".
Proof.
  assert (Hok : PreCreateCheck (Sim.env Sim.acme) (Sim.configured "m1" "" "" "hourly") []
                = (Val (Driver.set_SSHKeyPath "/home/u/.docker/machine/machines/m1/m1-0123abcd"
                          (Driver.set_KeyPairName "m1-0123abcd"
                             (Driver.set_ImageID "im-4"
                                (Driver.set_FlavorID "f-9"
                                   (Driver.set_ProjectID "pr-1"
                                      (Driver.set_client
                                         (Some (API.mk (Some (mkClient "" "" "" ""))))
                                         (Sim.configured "m1" "" "" "hourly")))))),
                        None),
                   [EvNewClient "" "" "" ""; EvGet (mkClient "" "" "" "") "/cloud/project";
                    EvGet (mkClient "" "" "" "") "/cloud/project/pr-1";
                    EvGet (mkClient "" "" "" "") "/cloud/project/pr-1/region";
                    EvGet (mkClient "" "" "" "") "/cloud/project/pr-1/flavor?region=GRA1";
                    EvGet (mkClient "" "" "" "")
                      "/cloud/project/pr-1/image?osType=linux&region=GRA1";
                    EvGenerateRandomID])).
  { vm_compute. reflexivity. }
  destruct (PreCreateCheck_resolves_ids_from_the_catalogs _ _ _ _ _ Hok)
    as (client & regions & flavor & image & _ & _ & _ & _ & _ & _
        & _ & _ & _ & _ & HF & HFos & _ & _ & HI & HIos & _).
  eexists. eexists. exists flavor, image.
  split; [exact Hok|]. repeat split; assumption.
Defined.

(** ** The project chosen when none is named *)

Lemma PreCreateCheck_success_frame env d t d' t' :
  PreCreateCheck env d t = (Val (d', None), t') ->
  exists d1 client t1 d2 t2,
    getClient env d t = (Val (d1, (client, None)), t1)
    /\ PreCreateCheck_project env client d1 t1 = (Val (d2, None), t2)
    /\ Driver.ProjectID d' = Driver.ProjectID d2.
Proof.
  intros Hok.
  destruct (PreCreateCheck_success _ _ _ _ _ Hok) as (d1 & client & t1 & Hclient & Hres).
  destruct (PreCreateCheck_resolve_stages _ _ _ _ _ _ Hres)
    as (d2 & t2 & regions & t3 & flavor & t4 & image & t5 & d4 & t6
        & Hproj & _ & _ & _ & _ & Hnet & Hkey).
  destruct (PreCreateCheck_network_frame _ _ _ _ _ _ Hnet) as [ids ->].
  destruct (PreCreateCheck_key_frame _ _ _ _ _ Hkey) as (HP & _).
  exists d1, client, t1, d2, t2. repeat split; assumption.
Qed.

(** When no project is named, [PreCreateCheck] takes the project of an
    account that has exactly one, without fetching it; it refuses an account
    that has none, with an error of its own; and it never succeeds on an
    account that has several. *)
Theorem PreCreateCheck_takes_the_sole_project env d t d1 c t1 projects
  (Hclient : getClient env d t = (Val (d1, (Some (API.mk (Some c)), None)), t1))
  (Hperiod : Driver.BillingPeriod d = "hourly" \/ Driver.BillingPeriod d = "monthly")
  (Hnoname : Driver.ProjectName d = "")
  (Hlist : env_Get_Projects env t1 c "/cloud/project" = (projects, None)) :
  (projects = [] ->
     exists text,
       PreCreateCheck env d t = (Val (d1, Some (Errorf text)), t1 ++ [EvGet c "/cloud/project"]))
  /\ (forall projectID, projects = [projectID] ->
        (forall d' t', PreCreateCheck env d t = (Val (d', None), t') ->
                       Driver.ProjectID d' = projectID)
        /\ exists r evs,
             PreCreateCheck env d t
             = (r, t1 ++ [EvGet c "/cloud/project";
                          EvGet c ("/cloud/project/" ++ projectID ++ "/region")] ++ evs))
  /\ ((2 <= List.length projects)%nat ->
      forall d' t', PreCreateCheck env d t <> (Val (d', None), t')).
Proof.
  destruct (getClient_frame _ _ _ _ _ _ Hclient) as [Hd1 _].
  assert (Hname1 : Driver.ProjectName d1 = "") by now rewrite Hd1.
  assert (Hgo : PreCreateCheck env d t
                = PreCreateCheck_resolve env (Some (API.mk (Some c))) d1 t1).
  { unfold PreCreateCheck. rewrite (bind_Val _ _ _ _ _ Hclient).
    replace (Driver.BillingPeriod d1) with (Driver.BillingPeriod d) by now rewrite Hd1.
    destruct Hperiod as [-> | ->]; reflexivity. }
  assert (Hproject :
    PreCreateCheck_project env (Some (API.mk (Some c))) d1 t1
    = match projects with
      | [] => (Val (d1, Some (Errorf
                 ("No Cloud project could be found. To create a new one, please visit "
                  ++ CustomerInterface))), t1 ++ [EvGet c "/cloud/project"])
      | [projectID] => (Val (Driver.set_ProjectID projectID d1, None),
                        t1 ++ [EvGet c "/cloud/project"])
      | _ :: _ :: _ =>
          match PreCreateCheck_projectNames env (Some (API.mk (Some c))) projects
                  (t1 ++ [EvGet c "/cloud/project"]) with
          | (Val names, t2) =>
              (Val (d1, Some (Errorf ("Multiple Cloud project found (" ++
                      strings_Join names ", " ++
                      "), to select one, use '--ovh-project' option"))), t2)
          | (Panic p, t2) => (Panic p, t2)
          end
      end).
  { unfold PreCreateCheck_project. rewrite Hname1. cbn [String.eqb negb].
    rewrite (bind_Val _ _ _ _ _ (GetProjects_run _ _ _)). rewrite Hlist.
    destruct projects as [|p1 [|p2 rest]]; reflexivity. }
  split; [|split].
  - intros ->. rewrite Hgo. unfold PreCreateCheck_resolve.
    rewrite (bind_Val _ _ _ _ _ Hproject). eexists. reflexivity.
  - intros projectID ->. split.
    + intros d' t' Hok.
      destruct (PreCreateCheck_success_frame _ _ _ _ _ Hok)
        as (d1' & client' & t1' & d2 & t2 & Hc' & Hp' & ->).
      rewrite Hclient in Hc'. inversion Hc'; subst d1' client' t1'.
      rewrite Hproject in Hp'. now inversion Hp'.
    + rewrite Hgo. unfold PreCreateCheck_resolve.
      rewrite (bind_Val _ _ _ _ _ Hproject).
      match goal with |- exists r evs, ?m ?t0 = _ =>
        assert (Hb : begins_with (EvGet c ("/cloud/project/" ++ projectID ++ "/region")) m)
      end.
      { apply begins_with_bind.
        - unfold GetRegions. apply begins_with_bind; [apply begins_with_call|].
          intros [regions err]. apply extends_ret.
        - intros [regions err]. extends_all;
            auto using extends_GetFlavorByName, extends_GetImageByName,
              extends_PreCreateCheck_network, extends_PreCreateCheck_key with extends. }
      match goal with |- exists r evs, ?m ?t0 = _ => destruct (m t0) as [r t2] eqn:Hrun end.
      destruct (Hb _ _ _ Hrun) as [evs ->].
      exists r, evs. now rewrite <- app_assoc.
  - intros Hlen d' t' Hok.
    destruct (PreCreateCheck_success_frame _ _ _ _ _ Hok)
      as (d1' & client' & t1' & d2 & t2 & Hc' & Hp' & _).
    rewrite Hclient in Hc'. inversion Hc'; subst d1' client' t1'.
    rewrite Hproject in Hp'.
    destruct projects as [|p1 [|p2 rest]]; cbn in Hlen; try lia.
    destruct (PreCreateCheck_projectNames _ _ _ _) as [[names|p] t3]; discriminate.
Qed.

Lemma PreCreateCheck_takes_the_sole_project_witness :
  exists d' t',
    PreCreateCheck (Sim.env Sim.acme)
      (fst (SetConfigFromFlags (Sim.named "m1") default_flags)) [] = (Val (d', None), t')
    /\ Driver.ProjectID d' = "pr-1".
Proof.
  eexists. eexists. split; [vm_compute; reflexivity|].
  refine (proj1 (proj1 (proj2 (PreCreateCheck_takes_the_sole_project
            (Sim.env Sim.acme) (fst (SetConfigFromFlags (Sim.named "m1") default_flags)) []
            (Driver.set_client (Some (API.mk (Some (mkClient "" "" "" ""))))
               (fst (SetConfigFromFlags (Sim.named "m1") default_flags)))
            (mkClient "" "" "" "") [EvNewClient "" "" "" ""] ["pr-1"]
            eq_refl (or_introl eq_refl) eq_refl eq_refl)) "pr-1" eq_refl) _ _ _).
  vm_compute. reflexivity.
Defined.

(** ** The key of the machine *)

Lemma ensureSSHKey_run env d t d1 c t1 :
  getClient env d t = (Val (d1, (Some (API.mk (Some c)), None)), t1) ->
  ensureSSHKey env d t
  = (let client := Some (API.mk (Some c)) in
     match GetSshkeyByName env client (Driver.ProjectID d) (Driver.RegionName d)
             (Driver.KeyPairName d) t1 with
     | (Val (Some k, _), t2) => (Val (Driver.set_KeyPairID (Sshkey.ID k) d1, None), t2)
     | (Val (None, _), t2) =>
         let dir := filepath_Dir env (Driver.SSHKeyPath d) in
         match env_MkdirAll env t2 dir 448 with
         | Some e => (Val (d1, Some e), t2 ++ [EvMkdirAll dir 448])
         | None =>
         let t3 := t2 ++ [EvMkdirAll dir 448] in
         match env_GenerateSSHKey env t3 (Driver.SSHKeyPath d) with
         | Some e => (Val (d1, Some e), t3 ++ [EvGenerateSSHKey (Driver.SSHKeyPath d)])
         | None =>
         let t4 := t3 ++ [EvGenerateSSHKey (Driver.SSHKeyPath d)] in
         let pub := (Driver.SSHKeyPath d ++ ".pub")%string in
         match env_ReadFile env t4 pub with
         | (_, Some e) => (Val (d1, Some e), t4 ++ [EvReadFile pub])
         | (publicKey, None) =>
         match CreateSshkey env client (Driver.ProjectID d) (Driver.KeyPairName d) publicKey
                 (t4 ++ [EvReadFile pub]) with
         | (Val (_, Some e), t5) => (Val (d1, Some e), t5)
         | (Val (Some k, None), t5) => (Val (Driver.set_KeyPairID (Sshkey.ID k) d1, None), t5)
         | (Val (None, None), t5) => (Panic NilPointerDereference, t5)
         | (Panic p, t5) => (Panic p, t5)
         end end end end
     | (Panic p, t2) => (Panic p, t2)
     end).
Proof.
  intros Hclient.
  destruct (getClient_frame _ _ _ _ _ _ Hclient) as [Hd1 _].
  unfold ensureSSHKey. rewrite (bind_Val _ _ _ _ _ Hclient). cbv zeta.
  replace (Driver.ProjectID d1) with (Driver.ProjectID d) by now rewrite Hd1.
  replace (Driver.RegionName d1) with (Driver.RegionName d) by now rewrite Hd1.
  replace (Driver.KeyPairName d1) with (Driver.KeyPairName d) by now rewrite Hd1.
  unfold publicSSHKeyPath, GetSSHKeyPath.
  replace (Driver.SSHKeyPath d1) with (Driver.SSHKeyPath d) by now rewrite Hd1.
  unfold bind at 1.
  destruct (GetSshkeyByName env _ _ _ _ t1) as [[[[k|] err]|p] t2]; try reflexivity.
  unfold bind at 1, call at 1.
  destruct (env_MkdirAll env t2 _ _) as [e|]; [reflexivity|].
  unfold bind at 1, call at 1.
  destruct (env_GenerateSSHKey env _ _) as [e|]; [reflexivity|].
  unfold bind at 1, call at 1.
  destruct (env_ReadFile env _ _) as [publicKey [e|]]; [reflexivity|].
  unfold bind at 1.
  destruct (CreateSshkey env _ _ _ _ _) as [[[[k|] [e|]]|p] t5]; reflexivity.
Qed.

(** [ensureSSHKey] uploads a key only when the provider has none by the
    key-pair name.  When the list of keys holds a key whose id or name is
    the key-pair name, the driver takes the id of such a key and nothing is
    generated or uploaded: the listing is the only call.  When it holds
    none, or when the listing fails (its error is dropped), a key is
    generated on disk and uploaded under the key-pair name, and the driver
    takes the id the provider gives it. *)
Theorem ensureSSHKey_uploads_only_a_missing_key env d t d1 c t1 keys err
  (Hclient : getClient env d t = (Val (d1, (Some (API.mk (Some c)), None)), t1))
  (Hlist : env_Get_Sshkeys env t1 c
             ("/cloud/project/" ++ Driver.ProjectID d ++ "/sshkey?region="
              ++ Driver.RegionName d) = (keys, err)) :
  let name := Driver.KeyPairName d in
  let t2 := t1 ++ [EvGet c ("/cloud/project/" ++ Driver.ProjectID d ++ "/sshkey?region="
                            ++ Driver.RegionName d)] in
  let dir := filepath_Dir env (Driver.SSHKeyPath d) in
  let pub := (Driver.SSHKeyPath d ++ ".pub")%string in
  let generated := [EvMkdirAll dir 448; EvGenerateSSHKey (Driver.SSHKeyPath d);
                    EvReadFile pub] in
  (err = None -> (exists k, In k keys /\ (Sshkey.ID k = name \/ Sshkey.Name k = name)) ->
     exists k, In k keys /\ (Sshkey.ID k = name \/ Sshkey.Name k = name)
               /\ ensureSSHKey env d t = (Val (Driver.set_KeyPairID (Sshkey.ID k) d1, None), t2))
  /\ (err <> None
      \/ (forall k, In k keys -> Sshkey.ID k <> name /\ Sshkey.Name k <> name) ->
      (exists r evs, ensureSSHKey env d t = (r, t2 ++ [EvMkdirAll dir 448] ++ evs))
      /\ forall publicKey uploaded,
           env_MkdirAll env t2 dir 448 = None ->
           env_GenerateSSHKey env (t2 ++ [EvMkdirAll dir 448]) (Driver.SSHKeyPath d) = None ->
           env_ReadFile env (t2 ++ [EvMkdirAll dir 448; EvGenerateSSHKey (Driver.SSHKeyPath d)])
             pub = (publicKey, None) ->
           env_Post_Sshkey env (t2 ++ generated) c
             ("/cloud/project/" ++ Driver.ProjectID d ++ "/sshkey")
             (SshkeyReq.mk name publicKey "") = (Some uploaded, None) ->
           ensureSSHKey env d t
           = (Val (Driver.set_KeyPairID (Sshkey.ID uploaded) d1, None),
              t2 ++ generated
              ++ [EvPost c ("/cloud/project/" ++ Driver.ProjectID d ++ "/sshkey")
                    (BodySshkey (SshkeyReq.mk name publicKey ""))])).
Proof.
  cbv zeta. rewrite (ensureSSHKey_run _ _ _ _ _ _ Hclient). cbv zeta.
  pose proof (GetSshkeyByName_outcome env c (Driver.ProjectID d) (Driver.RegionName d)
                (Driver.KeyPairName d) t1) as Hout.
  cbv zeta in Hout. rewrite Hlist in Hout.
  assert (Htrace : snd (GetSshkeyByName env (Some (API.mk (Some c))) (Driver.ProjectID d)
                          (Driver.RegionName d) (Driver.KeyPairName d) t1)
                   = t1 ++ [EvGet c ("/cloud/project/" ++ Driver.ProjectID d
                                     ++ "/sshkey?region=" ++ Driver.RegionName d)]).
  { unfold GetSshkeyByName. rewrite (bind_Val _ _ _ _ _ (GetSshkeys_run _ _ _ _ _)).
    cbv zeta. rewrite Hlist. destruct err as [e|]; [reflexivity|].
    match goal with |- context [find ?p keys] => now destruct (find p keys) end. }
  destruct (GetSshkeyByName env _ _ _ _ t1) as [r t2] eqn:Hrun. cbn [fst snd] in *.
  subst t2. split.
  - intros -> [k0 [Hin0 Hm0]].
    destruct Hout as [(k & -> & Hin & Hm)|[[text ->] Hnone]].
    + exists k. repeat split; assumption.
    + destruct (Hnone k0 Hin0) as [H1 H2]. destruct Hm0; contradiction.
  - intros Hmiss.
    assert (Hnil : exists e, r = Val (None, e)).
    { destruct err as [e|].
      - subst r. now eexists.
      - destruct Hmiss as [H|Hnone]; [contradiction|].
        destruct Hout as [(k & -> & Hin & Hm)|[[text ->] _]]; [|now eexists].
        destruct (Hnone k Hin) as [H1 H2]. destruct Hm; contradiction. }
    destruct Hnil as [e ->]. split.
    + destruct (env_MkdirAll env _ _ _) as [e1|]; [now eexists; exists []|].
      destruct (env_GenerateSSHKey env _ _) as [e2|];
        [eexists; eexists; rewrite <- !app_assoc; reflexivity|].
      destruct (env_ReadFile env _ _) as [publicKey [e3|]];
        [eexists; eexists; rewrite <- !app_assoc; reflexivity|].
      unfold CreateSshkey, client_Post.
      cbv beta iota zeta delta [bind call ret deref throw API.client].
      destruct (env_Post_Sshkey env _ _ _ _) as [[k|] [e4|]];
        eexists; eexists; rewrite <- !app_assoc; reflexivity.
    + intros publicKey uploaded Hmk Hgen Hread Hpost.
      rewrite Hmk, Hgen.
      rewrite <- ?app_assoc in Hread, Hpost. cbn [app] in Hread, Hpost.
      rewrite <- !app_assoc. cbn [app]. rewrite Hread.
      unfold CreateSshkey, client_Post.
      cbv beta iota zeta delta [bind call ret deref throw API.client].
      rewrite <- !app_assoc. cbn [app]. rewrite Hpost. reflexivity.
Qed.

Lemma ensureSSHKey_uploads_only_a_missing_key_witness :
  ensureSSHKey (Sim.env (Sim.with_sshkeys [Sim.key "m1-0123abcd" "k-3"] Sim.acme))
    (Sim.created "m1" "m1-0123abcd" "") []
  = (Val (Driver.set_KeyPairID "k-3" (Sim.created "m1" "m1-0123abcd" ""), None),
     [EvGet Sim.ovh "/cloud/project/pr-1/sshkey?region="]).
Proof.
  destruct (proj1 (ensureSSHKey_uploads_only_a_missing_key
                     (Sim.env (Sim.with_sshkeys [Sim.key "m1-0123abcd" "k-3"] Sim.acme))
                     (Sim.created "m1" "m1-0123abcd" "") []
                     (Sim.created "m1" "m1-0123abcd" "") Sim.ovh []
                     [Sim.key "m1-0123abcd" "k-3"] None eq_refl eq_refl) eq_refl
             (ex_intro _ (Sim.key "m1-0123abcd" "k-3")
                (conj (or_introl eq_refl) (or_intror eq_refl))))
    as (k & [<-|[]] & _ & Hrun).
  exact Hrun.
Defined.

(** ** Creation *)

Lemma ensureSSHKey_frame env d t d' t' :
  ensureSSHKey env d t = (Val (d', None), t') ->
  exists client keyID, d' = Driver.set_KeyPairID keyID (Driver.set_client client d)
                       /\ Driver.client d' = client.
Proof.
  unfold ensureSSHKey. intros H.
  inv_bind H as [d1 [client [e|]]] t1 H1; [inv_ret H|].
  destruct (getClient_frame _ _ _ _ _ _ H1) as [-> _].
  inv_bind H as [[k|] e] t2 H2.
  - inv_ret H. now eexists; eexists.
  - cbv zeta in H.
    inv_bind H as [e1|] t3 H3; [inv_ret H|].
    inv_bind H as [e2|] t4 H4; [inv_ret H|].
    inv_bind H as [publicKey [e3|]] t5 H5; [inv_ret H|].
    inv_bind H as [sshKey [e4|]] t6 H6; [inv_ret H|].
    inv_bind H as k t7 H7. inv_ret H. now eexists; eexists.
Qed.

Lemma find_split {A} (p : A -> bool) (l : list A) x :
  find p l = Some x ->
  exists before after, l = before ++ x :: after /\ p x = true
                       /\ forall y, In y before -> p y = false.
Proof.
  induction l as [|y l IH]; [discriminate|]. cbn.
  destruct (p y) eqn:Hy.
  - intros H. inversion H; subst. exists [], l. repeat split; [exact Hy|]. intros z [].
  - intros H. destruct (IH H) as (before & after & -> & Hx & Hb).
    exists (y :: before), after. repeat split; [exact Hx|].
    intros z [<-|Hz]; [exact Hy|now apply Hb].
Qed.

Lemma wait_from_success env d c status
  (Hclient : Driver.client d = Some (API.mk (Some c))) m : forall vars t vars' t',
  WaitForSpecificOrError_from (waitForInstanceStatus_poll env d status) m
    (Z.quot statusTimeout 4) (4 * Second)%Z vars t = (Val (vars', None), t') ->
  exists i evs,
    vars' = (Some i, None) /\ Instance.Status i = status
    /\ t' = (t ++ evs) ++ [EvGet c (instanceURL d)]
    /\ fst (env_Get_Instance env (t ++ evs) c (instanceURL d)) = Some i.
Proof.
  induction m as [|m IH]; intros vars t vars' t'; [discriminate|].
  rewrite WaitForSpecificOrError_from_S.
  rewrite (waitForInstanceStatus_poll_run _ _ _ _ _ _ Hclient).
  destruct (fst (env_Get_Instance env t c (instanceURL d))) as [i|] eqn:Hget; [|discriminate].
  destruct (Instance.Status i =? "ERROR")%string; [discriminate|].
  destruct (String.eqb_spec (Instance.Status i) status) as [Hs|Hs].
  - intros H. inversion H; subst vars' t'. exists i, [].
    rewrite app_nil_r. now repeat split.
  - intros H. apply IH in H. destruct H as (j & evs & -> & Hj & -> & Hgetj).
    exists j, ([EvGet c (instanceURL d)] ++ [EvSleep (4 * Second)] ++ evs).
    rewrite !app_assoc. now repeat split.
Qed.

Lemma waitForInstanceStatus_success env d status t instance t' :
  waitForInstanceStatus env d status t = (Val (instance, None), t') ->
  exists c i evs,
    Driver.client d = Some (API.mk (Some c))
    /\ instance = Some i /\ Instance.Status i = status
    /\ t' = (t ++ evs) ++ [EvGet c (instanceURL d)]
    /\ fst (env_Get_Instance env (t ++ evs) c (instanceURL d)) = Some i.
Proof.
  rewrite waitForInstanceStatus_run.
  destruct (Driver.client d) as [[[c|]]|] eqn:Hc.
  - destruct (WaitForSpecificOrError_from _ _ _ _ _ _) as [[[[inst e] [err|]]|p] t1] eqn:Hw;
      try discriminate.
    intros H. inversion H; subst inst t1.
    apply (wait_from_success env d c status Hc) in Hw.
    destruct Hw as (i & evs & Hv & Hs & Ht & Hg). inversion Hv; subst.
    now exists c, i, evs.
  - cbn [WaitForSpecificOrError_from].
    unfold bind at 1, waitForInstanceStatus_poll. rewrite Hc. cbn. discriminate.
  - cbn [WaitForSpecificOrError_from].
    unfold bind at 1, waitForInstanceStatus_poll. rewrite Hc. cbn. discriminate.
Qed.

Lemma extends_waitForInstanceStatus env d status : extends (waitForInstanceStatus env d status).
Proof.
  unfold waitForInstanceStatus, WaitForSpecificOrError.
  apply extends_bind; [|intros [[instance e] err]; apply extends_ret].
  generalize (Z.to_nat (Z.quot statusTimeout 4)) as n.
  generalize (@None Instance, @None error) as vars.
  intros vars n. revert vars.
  induction n as [|n IH]; intros vars; cbn [WaitForSpecificOrError_from].
  - apply extends_ret.
  - apply extends_bind.
    + unfold waitForInstanceStatus_poll, GetInstance. extends_all;
        auto using extends_client_Get with extends.
    + intros [vars' [stop [e|]]]; [apply extends_ret|].
      destruct stop; [apply extends_ret|].
      apply extends_bind; [apply extends_call|]. intros _. apply IH.
Qed.

Lemma CreateInstance_run env c projectID name pubkeyID flavorID imageID region networkIDs
    monthlyBilling t :
  let url := ("/cloud/project/" ++ projectID ++ "/instance")%string in
  let req := InstanceReq.mk name flavorID imageID region (map NetworkParam.mk networkIDs)
               pubkeyID monthlyBilling in
  CreateInstance env (Some (API.mk (Some c))) projectID name pubkeyID flavorID imageID region
    networkIDs monthlyBilling t
  = (Val (env_Post_Instance env t c url req), t ++ [EvPost c url (BodyInstance req)]).
Proof.
  cbv zeta. unfold CreateInstance, client_Post.
  cbv beta iota zeta delta [bind call ret deref throw API.client].
  now destruct (env_Post_Instance env t c _ _).
Qed.

(** Once the key is there, [Create] asks the provider for an instance named
    after the machine, with the flavor, image, region and key the driver
    holds, one network attachment for each network id it holds, in their
    order, and monthly billing exactly when the billing period is
    [monthly]. *)
Theorem Create_requests_the_instance_the_driver_describes env d t d1 c t1 d2 t2
  (Hclient : getClient env d t = (Val (d1, (Some (API.mk (Some c)), None)), t1))
  (Hkey : ensureSSHKey env d1 t1 = (Val (d2, None), t2)) :
  let req := InstanceReq.mk (Driver.MachineName d) (Driver.FlavorID d) (Driver.ImageID d)
               (Driver.RegionName d) (map NetworkParam.mk (Driver.NetworkIDs d))
               (Driver.KeyPairID d2) (Driver.BillingPeriod d =? "monthly")%string in
  map NetworkParam.ID (InstanceReq.NetworkParams_ req) = Driver.NetworkIDs d
  /\ exists r evs,
       Create env d t
       = (r, t2 ++ [EvPost c ("/cloud/project/" ++ Driver.ProjectID d ++ "/instance")
                      (BodyInstance req)] ++ evs).
Proof.
  cbv zeta. split.
  { cbn [InstanceReq.NetworkParams_]. rewrite map_map. cbn. apply map_id. }
  destruct (getClient_frame _ _ _ _ _ _ Hclient) as [Hd1 Hc1].
  destruct (ensureSSHKey_frame _ _ _ _ _ Hkey) as (client & keyID & Hd2 & _).
  assert (Hf : Driver.MachineName d2 = Driver.MachineName d
               /\ Driver.FlavorID d2 = Driver.FlavorID d
               /\ Driver.ImageID d2 = Driver.ImageID d
               /\ Driver.RegionName d2 = Driver.RegionName d
               /\ Driver.NetworkIDs d2 = Driver.NetworkIDs d
               /\ Driver.BillingPeriod d2 = Driver.BillingPeriod d
               /\ Driver.ProjectID d2 = Driver.ProjectID d).
  { rewrite Hd2, Hd1. repeat split. }
  destruct Hf as (HM & HF & HI & HR & HN & HB & HP).
  unfold Create. rewrite (bind_Val _ _ _ _ _ Hclient). rewrite (bind_Val _ _ _ _ _ Hkey).
  cbv zeta. rewrite HM, HF, HI, HR, HN, HB, HP.
  unfold bind at 1. rewrite CreateInstance_run. cbv zeta.
  match goal with |- exists r evs, ?k ?t0 = _ => destruct (k t0) as [r t3] eqn:Hrun end.
  match type of Hrun with ?k ?t0 = _ => assert (Hext : extends k) end.
  { extends_all; auto using extends_waitForInstanceStatus with extends. }
  destruct (Hext _ _ _ Hrun) as [evs ->].
  exists r, evs. now rewrite <- app_assoc.
Qed.

Lemma Create_requests_the_instance_the_driver_describes_witness :
  exists r evs,
    Create (Sim.env Sim.acme) (Sim.created "m1" "m1-0123abcd" "") []
    = (r, [EvGet Sim.ovh "/cloud/project/pr-1/sshkey?region=";
           EvMkdirAll "" 448; EvGenerateSSHKey ""; EvReadFile ".pub";
           EvPost Sim.ovh "/cloud/project/pr-1/sshkey"
             (BodySshkey (SshkeyReq.mk "m1-0123abcd" "ssh-rsa AAAA" ""))]
          ++ [EvPost Sim.ovh "/cloud/project/pr-1/instance"
                (BodyInstance (InstanceReq.mk "m1" "" "" "" [] "k-7" false))] ++ evs).
Proof.
  exact (proj2 (Create_requests_the_instance_the_driver_describes
                  (Sim.env Sim.acme) (Sim.created "m1" "m1-0123abcd" "") []
                  (Sim.created "m1" "m1-0123abcd" "") Sim.ovh []
                  (Driver.set_KeyPairID "k-7" (Sim.created "m1" "m1-0123abcd" ""))
                  [EvGet Sim.ovh "/cloud/project/pr-1/sshkey?region=";
                   EvMkdirAll "" 448; EvGenerateSSHKey ""; EvReadFile ".pub";
                   EvPost Sim.ovh "/cloud/project/pr-1/sshkey"
                     (BodySshkey (SshkeyReq.mk "m1-0123abcd" "ssh-rsa AAAA" ""))]
                  eq_refl eq_refl)).
Defined.

Lemma deref_inv {A} (p : option A) t a t' :
  deref p t = (Val a, t') -> p = Some a /\ t' = t.
Proof. destruct p as [x|]; cbn; intros H; inversion H; now subst. Qed.

(** A [Create] that returns no error has seen the instance ACTIVE in the
    answer to its last request, the GET of the instance it recorded.  The
    address it recorded is the one of the first entry of type [public] among
    the addresses of that answer, it is not empty, and [GetURL] and
    [GetSSHHostname] are built from it. *)
Theorem Create_records_first_public_address_of_active_instance env d t d' t'
  (Hok : Create env d t = (Val (d', None), t')) :
  exists c history i before ip after,
    Driver.client d' = Some (API.mk (Some c))
    /\ t' = history ++ [EvGet c (instanceURL d')]
    /\ fst (env_Get_Instance env history c (instanceURL d')) = Some i
    /\ Instance.Status i = "ACTIVE"
    /\ Instance.IPAddresses i = before ++ ip :: after
    /\ IP.Type_ ip = "public"
    /\ (forall other, In other before -> IP.Type_ other <> "public")
    /\ IP.IP ip <> ""
    /\ Driver.IPAddress d' = IP.IP ip
    /\ GetSSHHostname d' = (IP.IP ip, None)
    /\ GetURL d' = (("tcp://" ++ net_JoinHostPort (IP.IP ip) "2376")%string, None).
Proof.
  unfold Create in Hok.
  inv_bind Hok as [d1 [client [e|]]] t1 H1; [inv_ret Hok|].
  inv_bind Hok as [d2 [e|]] t2 H2; [inv_ret Hok|]. cbv zeta in Hok.
  inv_bind Hok as [posted [e|]] t3 H3; [inv_ret Hok|].
  inv_bind Hok as p t3' Hp. apply deref_inv in Hp. destruct Hp as [-> ->].
  inv_bind Hok as [instance [e|]] t4 H4; [inv_ret Hok|].
  inv_bind Hok as i t4' Hi. apply deref_inv in Hi. destruct Hi as [-> ->].
  apply waitForInstanceStatus_success in H4.
  destruct H4 as (c & j & evs & Hc & Hj & Hs & Ht & Hg). inversion Hj; subst j; clear Hj.
  cbv zeta in Hok.
  match type of Hok with context [find ?f (Instance.IPAddresses i)] =>
    destruct (find f (Instance.IPAddresses i)) as [ip|] eqn:Hfind end.
  - destruct (String.eqb_spec (Driver.IPAddress
                (Driver.set_IPAddress (IP.IP ip)
                   (Driver.set_IPAddress "" (Driver.set_InstanceID (Instance.ID p) d2)))) "")
      as [He|He]; [inv_ret Hok|].
    inv_ret Hok.
    destruct (find_split _ _ _ Hfind) as (before & after & Hl & Hpub & Hbefore).
    exists c, (t3 ++ evs), i, before, ip, after.
    split; [exact Hc|]. split; [reflexivity|]. split; [exact Hg|]. split; [exact Hs|].
    split; [exact Hl|]. split; [now apply String.eqb_eq|].
    split.
    { intros other Hin Hty. apply Hbefore in Hin. cbv beta in Hin.
      rewrite Hty in Hin. discriminate. }
    cbn in He. split; [exact He|]. split; [reflexivity|]. split; [reflexivity|].
    unfold GetURL.
    change (Driver.IPAddress (Driver.set_IPAddress (IP.IP ip) ?x)) with (IP.IP ip).
    destruct (String.eqb_spec (IP.IP ip) ""); [contradiction|reflexivity].
  - cbn in Hok. inv_ret Hok.
Qed.

Lemma Create_records_first_public_address_of_active_instance_witness :
  exists d' t',
    Create (Sim.env (Sim.with_polls [Sim.building] (Some (Sim.instance "ACTIVE"), None) Sim.acme))
      (Sim.created "m1" "m1-0123abcd" "") []
    = (Val (d', None), t')
    /\ exists ip, GetURL d' = (("tcp://" ++ net_JoinHostPort (IP.IP ip) "2376")%string, None).
Proof.
  eexists; eexists.
  split; [vm_compute; reflexivity|].
  match goal with
  | |- exists ip, GetURL ?d' = _ =>
      destruct (Create_records_first_public_address_of_active_instance
                  (Sim.env (Sim.with_polls [Sim.building] (Some (Sim.instance "ACTIVE"), None)
                              Sim.acme))
                  (Sim.created "m1" "m1-0123abcd" "") [] d' _ ltac:(vm_compute; reflexivity))
        as (c & history & i & before & ip & after & H)
  end.
  exists ip. apply H.
Defined.

Lemma ensureSSHKey_fields env d a t d' err t' :
  Driver.client d = Some a ->
  ensureSSHKey env d t = (Val (d', err), t') ->
  Driver.client d' = Some a /\ Driver.ProjectID d' = Driver.ProjectID d.
Proof.
  intros Hc H. unfold ensureSSHKey in H.
  rewrite (bind_Val _ _ _ _ _ (getClient_ready env d a t Hc)) in H.
  inv_bind H as [[k|] e] t2 H2.
  - inv_ret H. now split.
  - cbv zeta in H.
    inv_bind H as [e1|] t3 H3; [inv_ret H; now split|].
    inv_bind H as [e2|] t4 H4; [inv_ret H; now split|].
    inv_bind H as [publicKey [e3|]] t5 H5; [inv_ret H; now split|].
    inv_bind H as [sshKey [e4|]] t6 H6; [inv_ret H; now split|].
    inv_bind H as k t7 H7. inv_ret H. now split.
Qed.

(** Once the provider has answered the request for an instance, every
    return of [Create], with or without an error, leaves the id of that
    instance in the driver: a wait that ran out of attempts, an instance in
    the ERROR status and an instance without a public address all do.  A
    later [Remove] of that driver then starts with the deletion of that
    instance. *)
Theorem Create_leaves_the_requested_instance_to_Remove
    env d t d1 c t1 d2 t2 posted t3 d' err t'
  (Hclient : getClient env d t = (Val (d1, (Some (API.mk (Some c)), None)), t1))
  (Hkey : ensureSSHKey env d1 t1 = (Val (d2, None), t2))
  (Hpost : CreateInstance env (Some (API.mk (Some c))) (Driver.ProjectID d2)
             (Driver.MachineName d2) (Driver.KeyPairID d2) (Driver.FlavorID d2)
             (Driver.ImageID d2) (Driver.RegionName d2) (Driver.NetworkIDs d2)
             (Driver.BillingPeriod d2 =? "monthly")%string t2
           = (Val (Some posted, None), t3))
  (Hid : Instance.ID posted <> "")
  (Hrun : Create env d t = (Val (d', err), t')) :
  Driver.InstanceID d' = Instance.ID posted
  /\ Driver.ProjectID d' = Driver.ProjectID d
  /\ forall later, exists r evs,
       Remove env d' later = (r, later ++ [EvDelete c (instanceURL d')] ++ evs).
Proof.
  destruct (getClient_frame _ _ _ _ _ _ Hclient) as [Hd1 Hc1].
  destruct (ensureSSHKey_fields _ _ _ _ _ _ _ Hc1 Hkey) as [Hc2 Hp2].
  assert (Hp1 : Driver.ProjectID d1 = Driver.ProjectID d) by now rewrite Hd1.
  unfold Create in Hrun.
  rewrite (bind_Val _ _ _ _ _ Hclient), (bind_Val _ _ _ _ _ Hkey) in Hrun. cbv zeta in Hrun.
  rewrite (bind_Val _ _ _ _ _ Hpost) in Hrun.
  unfold bind at 1, deref at 1 in Hrun.
  assert (Hd' : Driver.InstanceID d' = Instance.ID posted
                /\ Driver.ProjectID d' = Driver.ProjectID d2
                /\ Driver.client d' = Some (API.mk (Some c))).
  { inv_bind Hrun as [instance [e|]] t4 H4; [inv_ret Hrun; now repeat split|].
    inv_bind Hrun as i t4' Hi. cbv zeta in Hrun.
    match type of Hrun with context [find ?f (Instance.IPAddresses i)] =>
      destruct (find f (Instance.IPAddresses i)) as [ip|] end;
      match type of Hrun with context [String.eqb ?x ?y] => destruct (String.eqb x y) end;
      inv_ret Hrun; now repeat split. }
  destruct Hd' as (HI & HP & HC).
  split; [exact HI|]. split; [now rewrite HP, Hp2|].
  intros later.
  rewrite (Remove_run env d' later d' c later (getClient_ready _ _ _ _ HC)).
  unfold afterInstanceDeletion.
  destruct (String.eqb_spec (Driver.InstanceID d') "") as [He|_];
    [now rewrite HI in He|].
  destruct (ignore_not_found _) as [e|].
  - eexists; exists []. reflexivity.
  - destruct (negb _); [eexists; exists []; reflexivity|].
    destruct (Driver.KeyPairID d' =? "")%string; [eexists; exists []; reflexivity|].
    eexists; eexists. rewrite <- app_assoc. reflexivity.
Qed.

Lemma Create_leaves_the_requested_instance_to_Remove_witness :
  exists d' e t',
    Create (Sim.env (Sim.with_polls [] (Some (Sim.instance "ERROR"), None) Sim.acme))
      (Driver.set_InstanceID "" (Sim.created "m1" "m1-0123abcd" "")) []
    = (Val (d', Some e), t')
    /\ Driver.InstanceID d' = "i-1"
    /\ exists r evs,
         Remove (Sim.env (Sim.with_polls [] (Some (Sim.instance "ERROR"), None) Sim.acme)) d' []
         = (r, [] ++ [EvDelete Sim.ovh (instanceURL d')] ++ evs).
Proof.
  eexists; eexists; eexists.
  split; [vm_compute; reflexivity|].
  match goal with
  | |- Driver.InstanceID ?d' = _ /\ _ =>
      pose proof (Create_leaves_the_requested_instance_to_Remove
                    (Sim.env (Sim.with_polls [] (Some (Sim.instance "ERROR"), None) Sim.acme))
                    (Driver.set_InstanceID "" (Sim.created "m1" "m1-0123abcd" "")) []
                    (Driver.set_InstanceID "" (Sim.created "m1" "m1-0123abcd" ""))
                    Sim.ovh []
                    (Driver.set_KeyPairID "k-7"
                       (Driver.set_InstanceID "" (Sim.created "m1" "m1-0123abcd" "")))
                    _ (Sim.instance "BUILDING") _ d' _ _
                    eq_refl ltac:(vm_compute; reflexivity) ltac:(vm_compute; reflexivity)
                    ltac:(discriminate) ltac:(vm_compute; reflexivity)) as H
  end.
  split; [reflexivity|]. exact (proj2 (proj2 H) []).
Defined.

(** ** Removing what is already gone, and what was generated *)

Lemma getClient_error env d t d1 client e t1 :
  getClient env d t = (Val (d1, (client, Some e)), t1) -> exists text cause, e = ErrorfWrap text cause.
Proof.
  unfold getClient. destruct (Driver.client d) as [a|]; [discriminate|].
  unfold bind. destruct (NewAPI env _ _ _ _ t) as [[[client' [e'|]]|p] t2]; try discriminate.
  intros H. inversion H. now eexists; eexists.
Qed.

Lemma Remove_error_is_no_404 env d t d' e t' m :
  Remove env d t = (Val (d', Some e), t') -> e <> APIError 404 m.
Proof.
  intros H. unfold Remove in H.
  inv_bind H as [d1 [client [e1|]]] t1 H1.
  - inv_ret H. destruct (getClient_error _ _ _ _ _ _ _ H1) as (text & cause & ->). discriminate.
  - inv_bind H as [e2|] t2 H2.
    + inv_ret H. destruct (negb _) in H2; [|discriminate].
      intros ->. now apply (DeleteInstance_never_404 _ _ _ _ _ _ _ m H2).
    + destruct (negb (strings_HasPrefix _ _)) in H; [discriminate|].
      destruct (negb (Driver.KeyPairID d1 =? "")%string) in H; [|discriminate].
      inv_bind H as [e3|] t3 H3; [|discriminate]. inv_ret H.
      intros ->. now apply (DeleteSshkey_never_404 _ _ _ _ _ _ _ m H3).
Qed.

(** [Remove] never reports that the provider did not find what it was
    asked to delete.  When the provider answers every deletion with its
    not-found error, as it does for a machine whose instance and key are
    already gone, [Remove] returns no error. *)
Theorem Remove_treats_not_found_as_removed env d t :
  (forall d' m t', Remove env d t <> (Val (d', Some (APIError 404 m)), t'))
  /\ (forall c,
        Driver.client d = Some (API.mk (Some c)) ->
        (forall history url, exists m, env_Delete env history c url = Some (APIError 404 m)) ->
        exists t', Remove env d t = (Val (d, None), t')).
Proof.
  split.
  - intros d' m t' H. now apply (Remove_error_is_no_404 _ _ _ _ _ _ m H).
  - intros c Hc Hgone.
    rewrite (Remove_run env d t d c t (getClient_ready _ _ _ _ Hc)).
    unfold afterInstanceDeletion.
    assert (Hnone : forall history url, ignore_not_found (env_Delete env history c url) = None).
    { intros history url. destruct (Hgone history url) as [m ->]. reflexivity. }
    destruct (Driver.InstanceID d =? "")%string.
    + destruct (negb _); [now eexists|].
      destruct (Driver.KeyPairID d =? "")%string; [now eexists|].
      rewrite Hnone. now eexists.
    + rewrite Hnone. destruct (negb _); [now eexists|].
      destruct (Driver.KeyPairID d =? "")%string; [now eexists|].
      rewrite Hnone. now eexists.
Qed.

Lemma Remove_treats_not_found_as_removed_witness :
  Remove (Sim.env (Sim.with_deletions [] (Some (APIError 404 "Not Found")) Sim.acme))
    (Sim.created "m1" "m1-0123abcd" "k-7") []
  = (Val (Sim.created "m1" "m1-0123abcd" "k-7", None),
     [EvDelete Sim.ovh "/cloud/project/pr-1/instance/i-1";
      EvDelete Sim.ovh "/cloud/project/pr-1/sshkey/k-7"]).
Proof.
  assert (Hgone : forall history url, exists m,
             env_Delete (Sim.env (Sim.with_deletions [] (Some (APIError 404 "Not Found"))
                                    Sim.acme)) history Sim.ovh url
             = Some (APIError 404 m)).
  { intros history url. exists "Not Found". cbn.
    destruct (Sim.count Sim.is_Delete history); reflexivity. }
  destruct (proj2 (Remove_treats_not_found_as_removed
                     (Sim.env (Sim.with_deletions [] (Some (APIError 404 "Not Found")) Sim.acme))
                     (Sim.created "m1" "m1-0123abcd" "k-7") [])
              Sim.ovh eq_refl Hgone) as [t' H].
  rewrite H. vm_compute in H. inversion H. reflexivity.
Defined.

Lemma prefix_app s rest : String.prefix s (s ++ rest) = true.
Proof.
  induction s as [|ch s IH]; [now destruct rest|].
  cbn [append String.prefix]. now destruct (ascii_dec ch ch).
Qed.

Lemma sanitizeKeyPairName_plain s :
  contains_byte dot s = false -> sanitizeKeyPairName s = s.
Proof.
  induction s as [|ch s IH]; [reflexivity|].
  rewrite sanitizeKeyPairName_cons. cbn [contains_byte].
  destruct (Ascii.eqb ch dot); [discriminate|]. intros H. now rewrite IH.
Qed.

Lemma PreCreateCheck_reaches_key env d t d' t' :
  PreCreateCheck env d t = (Val (d', None), t') ->
  exists d4 t4,
    PreCreateCheck_key env d4 t4 = (Val (d', None), t')
    /\ Driver.Base d4 = Driver.Base d /\ Driver.KeyPairName d4 = Driver.KeyPairName d.
Proof.
  intros Hok.
  destruct (PreCreateCheck_success _ _ _ _ _ Hok) as (d1 & client & t1 & Hclient & Hres).
  destruct (getClient_frame _ _ _ _ _ _ Hclient) as [-> _].
  destruct (PreCreateCheck_resolve_stages _ _ _ _ _ _ Hres)
    as (d2 & t2 & regions & t3 & flavor & t4 & image & t5 & d4 & t6
        & Hproj & _ & _ & _ & _ & Hnet & Hkey).
  destruct (PreCreateCheck_project_success _ _ _ _ _ _ Hproj) as [projectID ->].
  destruct (PreCreateCheck_network_frame _ _ _ _ _ _ Hnet) as [ids ->].
  eexists; eexists. split; [exact Hkey|]. split; reflexivity.
Qed.

Lemma PreCreateCheck_names_the_key env d t d' t' :
  Driver.KeyPairName d = "" ->
  PreCreateCheck env d t = (Val (d', None), t') ->
  Driver.MachineName d' = Driver.MachineName d
  /\ exists randomID,
       Driver.KeyPairName d' = sanitizeKeyPairName (Driver.MachineName d ++ "-" ++ randomID).
Proof.
  intros Hkey Hok.
  destruct (PreCreateCheck_reaches_key _ _ _ _ _ Hok) as (d4 & t4 & Hrun & HB & HK).
  destruct (PreCreateCheck_key_run env d4 t4) as (d'' & t'' & Hrun' & _ & _ & HM & Hgen & _).
  rewrite Hrun in Hrun'. inversion Hrun'; subst d'' t''; clear Hrun'.
  unfold Driver.MachineName in *. rewrite HB in HM, Hgen. rewrite HK in Hgen.
  split; [exact HM|]. exact (Hgen Hkey).
Qed.

(** When the machine name holds no dot and no key name was given, the key
    name a successful [PreCreateCheck] generates starts with the machine
    name.  [Remove], on any later state of the driver with these two names
    and a recorded key id, takes the key for its own.  An error the provider
    answers to the deletion of the instance, other than its not-found, is
    returned and no deletion of the key is requested.  Otherwise the last
    request of [Remove] is the deletion of that key: a nil answer and the
    not-found are success, and any other error the provider answers to it
    is returned. *)
Theorem generated_key_of_plain_machine_is_deleted env d t d' t'
  (Hplain : contains_byte dot (Driver.MachineName d) = false)
  (Hkey : Driver.KeyPairName d = "")
  (Hok : PreCreateCheck env d t = (Val (d', None), t')) :
  strings_HasPrefix (Driver.KeyPairName d') (Driver.MachineName d') = true
  /\ (forall later t2 d3 c t3,
        Driver.KeyPairName later = Driver.KeyPairName d' ->
        Driver.MachineName later = Driver.MachineName d' ->
        Driver.KeyPairID later <> "" ->
        getClient env later t2 = (Val (d3, (Some (API.mk (Some c)), None)), t3) ->
        let deletion := env_Delete env t3 c (instanceURL later) in
        let t4 := if (Driver.InstanceID later =? "")%string then t3
                  else t3 ++ [EvDelete c (instanceURL later)] in
        let key_deletion := env_Delete env t4 c (sshkeyURL later) in
        (Driver.InstanceID later <> "" -> forall e,
           deletion = Some e -> (forall m, e <> APIError 404 m) ->
           Remove env later t2 = (Val (d3, Some e), t4))
        /\ (Driver.InstanceID later = "" \/ deletion = None
            \/ (exists m, deletion = Some (APIError 404 m)) ->
            (key_deletion = None \/ (exists m, key_deletion = Some (APIError 404 m)) ->
             Remove env later t2 = (Val (d3, None), t4 ++ [EvDelete c (sshkeyURL later)]))
            /\ (forall e, key_deletion = Some e -> (forall m, e <> APIError 404 m) ->
                Remove env later t2
                = (Val (d3, Some e), t4 ++ [EvDelete c (sshkeyURL later)])))).
Proof.
  destruct (PreCreateCheck_names_the_key _ _ _ _ _ Hkey Hok) as (HM & randomID & Hname).
  assert (Hprefix : strings_HasPrefix (Driver.KeyPairName d') (Driver.MachineName d') = true).
  { rewrite Hname, HM. unfold strings_HasPrefix. rewrite sanitizeKeyPairName_app.
    rewrite (sanitizeKeyPairName_plain _ Hplain). apply prefix_app. }
  split; [exact Hprefix|].
  intros later t2 d3 c t3 HK HMl Hid Hcl. cbv zeta.
  rewrite (Remove_run _ _ _ _ _ _ Hcl). unfold afterInstanceDeletion.
  rewrite HK, HMl, Hprefix. cbn [negb].
  apply String.eqb_neq in Hid. rewrite Hid.
  split.
  - intros Hinst e He Hne. apply String.eqb_neq in Hinst. rewrite Hinst, He.
    now rewrite (ignore_not_found_kept e Hne).
  - intros Hdel.
    assert (Hgo : (if (Driver.InstanceID later =? "")%string then (None, t3)
                   else (ignore_not_found (env_Delete env t3 c (instanceURL later)),
                         t3 ++ [EvDelete c (instanceURL later)]))
                  = (None, if (Driver.InstanceID later =? "")%string then t3
                           else t3 ++ [EvDelete c (instanceURL later)])).
    { destruct (String.eqb_spec (Driver.InstanceID later) "") as [Hi|Hi]; [reflexivity|].
      destruct Hdel as [H|H]; [contradiction|].
      now rewrite (ignore_not_found_cleared _ H). }
    rewrite Hgo. split.
    + intros Hkd. now rewrite (ignore_not_found_cleared _ Hkd).
    + intros e He Hne. rewrite He. now rewrite (ignore_not_found_kept e Hne).
Qed.

(** For the machine [m1] the generated key is [m1-0123abcd]; with the key
    id [k-7] recorded, a provider that answers the deletion of the key with
    an error 500 gets both deletions requested, and [Remove] returns that
    error. *)
Lemma generated_key_of_plain_machine_is_deleted_witness :
  let failing := Sim.with_deletions [None] (Some (APIError 500 "Internal Server Error"))
                   Sim.acme in
  exists d' t',
    PreCreateCheck (Sim.env failing) (Sim.configured "m1" "" "" "hourly") [] = (Val (d', None), t')
    /\ Driver.KeyPairName d' = "m1-0123abcd"
    /\ strings_HasPrefix (Driver.KeyPairName d') (Driver.MachineName d') = true
    /\ Remove (Sim.env failing) (Sim.created "m1" "m1-0123abcd" "k-7") []
       = (Val (Sim.created "m1" "m1-0123abcd" "k-7",
               Some (APIError 500 "Internal Server Error")),
          [EvDelete Sim.ovh "/cloud/project/pr-1/instance/i-1";
           EvDelete Sim.ovh "/cloud/project/pr-1/sshkey/k-7"]).
Proof.
  cbv zeta. eexists. eexists.
  split; [vm_compute; reflexivity|]. split; [reflexivity|].
  match goal with
  | |- strings_HasPrefix (Driver.KeyPairName ?d') _ = true /\ _ =>
      pose proof (generated_key_of_plain_machine_is_deleted
                    (Sim.env (Sim.with_deletions [None]
                                (Some (APIError 500 "Internal Server Error")) Sim.acme))
                    (Sim.configured "m1" "" "" "hourly") [] d' _
                    eq_refl eq_refl ltac:(vm_compute; reflexivity)) as H
  end.
  split; [exact (proj1 H)|].
  exact (proj2 (proj2 (proj2 H (Sim.created "m1" "m1-0123abcd" "k-7") []
                         (Sim.created "m1" "m1-0123abcd" "k-7") Sim.ovh []
                         eq_refl eq_refl ltac:(discriminate) eq_refl)
                  (or_intror (or_introl eq_refl)))
           (APIError 500 "Internal Server Error") eq_refl ltac:(discriminate)).
Defined.

(** ** The state of a machine whose instance cannot be read *)

(** Once the client is there, [GetState] never returns an error: the error
    of a failed GET is dropped by [GetInstance], and a GET that leaves no
    instance makes [GetState] read the status of a nil instance. *)
Theorem GetState_never_reports_a_failed_request env d c t :
  Driver.client d = Some (API.mk (Some c)) ->
  (forall d' s e t', GetState env d t <> (Val (d', (s, Some e)), t'))
  /\ (fst (env_Get_Instance env t c (instanceURL d)) = None ->
      GetState env d t = (Panic NilPointerDereference, t ++ [EvGet c (instanceURL d)])).
Proof.
  intros Hclient.
  unfold GetState. rewrite (bind_Val _ _ _ _ _ (getClient_ready _ _ _ _ Hclient)).
  rewrite (bind_Val _ _ _ _ _ (GetInstance_run _ _ _ _ _)). fold (instanceURL d).
  destruct (fst (env_Get_Instance env t c (instanceURL d))) as [i|].
  - split; [|discriminate]. intros d' s e t'. cbn [bind deref ret]. unfold bind, deref, ret.
    repeat match goal with |- context [String.eqb ?x ?y] => destruct (String.eqb x y) end;
      discriminate.
  - split; [discriminate|reflexivity].
Qed.

Lemma GetState_never_reports_a_failed_request_witness :
  GetState (Sim.env (Sim.with_polls [] (None, Some (APIError 500 "Internal Server Error"))
                       Sim.acme))
    (Sim.created "m1" "m1-0123abcd" "k-7") []
  = (Panic NilPointerDereference, [EvGet Sim.ovh "/cloud/project/pr-1/instance/i-1"]).
Proof.
  exact (proj2 (GetState_never_reports_a_failed_request
                  (Sim.env (Sim.with_polls [] (None, Some (APIError 500 "Internal Server Error"))
                              Sim.acme))
                  (Sim.created "m1" "m1-0123abcd" "k-7") Sim.ovh [] eq_refl) eq_refl).
Defined.

(** ** A key named on the command line *)



(** ** The private network *)

(** The private network asked for is the first private network of the
    project whose VLAN number, written in decimal, or whose name is the
    value given. *)
Theorem GetPrivateNetworkByName_returns_first_vlan_or_name_match
    env c projectID name t before network after
  (Hget : env_Get_Networks env t c ("/cloud/project/" ++ projectID ++ "/network/private")
          = (before ++ network :: after, None))
  (Hmatch : itoa (Network.VlanID network) = name \/ Network.Name network = name)
  (Hbefore : forall n, In n before ->
               itoa (Network.VlanID n) <> name /\ Network.Name n <> name) :
  GetPrivateNetworkByName env (Some (API.mk (Some c))) projectID name t
  = (Val (Some network, None),
     t ++ [EvGet c ("/cloud/project/" ++ projectID ++ "/network/private")]).
Proof.
  unfold GetPrivateNetworkByName.
  rewrite (bind_Val _ _ _ _ _ (GetNetworks_run _ _ _ _ _)). cbv zeta. rewrite Hget.
  assert (Hfind : find (fun n => ((itoa (Network.VlanID n) =? name)
                                  || (Network.Name n =? name))%string)
                    (before ++ network :: after) = Some network).
  { clear Hget. induction before as [|n rest IH]; cbn [app find].
    - destruct Hmatch as [H|H]; apply String.eqb_eq in H; rewrite H;
        [reflexivity|now rewrite orb_true_r].
    - destruct (Hbefore n (or_introl eq_refl)) as [Hv Hn].
      apply String.eqb_neq in Hv, Hn. rewrite Hv, Hn. cbn [orb].
      apply IH. intros m Hm. apply Hbefore. now right. }
  rewrite Hfind. reflexivity.
Qed.

Lemma GetPrivateNetworkByName_returns_first_vlan_or_name_match_witness :
  GetPrivateNetworkByName (Sim.env Sim.acme) Sim.api "pr-1" "42" []
  = (Val (Some (Sim.network "backend" "pn-1" 42 "private"), None),
     [EvGet Sim.ovh "/cloud/project/pr-1/network/private"]).
Proof.
  refine (GetPrivateNetworkByName_returns_first_vlan_or_name_match (Sim.env Sim.acme) Sim.ovh
            "pr-1" "42" [] [] (Sim.network "backend" "pn-1" 42 "private") [] eq_refl
            (or_introl eq_refl) _).
  intros n [].
Defined.

(** ** The command line *)

(** [SetConfigFromFlags] reads the twelve flags that [GetCreateFlags]
    declares and the three swarm flags of the host, and nothing else: two
    command lines that agree on them configure a driver alike.  It keeps the
    ids, the attached networks and the client the driver holds, and it
    validates nothing.  With every declared flag at its default the driver
    asks for hourly billing in the default region, with the default flavor
    and image, and with no project, private network or key named. *)
Theorem SetConfigFromFlags_reads_the_declared_flags d flags flags'
  (Hdeclared : forall f, In f (GetCreateFlags d) ->
                 DriverOptions.String flags (StringFlag.Name f)
                 = DriverOptions.String flags' (StringFlag.Name f))
  (Hswarm : DriverOptions.Bool flags "swarm-master" = DriverOptions.Bool flags' "swarm-master"
            /\ DriverOptions.String flags "swarm-host" = DriverOptions.String flags' "swarm-host"
            /\ DriverOptions.String flags "swarm-discovery"
               = DriverOptions.String flags' "swarm-discovery") :
  SetConfigFromFlags d flags = SetConfigFromFlags d flags'
  /\ snd (SetConfigFromFlags d flags) = None
  /\ (let d' := fst (SetConfigFromFlags d flags) in
      Driver.ProjectID d' = Driver.ProjectID d /\ Driver.FlavorID d' = Driver.FlavorID d
      /\ Driver.InstanceID d' = Driver.InstanceID d /\ Driver.KeyPairID d' = Driver.KeyPairID d
      /\ Driver.NetworkIDs d' = Driver.NetworkIDs d /\ Driver.client d' = Driver.client d
      /\ Driver.MachineName d' = Driver.MachineName d)
  /\ ((forall f, In f (GetCreateFlags d) ->
         DriverOptions.String flags (StringFlag.Name f) = StringFlag.Value f) ->
      let d' := fst (SetConfigFromFlags d flags) in
      Driver.BillingPeriod d' = "hourly" /\ Driver.RegionName d' = DefaultRegionName
      /\ Driver.FlavorName d' = DefaultFlavorName /\ Driver.ImageID d' = DefaultImageName
      /\ Driver.ProjectName d' = "" /\ Driver.PrivateNetworkName d' = ""
      /\ Driver.KeyPairName d' = "").
Proof.
  split; [|split; [reflexivity|split; [cbv zeta; repeat split|]]].
  - destruct Hswarm as (Hm & Hh & Hd).
    unfold SetConfigFromFlags. cbv zeta.
    rewrite Hm, Hh, Hd.
    assert (Hs : forall name, In name (map StringFlag.Name (GetCreateFlags d)) ->
                   DriverOptions.String flags name = DriverOptions.String flags' name).
    { intros name Hin. apply in_map_iff in Hin. destruct Hin as (f & <- & Hf).
      now apply Hdeclared. }
    repeat match goal with
           | |- context [DriverOptions.String flags ?name] =>
               rewrite (Hs name) by (cbn; repeat (try (left; reflexivity); right))
           end.
    reflexivity.
  - intros Hdefault. cbv zeta. unfold SetConfigFromFlags. cbv zeta.
    cbn [fst Driver.BillingPeriod Driver.RegionName Driver.FlavorName Driver.ImageID
         Driver.ProjectName Driver.PrivateNetworkName Driver.KeyPairName].
    repeat split;
      match goal with
      | |- DriverOptions.String flags ?name = ?v =>
          refine (Hdefault (StringFlag.mk _ name _ v) _); cbn;
          repeat (try (left; reflexivity); right)
      end.
Qed.

Lemma SetConfigFromFlags_reads_the_declared_flags_witness :
  SetConfigFromFlags (Sim.named "m1") default_flags
  = SetConfigFromFlags (Sim.named "m1")
      (DriverOptions.mk
         (fun name => if (name =? "ovh-token")%string then "secret"
                      else DriverOptions.String default_flags name)
         (fun name => (name =? "debug")%string))
  /\ Driver.BillingPeriod (fst (SetConfigFromFlags (Sim.named "m1") default_flags)) = "hourly".
Proof.
  assert (Hsame : forall f, In f (GetCreateFlags (Sim.named "m1")) ->
            DriverOptions.String default_flags (StringFlag.Name f)
            = DriverOptions.String
                (DriverOptions.mk
                   (fun name => if (name =? "ovh-token")%string then "secret"
                                else DriverOptions.String default_flags name)
                   (fun name => (name =? "debug")%string)) (StringFlag.Name f)).
  { intros f Hf. cbn in Hf.
    repeat (destruct Hf as [<-|Hf]; [reflexivity|]). contradiction. }
  assert (Hdefault : forall f, In f (GetCreateFlags (Sim.named "m1")) ->
            DriverOptions.String default_flags (StringFlag.Name f) = StringFlag.Value f).
  { intros f Hf. cbn in Hf.
    repeat (destruct Hf as [<-|Hf]; [reflexivity|]). contradiction. }
  pose proof (SetConfigFromFlags_reads_the_declared_flags (Sim.named "m1") default_flags _
                Hsame (conj eq_refl (conj eq_refl eq_refl))) as H.
  split; [exact (proj1 H)|].
  exact (proj1 (proj2 (proj2 (proj2 H)) Hdefault)).
Defined.
